(** * The replicated SQL access layer of [sqlstore/store.go]

    A shallow embedding of the connection supervisor ([SqlStore]), its
    replica router ([GetReplica], [GetSearchReplicaX]), the health monitor
    ([monitorReplicas]), the lag probes ([ReplicaLagAbs], [ReplicaLagTime]),
    the shutdown sequence ([Close]) and the start-up version gate
    ([ensureMinimumDBVersion]), together with the properties the
    specification states about them. *)

From Stdlib Require Import ZArith String Ascii List Bool Lia.
From Stdlib Require Import DecimalString.
From stdpp Require Import base tactics option numbers list strings relations.

Local Open Scope string_scope.
Local Open Scope Z_scope.

(** ** Go values *)

Module Go.

(** A Go call either returns or panics (index out of range, nil
    dereference). *)
Inductive result (A : Type) : Type :=
| Ok (a : A)
| Panic (msg : string).
Arguments Ok {A} a.
Arguments Panic {A} msg.

Definition bind {A B} (r : result A) (k : A -> result B) : result B :=
  match r with
  | Ok a => k a
  | Panic m => Panic m
  end.

Definition returns {A} (r : result A) : bool :=
  match r with Ok _ => true | Panic _ => false end.

(** [int64] arithmetic wraps around silently. *)
Definition wrap64 (z : Z) : Z := (z + 2 ^ 63) mod 2 ^ 64 - 2 ^ 63.

(** [atomic.AddInt64(&c, delta)]: the new value, which is also stored. *)
Definition AddInt64 (c delta : Z) : Z := wrap64 (c + delta).

(** Go's [/] and [%] on integers truncate toward zero. *)
Definition div (a b : Z) : Z := Z.quot a b.
Definition rem (a b : Z) : Z := Z.rem a b.

(** [l[i]] with the run-time bounds check. *)
Definition index {A} (l : list A) (i : Z) : result A :=
  if (i <? 0) || (Z.of_nat (length l) <=? i) then Panic "index out of range"
  else match l !! Z.to_nat i with
       | Some a => Ok a
       | None => Panic "index out of range"
       end.

End Go.

Notation "'let*' x ':=' r 'in' k" := (Go.bind r (fun x => k))
  (at level 10, x name, r at level 100, k at level 200, only parsing).

(** ** Data model *)

(** A [*sql.DB] is identified by the connection it stands for. *)
Definition sqlDB := nat.

(** [sqlxDBWrapper]: the underlying connection (nil in the offline
    placeholder) and the online flag. *)
Record sqlxDBWrapper := {
  DB : option sqlDB;
  isOnline : bool
}.

(** A [*sqlxDBWrapper]; [None] is the nil pointer. *)
Abbreviation wrapperPtr := (option sqlxDBWrapper).

(** The placeholder [&sqlxDBWrapper{isOnline: &atomic.Bool{}}] stored by
    [initConnection] for a replica that could not be reached. *)
Definition offlineWrapper : sqlxDBWrapper := {| DB := None; isOnline := false |}.

(** Modelled from the spec: the constructor [newSqlxDBWrapper] and the
    accessor [Online] live in sqlx_wrapper.go, outside the excerpt. The
    spec's ConnectionHandle is a connection plus an online flag, and a
    handle published after a successful connect is marked online. *)
Definition newSqlxDBWrapper (h : sqlDB) : sqlxDBWrapper :=
  {| DB := Some h; isOnline := true |}.

(** Modelled from the spec: [Online], the accessor of the online flag, is
    declared next to the wrapper type in sqlx_wrapper.go. *)
Definition Online (w : sqlxDBWrapper) : bool := isOnline w.

(** [model.ReplicaLagSettings]: three [*string] fields. *)
Record ReplicaLagSetting := {
  LagDataSource : option string;
  QueryAbsoluteLag : option string;
  QueryTimeLag : option string
}.

(** The fields of [model.SqlSettings] the layer reads. The [*string] and
    [*int] fields are given by the values they point to;
    [ReplicaMonitorIntervalSeconds] is an [int], of 64 bits. *)
Record SqlSettings := {
  DriverName : string;
  DataSource : string;
  DataSourceReplicas : list string;
  DataSourceSearchReplicas : list string;
  ReplicaLagSettings : list ReplicaLagSetting;
  ReplicaMonitorIntervalSeconds : Z
}.

(** The fields of [SqlStore] the layer's behaviour depends on. A slot of
    [ReplicaXs] or [searchReplicaXs] is an [atomic.Pointer] and is given by
    the pointer it currently holds; [license] is a [*model.License], of
    which only being nil or not is read; [metrics] tells whether the
    metrics interface is non-nil. The quit channel and the wait group of the
    monitor are part of [system] below. *)
Record SqlStore := {
  rrCounter : Z;
  srCounter : Z;
  masterX : wrapperPtr;
  ReplicaXs : list wrapperPtr;
  searchReplicaXs : list wrapperPtr;
  replicaLagHandles : list sqlDB;
  settings : SqlSettings;
  lockedToMaster : bool;
  license : option unit;
  metrics : bool;
  skipMigrations : bool;
  disableMorphLogging : bool
}.

Definition set_rrCounter (c : Z) (ss : SqlStore) : SqlStore :=
  {| rrCounter := c; srCounter := srCounter ss; masterX := masterX ss;
     ReplicaXs := ReplicaXs ss; searchReplicaXs := searchReplicaXs ss;
     replicaLagHandles := replicaLagHandles ss; settings := settings ss;
     lockedToMaster := lockedToMaster ss; license := license ss;
     metrics := metrics ss; skipMigrations := skipMigrations ss;
     disableMorphLogging := disableMorphLogging ss |}.

Definition set_srCounter (c : Z) (ss : SqlStore) : SqlStore :=
  {| rrCounter := rrCounter ss; srCounter := c; masterX := masterX ss;
     ReplicaXs := ReplicaXs ss; searchReplicaXs := searchReplicaXs ss;
     replicaLagHandles := replicaLagHandles ss; settings := settings ss;
     lockedToMaster := lockedToMaster ss; license := license ss;
     metrics := metrics ss; skipMigrations := skipMigrations ss;
     disableMorphLogging := disableMorphLogging ss |}.

(** ** Replica router *)

Definition hasLicense (ss : SqlStore) : bool :=
  match license ss with Some _ => true | None => false end.

Definition GetMaster (ss : SqlStore) : wrapperPtr := masterX ss.

(** [p.Online()] on a pointer loaded from a slot. *)
Definition ptrOnline (p : wrapperPtr) : Go.result bool :=
  match p with
  | Some w => Go.Ok (Online w)
  | None => Go.Panic "nil pointer dereference"
  end.

(** The probe loop shared by both routers:
    [for i := 0; i < len(slots); i++ {
       rrNum := atomic.AddInt64(&counter, 1) % int64(len(slots))
       if slots[rrNum].Load().Online() { return slots[rrNum].Load() } }].
    [fuel] is the number of iterations left; the result carries the counter
    as the loop leaves it and the handle returned from inside the loop, if
    any. The body runs only for a non-empty pool, so the divisor is
    positive. *)
Fixpoint probe (fuel : nat) (counter : Z) (slots : list wrapperPtr)
  : Go.result (option wrapperPtr * Z) :=
  match fuel with
  | O => Go.Ok (None, counter)
  | S fuel' =>
      let counter' := Go.AddInt64 counter 1 in
      let rrNum := Go.rem counter' (Z.of_nat (length slots)) in
      let* p := Go.index slots rrNum in
      let* on := ptrOnline p in
      if on then Go.Ok (Some p, counter') else probe fuel' counter' slots
  end.

Definition GetReplica (ss : SqlStore) : Go.result (wrapperPtr * SqlStore) :=
  if (length (DataSourceReplicas (settings ss)) =? 0)%nat
     || lockedToMaster ss || negb (hasLicense ss)
  then Go.Ok (GetMaster ss, ss)
  else
    let* r := probe (length (ReplicaXs ss)) (rrCounter ss) (ReplicaXs ss) in
    let ss' := set_rrCounter (snd r) ss in
    match fst r with
    | Some p => Go.Ok (p, ss')
    | None => Go.Ok (GetMaster ss', ss')
    end.

Definition GetSearchReplicaX (ss : SqlStore) : Go.result (wrapperPtr * SqlStore) :=
  if negb (hasLicense ss) then Go.Ok (GetMaster ss, ss)
  else if (length (DataSourceSearchReplicas (settings ss)) =? 0)%nat
  then GetReplica ss
  else
    let* r := probe (length (searchReplicaXs ss)) (srCounter ss) (searchReplicaXs ss) in
    let ss' := set_srCounter (snd r) ss in
    match fst r with
    | Some p => Go.Ok (p, ss')
    | None => GetReplica ss'
    end.

Definition LockToMaster (ss : SqlStore) : SqlStore :=
  {| rrCounter := rrCounter ss; srCounter := srCounter ss; masterX := masterX ss;
     ReplicaXs := ReplicaXs ss; searchReplicaXs := searchReplicaXs ss;
     replicaLagHandles := replicaLagHandles ss; settings := settings ss;
     lockedToMaster := true; license := license ss;
     metrics := metrics ss; skipMigrations := skipMigrations ss;
     disableMorphLogging := disableMorphLogging ss |}.

Definition UpdateLicense (l : option unit) (ss : SqlStore) : SqlStore :=
  {| rrCounter := rrCounter ss; srCounter := srCounter ss; masterX := masterX ss;
     ReplicaXs := ReplicaXs ss; searchReplicaXs := searchReplicaXs ss;
     replicaLagHandles := replicaLagHandles ss; settings := settings ss;
     lockedToMaster := lockedToMaster ss; license := l;
     metrics := metrics ss; skipMigrations := skipMigrations ss;
     disableMorphLogging := disableMorphLogging ss |}.

Definition UnlockFromMaster (ss : SqlStore) : SqlStore :=
  {| rrCounter := rrCounter ss; srCounter := srCounter ss; masterX := masterX ss;
     ReplicaXs := ReplicaXs ss; searchReplicaXs := searchReplicaXs ss;
     replicaLagHandles := replicaLagHandles ss; settings := settings ss;
     lockedToMaster := false; license := license ss;
     metrics := metrics ss; skipMigrations := skipMigrations ss;
     disableMorphLogging := disableMorphLogging ss |}.

(** ** Errors and decimal conversions *)

(** Go [error] values as the layer meets them: a [*pq.Error] with its
    SQLSTATE code, a plain message, a [*strconv.NumError], a github.com/pkg/errors
    wrapper (which has both [Cause] and [Unwrap]) and a [fmt.Errorf("%w")]
    wrapper (which has [Unwrap] only). *)
Inductive error : Type :=
| PqError (code : string) (message : string)
| ErrorString (msg : string)
| NumError (func num err : string)
| WithCause (msg : string) (cause : error)
| WrapError (msg : string) (inner : error).

(** [strconv.Itoa] *)
Definition Itoa (z : Z) : string := NilZero.string_of_int (Z.to_int z).

Definition quoteChar : string := String (ascii_of_nat 34) EmptyString.

(** [err.Error()]. The [NumError] text quotes the input; the escaping that
    [strconv.Quote] applies to unprintable characters is left out. *)
Fixpoint errorText (e : error) : string :=
  match e with
  | PqError code message => "pq: " ++ message
  | ErrorString msg => msg
  | NumError func num err =>
      "strconv." ++ func ++ ": parsing " ++ quoteChar ++ num ++ quoteChar ++ ": " ++ err
  | WithCause msg cause => msg ++ ": " ++ errorText cause
  | WrapError msg inner => msg ++ ": " ++ errorText inner
  end.

Definition digitOf (a : ascii) : option Z :=
  let n := Z.of_N (N_of_ascii a) in
  if (48 <=? n) && (n <=? 57) then Some (n - 48) else None.

Fixpoint parseDigits (acc : Z) (s : string) : option Z :=
  match s with
  | EmptyString => Some acc
  | String a rest =>
      match digitOf a with
      | Some d => parseDigits (acc * 10 + d) rest
      | None => None
      end
  end.

(** [strconv.Atoi] on a 64-bit platform: an optional sign, then one or more
    decimal digits; a value outside [int64] is a range error. *)
Definition Atoi (s : string) : error + Z :=
  let '(neg, body) :=
    match s with
    | String "-" rest => (true, rest)
    | String "+" rest => (false, rest)
    | _ => (false, s)
    end in
  match body with
  | EmptyString => inl (NumError "Atoi" s "invalid syntax")
  | _ =>
      match parseDigits 0 body with
      | None => inl (NumError "Atoi" s "invalid syntax")
      | Some n =>
          let v := if neg then - n else n in
          if (- 2 ^ 63 <=? v) && (v <? 2 ^ 63) then inr v
          else inl (NumError "Atoi" s "value out of range")
      end
  end.

(** ** Constants of store.go *)

Definition PGDupTableErrorCode : string := "42P07".
Definition PGForeignKeyViolationErrorCode : string := "23503".
Definition PGDuplicateObjectErrorCode : string := "42710".
Definition DBPingAttempts : Z := 5.
Definition DBReplicaPingAttempts : Z := 2.
Definition minimumRequiredPostgresVersion : Z := 130000.
Definition replicaLagPrefix : string := "replica-lag".

(** Modelled from the spec: [model.DatabaseDriverPostgres] is declared in
    the model package, outside the excerpt; the layer described by the spec
    is the Postgres access layer and this is its driver name. *)
Definition DatabaseDriverPostgres : string := "postgres".

(** ** Version gate *)

Definition versionString (v : Z) (driver : string) : string :=
  let minor := Go.rem v 10000 in
  let major := Go.div v 10000 in
  Itoa major ++ "." ++ Itoa minor.

Definition ensureMinimumDBVersion (ss : SqlStore) (ver : string) : bool * option error :=
  if String.eqb (DriverName (settings ss)) DatabaseDriverPostgres then
    match Atoi ver with
    | inl err2 =>
        (false, Some (ErrorString ("cannot parse DB version: " ++ errorText err2)))
    | inr intVer =>
        if intVer <? minimumRequiredPostgresVersion then
          (false, Some (ErrorString
             ("minimum Postgres version requirements not met. Found: "
              ++ versionString intVer (DriverName (settings ss))
              ++ ", Wanted: "
              ++ versionString minimumRequiredPostgresVersion (DriverName (settings ss)))))
        else (true, None)
    end
  else (true, None).

(** ** Duplicate errors *)

(** [errors.Cause] of github.com/pkg/errors: follow [Cause()] while the
    error has one. *)
Fixpoint Cause (e : error) : error :=
  match e with
  | WithCause _ cause => Cause cause
  | _ => e
  end.

(** [errors.As(err, &pqErr)] for [pqErr *pq.Error]: follow [Unwrap()] until
    an error of that type is met; the result is its code. *)
Fixpoint AsPqError (e : error) : option string :=
  match e with
  | PqError code _ => Some code
  | WithCause _ cause => AsPqError cause
  | WrapError _ inner => AsPqError inner
  | ErrorString _ | NumError _ _ _ => None
  end.

(** The argument is a Go [error]; [None] is nil. *)
Definition IsDuplicate (err : option error) : bool :=
  match err with
  | None => false
  | Some e =>
      match AsPqError (Cause e) with
      | Some code => if String.eqb code PGDupTableErrorCode then true else false
      | None => false
      end
  end.

(** ** The outside world *)

(** What the layer does to its collaborators, in program order. *)
Inductive event : Type :=
| SetupConnection (name dsn : string) (pingAttempts : Z)
| RegisterDBCollector (db : sqlDB) (name : string)
| UnregisterDBCollector (db : sqlDB) (name : string)
| Warn (msg db : string)
| QueryRow (db : sqlDB) (query : string)
| SetReplicaLagAbsolute (node : string) (value : Z)
| SetReplicaLagTime (node : string) (value : Z)
| CloseMaster (db : option sqlDB)
| CloseReplica (db : option sqlDB)
| CloseSearchReplica (db : option sqlDB)
| CloseLagHandle (db : sqlDB)
| CloseQuitMonitor
| MonitorDone.

(** [sqlUtils.SetupConnection(logger, name, dsn, settings, attempts)]: the
    answer of the network. *)
Definition dialer := string -> string -> Z -> error + sqlDB.

(** [db.QueryRow(query).Scan(&node, &value)]: one row of a node identifier
    and a lag value. The value is a [float64] that the layer forwards
    untouched; it is kept as an opaque number. *)
Definition rowQuery := sqlDB -> string -> error + (string * Z).

(** [wrapper.Get(&version, query)] for a string result. *)
Definition getQuery := sqlxDBWrapper -> string -> error + string.

Definition set_slots (read search : list wrapperPtr) (ss : SqlStore) : SqlStore :=
  {| rrCounter := rrCounter ss; srCounter := srCounter ss; masterX := masterX ss;
     ReplicaXs := read; searchReplicaXs := search;
     replicaLagHandles := replicaLagHandles ss; settings := settings ss;
     lockedToMaster := lockedToMaster ss; license := license ss;
     metrics := metrics ss; skipMigrations := skipMigrations ss;
     disableMorphLogging := disableMorphLogging ss |}.

Definition set_masterX (m : wrapperPtr) (ss : SqlStore) : SqlStore :=
  {| rrCounter := rrCounter ss; srCounter := srCounter ss; masterX := m;
     ReplicaXs := ReplicaXs ss; searchReplicaXs := searchReplicaXs ss;
     replicaLagHandles := replicaLagHandles ss; settings := settings ss;
     lockedToMaster := lockedToMaster ss; license := license ss;
     metrics := metrics ss; skipMigrations := skipMigrations ss;
     disableMorphLogging := disableMorphLogging ss |}.

Definition set_replicaLagHandles (hs : list sqlDB) (ss : SqlStore) : SqlStore :=
  {| rrCounter := rrCounter ss; srCounter := srCounter ss; masterX := masterX ss;
     ReplicaXs := ReplicaXs ss; searchReplicaXs := searchReplicaXs ss;
     replicaLagHandles := hs; settings := settings ss;
     lockedToMaster := lockedToMaster ss; license := license ss;
     metrics := metrics ss; skipMigrations := skipMigrations ss;
     disableMorphLogging := disableMorphLogging ss |}.

(** ** Opening the connections *)

(** [setDB]: store a fresh online wrapper into the slot and, with a metrics
    sink, register its collector. The result is the slot's new content. *)
Definition setDB (hasMetrics : bool) (handle : sqlDB) (name : string)
  : wrapperPtr * list event :=
  (Some (newSqlxDBWrapper handle),
   if hasMetrics then [RegisterDBCollector handle name] else []).

(** One iteration of the replica loops of [initConnection]; [dialName] is
    the name given to [SetupConnection], [regName] the one given to [setDB]
    (the search loop spells them differently). *)
Definition initSlot (dial : dialer) (hasMetrics : bool)
    (dialName regName dsn : string) : wrapperPtr * list event :=
  match dial dialName dsn DBReplicaPingAttempts with
  | inl err =>
      (Some offlineWrapper,
       [SetupConnection dialName dsn DBReplicaPingAttempts;
        Warn "Failed to setup connection. Skipping.." dialName])
  | inr handle =>
      let '(p, evs) := setDB hasMetrics handle regName in
      (p, SetupConnection dialName dsn DBReplicaPingAttempts :: evs)
  end.

Fixpoint initPool (dial : dialer) (hasMetrics : bool) (dialPrefix regPrefix : string)
    (i : nat) (dsns : list string) : list wrapperPtr * list event :=
  match dsns with
  | [] => ([], [])
  | dsn :: rest =>
      let '(p, evs) := initSlot dial hasMetrics
                         (dialPrefix ++ Itoa (Z.of_nat i))
                         (regPrefix ++ Itoa (Z.of_nat i)) dsn in
      let '(ps, evs') := initPool dial hasMetrics dialPrefix regPrefix (S i) rest in
      (p :: ps, (evs ++ evs')%list)
  end.

(** The lag loop of [initConnection]: a handle is appended only for a target
    that has a data source and whose connection opened. *)
Fixpoint initLagHandles (dial : dialer) (i : nat) (targets : list ReplicaLagSetting)
  : list sqlDB * list event :=
  match targets with
  | [] => ([], [])
  | src :: rest =>
      let '(hs, evs') := initLagHandles dial (S i) rest in
      match LagDataSource src with
      | None => (hs, evs')
      | Some dsn =>
          let name := replicaLagPrefix ++ "-" ++ Itoa (Z.of_nat i) in
          match dial name dsn DBReplicaPingAttempts with
          | inl err =>
              (hs, SetupConnection name dsn DBReplicaPingAttempts
                   :: Warn "Failed to setup replica lag handle. Skipping.." name :: evs')
          | inr handle =>
              (handle :: hs, SetupConnection name dsn DBReplicaPingAttempts :: evs')
          end
      end
  end.

Definition initConnection (dial : dialer) (ss : SqlStore)
  : option error * SqlStore * list event :=
  let st := settings ss in
  match dial "master" (DataSource st) DBPingAttempts with
  | inl err => (Some err, ss, [SetupConnection "master" (DataSource st) DBPingAttempts])
  | inr handle =>
      let ss1 := set_masterX (Some (newSqlxDBWrapper handle)) ss in
      let ev0 := SetupConnection "master" (DataSource st) DBPingAttempts
                 :: (if metrics ss then [RegisterDBCollector handle "master"] else []) in
      let '(read, ev1) :=
        match DataSourceReplicas st with
        | [] => (ReplicaXs ss, [])
        | dsns => initPool dial (metrics ss) "replica-" "replica-" 0 dsns
        end in
      let '(search, ev2) :=
        match DataSourceSearchReplicas st with
        | [] => (searchReplicaXs ss, [])
        | dsns => initPool dial (metrics ss) "search-replica-" "searchreplica-" 0 dsns
        end in
      let '(lag, ev3) :=
        match ReplicaLagSettings st with
        | [] => (replicaLagHandles ss, [])
        | targets => initLagHandles dial 0 targets
        end in
      (None,
       set_replicaLagHandles lag (set_slots read search ss1),
       (ev0 ++ ev1 ++ ev2 ++ ev3)%list)
  end.

(** ** Lag probes *)

(** The loop shared by [ReplicaLagAbs] and [ReplicaLagTime], which differ in
    the query field read ([field]) and in the metrics setter called
    ([setter]); [i] is the position of the head of [items] in
    [ReplicaLagSettings]. The result is the returned [error] and the
    queries and metric updates made. *)
Fixpoint lagLoop (query : rowQuery) (hasMetrics : bool)
    (field : ReplicaLagSetting -> option string) (setter : string -> Z -> event)
    (handles : list sqlDB) (i : nat) (items : list ReplicaLagSetting)
  : Go.result (option error * list event) :=
  match items with
  | [] => Go.Ok (None, [])
  | item :: rest =>
      match field item with
      | None => lagLoop query hasMetrics field setter handles (S i) rest
      | Some text =>
          if String.eqb text "" then
            lagLoop query hasMetrics field setter handles (S i) rest
          else
            let* h := Go.index handles (Z.of_nat i) in
            match query h text with
            | inl err => Go.Ok (Some err, [QueryRow h text])
            | inr (node, value) =>
                if hasMetrics then
                  let* r := lagLoop query hasMetrics field setter handles (S i) rest in
                  Go.Ok (fst r, QueryRow h text :: setter node value :: snd r)
                else Go.Panic "nil pointer dereference"
            end
      end
  end.

Definition ReplicaLagAbs (query : rowQuery) (ss : SqlStore)
  : Go.result (option error * list event) :=
  lagLoop query (metrics ss) QueryAbsoluteLag SetReplicaLagAbsolute
          (replicaLagHandles ss) 0 (ReplicaLagSettings (settings ss)).

Definition ReplicaLagTime (query : rowQuery) (ss : SqlStore)
  : Go.result (option error * list event) :=
  lagLoop query (metrics ss) QueryTimeLag SetReplicaLagTime
          (replicaLagHandles ss) 0 (ReplicaLagSettings (settings ss)).

(** ** Start-up *)

(** [type Option func(s *SqlStore) error]: the store as the function leaves
    it, and the error it returns. *)
Definition Option := SqlStore -> SqlStore * option error.

Definition SkipMigrations : Option := fun s =>
  ({| rrCounter := rrCounter s; srCounter := srCounter s; masterX := masterX s;
      ReplicaXs := ReplicaXs s; searchReplicaXs := searchReplicaXs s;
      replicaLagHandles := replicaLagHandles s; settings := settings s;
      lockedToMaster := lockedToMaster s; license := license s;
      metrics := metrics s; skipMigrations := true;
      disableMorphLogging := disableMorphLogging s |}, None).

Definition DisableMorphLogging : Option := fun s =>
  ({| rrCounter := rrCounter s; srCounter := srCounter s; masterX := masterX s;
      ReplicaXs := ReplicaXs s; searchReplicaXs := searchReplicaXs s;
      replicaLagHandles := replicaLagHandles s; settings := settings s;
      lockedToMaster := lockedToMaster s; license := license s;
      metrics := metrics s; skipMigrations := skipMigrations s;
      disableMorphLogging := true |}, None).

(** [for _, option := range options { if err := option(store); err != nil
    { return nil, fmt.Errorf("failed to apply option: %w", err) } }] *)
Fixpoint applyOptions (options : list Option) (store : SqlStore) : error + SqlStore :=
  match options with
  | [] => inr store
  | option :: rest =>
      match option store with
      | (_, Some err) => inl (WrapError "failed to apply option" err)
      | (store', None) => applyOptions rest store'
      end
  end.

(** The store literal at the top of [New]; every field not listed there has
    its zero value. *)
Definition emptyStore (st : SqlSettings) (hasMetrics : bool) : SqlStore :=
  {| rrCounter := 0; srCounter := 0; masterX := None;
     ReplicaXs := []; searchReplicaXs := []; replicaLagHandles := [];
     settings := st; lockedToMaster := false; license := None;
     metrics := hasMetrics; skipMigrations := false; disableMorphLogging := false |}.

Definition GetDbVersion (get : getQuery) (numerical : bool) (ss : SqlStore)
  : Go.result ((error + string) * SqlStore) :=
  if String.eqb (DriverName (settings ss)) DatabaseDriverPostgres then
    let sqlVersion := if numerical then "SHOW server_version_num"
                      else "SHOW server_version" in
    let* r := GetReplica ss in
    match fst r with
    | None => Go.Panic "nil pointer dereference"
    | Some w =>
        match get w sqlVersion with
        | inl err => Go.Ok (inl err, snd r)
        | inr version => Go.Ok (inr version, snd r)
        end
    end
  else Go.Ok (inl (ErrorString "Not supported driver"), ss).

(** ** Health monitor *)

(** The closure [setupReplica] of [monitorReplicas], applied to the content
    [r] of a slot; the result is the content of the slot afterwards. *)
Definition setupReplica (dial : dialer) (hasMetrics : bool)
    (r : wrapperPtr) (dsn name : string) : Go.result (wrapperPtr * list event) :=
  let* on := ptrOnline r in
  if on then Go.Ok (r, [])
  else
    match dial name dsn 1 with
    | inl err =>
        Go.Ok (r, [SetupConnection name dsn 1;
                   Warn "Failed to setup connection. Skipping.." name])
    | inr handle =>
        let unregister :=
          match hasMetrics, r with
          | true, Some {| DB := Some db |} => [UnregisterDBCollector db name]
          | _, _ => []
          end in
        let '(p, evs) := setDB hasMetrics handle name in
        Go.Ok (p, (SetupConnection name dsn 1 :: unregister ++ evs)%list)
    end.

(** [for i, replica := range slots { setupReplica(replica, dsns[i], prefix+Itoa(i)) }],
    from position [i] on. *)
Fixpoint tickPool (dial : dialer) (hasMetrics : bool) (prefix : string)
    (dsns : list string) (i : nat) (slots : list wrapperPtr)
  : Go.result (list wrapperPtr * list event) :=
  match slots with
  | [] => Go.Ok ([], [])
  | r :: rest =>
      let* dsn := Go.index dsns (Z.of_nat i) in
      let* r' := setupReplica dial hasMetrics r dsn (prefix ++ Itoa (Z.of_nat i)) in
      let* rs := tickPool dial hasMetrics prefix dsns (S i) rest in
      Go.Ok (fst r' :: fst rs, (snd r' ++ snd rs)%list)
  end.

(** The body of the [case <-t.C:] branch. *)
Definition monitorTick (dial : dialer) (ss : SqlStore) : Go.result (SqlStore * list event) :=
  let* read := tickPool dial (metrics ss) "replica-"
                 (DataSourceReplicas (settings ss)) 0 (ReplicaXs ss) in
  let* search := tickPool dial (metrics ss) "search-replica-"
                   (DataSourceSearchReplicas (settings ss)) 0 (searchReplicaXs ss) in
  Go.Ok (set_slots (fst read) (fst search) ss, (snd read ++ snd search)%list).

(** One tick after the other, each with the answers the network gives at
    that time. *)
Fixpoint ticks (dials : list dialer) (ss : SqlStore) : Go.result (SqlStore * list event) :=
  match dials with
  | [] => Go.Ok (ss, [])
  | dial :: rest =>
      let* r := monitorTick dial ss in
      let* rs := ticks rest (fst r) in
      Go.Ok (fst rs, (snd r ++ snd rs)%list)
  end.

(** ** Start-up with the monitor running *)

(** [time.Second] as a [time.Duration]: nanoseconds in an [int64]. *)
Definition Second : Z := 1000000000.

(** The argument of [time.NewTicker] in [monitorReplicas]: the setting
    [ReplicaMonitorIntervalSeconds] converted to a [time.Duration] and
    multiplied by [time.Second]; the product is an [int64] and wraps
    around. *)
Definition tickerInterval (st : SqlSettings) : Z :=
  Go.wrap64 (ReplicaMonitorIntervalSeconds st * Second).

(** [time.NewTicker(d)] panics unless [d] is positive; the result is the
    period of the ticker. *)
Definition NewTicker (d : Z) : Go.result Z :=
  if d <=? 0 then Go.Panic "non-positive interval for NewTicker" else Go.Ok d.

(** How far the goroutine [monitorReplicas] has come while [New] runs on
    from its [go] statement: it has not been scheduled yet, or it has
    created its ticker and gone through the tick branch once for each
    element of [beforeQuery] before the version query of [New], and once
    for each element of [afterQuery] between that query and the verdict of
    the version gate, each time with the answers the network then gives. *)
Inductive monitorSchedule : Type :=
| NotScheduled
| Running (beforeQuery afterQuery : list dialer).

(** [monitorReplicas] from its first statement up to the version query of
    [New]. The panic of a goroutine ends the process, and [New] with it. *)
Definition monitorStarts (sched : monitorSchedule) (ss : SqlStore) : Go.result SqlStore :=
  match sched with
  | NotScheduled => Go.Ok ss
  | Running beforeQuery _ =>
      let* t := NewTicker (tickerInterval (settings ss)) in
      let* r := ticks beforeQuery ss in
      Go.Ok (fst r)
  end.

(** [monitorReplicas] between the version query and the verdict of the
    gate. *)
Definition monitorGoesOn (sched : monitorSchedule) (ss : SqlStore) : Go.result SqlStore :=
  match sched with
  | NotScheduled => Go.Ok ss
  | Running _ afterQuery =>
      let* r := ticks afterQuery ss in
      Go.Ok (fst r)
  end.

(** [New] up to and including the version check: the options, the
    connections, [wgMonitor.Add(1); go store.monitorReplicas()], the
    version query and the gate. The store is shared with the goroutine,
    which runs as [sched] says; the wait group is the counter of [system],
    which [started] takes up at 1. The result is the pair [New] returns at
    that point, or the store it goes on with, as it then is, and no error. *)
Definition NewVersionGate (dial : dialer) (get : getQuery) (st : SqlSettings)
    (hasMetrics : bool) (options : list Option) (sched : monitorSchedule)
  : Go.result (option SqlStore * option error) :=
  match applyOptions options (emptyStore st hasMetrics) with
  | inl err => Go.Ok (None, Some err)
  | inr store =>
      match initConnection dial store with
      | (Some err, _, _) =>
          Go.Ok (None, Some (WithCause "error setting up connections" err))
      | (None, store, _) =>
          let* store := monitorStarts sched store in
          let* r := GetDbVersion get true store in
          let* store := monitorGoesOn sched (snd r) in
          match fst r with
          | inl err => Go.Ok (None, Some (WithCause "error while getting DB version" err))
          | inr ver =>
              match ensureMinimumDBVersion store ver with
              | (false, err) =>
                  Go.Ok (None, option_map (WithCause "error while checking DB version") err)
              | (true, _) => Go.Ok (Some store, None)
              end
          end
      end
  end.

(** ** Shutdown *)

(** [for _, replica := range slots { if replica.Load().Online() { replica.Load().Close() } }] *)
Fixpoint closePool (mk : option sqlDB -> event) (slots : list wrapperPtr)
  : Go.result (list event) :=
  match slots with
  | [] => Go.Ok []
  | r :: rest =>
      let* on := ptrOnline r in
      let* evs := closePool mk rest in
      Go.Ok (if on then mk (r ≫= DB) :: evs else evs)
  end.

(** The three loops at the end of [Close]. *)
Definition closeHandles (ss : SqlStore) : Go.result (list event) :=
  let* read := closePool CloseReplica (ReplicaXs ss) in
  let* search := closePool CloseSearchReplica (searchReplicaXs ss) in
  Go.Ok (read ++ search ++ map CloseLagHandle (replicaLagHandles ss))%list.

(** Where [Close] stands: before each of its statements, and after the last. *)
Inductive closePc : Type :=
| AtCloseMaster
| AtCloseQuit
| AtWait
| AtCloseHandles
| Closed.

(** Where the goroutine [monitorReplicas] stands: blocked in [select],
    inside the tick branch, or returned (its deferred [wgMonitor.Done()]
    has run). *)
Inductive monitorPc : Type :=
| InSelect
| InTick
| Returned.

(** The store together with the channel, the wait group and the two
    threads of control. *)
Record system := {
  store : SqlStore;
  quitClosed : bool;
  wgMonitor : Z;
  closer : closePc;
  monitor : monitorPc;
  trace : list event
}.

(** The state [New] leaves behind: [wgMonitor.Add(1)], the monitor
    started, the channel open; [Close] is about to be called. *)
Definition started (ss : SqlStore) : system :=
  {| store := ss; quitClosed := false; wgMonitor := 1;
     closer := AtCloseMaster; monitor := InSelect; trace := [] |}.

(** Interleaving of [Close] and [monitorReplicas], one statement at a
    time. [select] may take the tick branch whenever the ticker has fired,
    also after the channel was closed; it takes the quit branch only once
    [quitMonitor] is closed. [wgMonitor.Wait()] returns only at counter 0. *)
Inductive step : system -> system -> Prop :=
| step_tick_begin s :
    monitor s = InSelect ->
    step s {| store := store s; quitClosed := quitClosed s; wgMonitor := wgMonitor s;
              closer := closer s; monitor := InTick; trace := trace s |}
| step_tick_end s dial ss' evs :
    monitor s = InTick ->
    monitorTick dial (store s) = Go.Ok (ss', evs) ->
    step s {| store := ss'; quitClosed := quitClosed s; wgMonitor := wgMonitor s;
              closer := closer s; monitor := InSelect;
              trace := (trace s ++ evs)%list |}
| step_quit s :
    monitor s = InSelect -> quitClosed s = true ->
    step s {| store := store s; quitClosed := quitClosed s;
              wgMonitor := wgMonitor s - 1;
              closer := closer s; monitor := Returned;
              trace := (trace s ++ [MonitorDone])%list |}
| step_close_master s w :
    closer s = AtCloseMaster -> masterX (store s) = Some w ->
    step s {| store := store s; quitClosed := quitClosed s; wgMonitor := wgMonitor s;
              closer := AtCloseQuit; monitor := monitor s;
              trace := (trace s ++ [CloseMaster (DB w)])%list |}
| step_close_quit s :
    closer s = AtCloseQuit -> quitClosed s = false ->
    step s {| store := store s; quitClosed := true; wgMonitor := wgMonitor s;
              closer := AtWait; monitor := monitor s;
              trace := (trace s ++ [CloseQuitMonitor])%list |}
| step_wait s :
    closer s = AtWait -> wgMonitor s = 0 ->
    step s {| store := store s; quitClosed := quitClosed s; wgMonitor := wgMonitor s;
              closer := AtCloseHandles; monitor := monitor s; trace := trace s |}
| step_close_handles s evs :
    closer s = AtCloseHandles -> closeHandles (store s) = Go.Ok evs ->
    step s {| store := store s; quitClosed := quitClosed s; wgMonitor := wgMonitor s;
              closer := Closed; monitor := monitor s;
              trace := (trace s ++ evs)%list |}.

(** The states an execution started in [started ss] can be in. *)
Definition reachable (ss : SqlStore) (s : system) : Prop := rtc step (started ss) s.

(** ** Direct access to the handles *)

(** [p.DB.DB] for a wrapper pointer [p]: the wrapper embeds a [*sqlx.DB],
    which is nil in the offline placeholder. *)
Definition ptrDB (p : wrapperPtr) : Go.result sqlDB :=
  match p with
  | Some w =>
      match DB w with
      | Some db => Go.Ok db
      | None => Go.Panic "nil pointer dereference"
      end
  | None => Go.Panic "nil pointer dereference"
  end.

Definition GetInternalMasterDB (ss : SqlStore) : Go.result sqlDB := ptrDB (GetMaster ss).

(** [SetMasterX]: the master is replaced by a fresh wrapper around [db]; no
    collector is registered. *)
Definition SetMasterX (db : sqlDB) (ss : SqlStore) : SqlStore :=
  set_masterX (Some (newSqlxDBWrapper db)) ss.

(** One increment of the rotation counter and the slot it designates,
    whether online or not. *)
Definition GetInternalReplicaDB (ss : SqlStore) : Go.result (sqlDB * SqlStore) :=
  if (length (DataSourceReplicas (settings ss)) =? 0)%nat
     || lockedToMaster ss || negb (hasLicense ss)
  then let* db := ptrDB (GetMaster ss) in Go.Ok (db, ss)
  else
    let counter' := Go.AddInt64 (rrCounter ss) 1 in
    if (length (ReplicaXs ss) =? 0)%nat then Go.Panic "integer divide by zero"
    else
      let rrNum := Go.rem counter' (Z.of_nat (length (ReplicaXs ss))) in
      let* p := Go.index (ReplicaXs ss) rrNum in
      let* db := ptrDB p in
      Go.Ok (db, set_rrCounter counter' ss).

(** ** Connection counts *)

(** [db.Stats().OpenConnections] of the underlying handle. *)
Definition dbStats := sqlDB -> Z.

(** [for _, db := range slots { if !db.Load().Online() { continue };
    count = count + db.Load().Stats().OpenConnections }] *)
Fixpoint countOpen (stats : dbStats) (count : Z) (slots : list wrapperPtr)
  : Go.result Z :=
  match slots with
  | [] => Go.Ok count
  | r :: rest =>
      let* on := ptrOnline r in
      if negb on then countOpen stats count rest
      else
        let* db := ptrDB r in
        countOpen stats (Go.wrap64 (count + stats db)) rest
  end.

Definition TotalMasterDbConnections (stats : dbStats) (ss : SqlStore) : Go.result Z :=
  let* db := ptrDB (GetMaster ss) in Go.Ok (stats db).

Definition TotalReadDbConnections (stats : dbStats) (ss : SqlStore) : Go.result Z :=
  if (length (DataSourceReplicas (settings ss)) =? 0)%nat then Go.Ok 0
  else countOpen stats 0 (ReplicaXs ss).

Definition TotalSearchDbConnections (stats : dbStats) (ss : SqlStore) : Go.result Z :=
  if (length (DataSourceSearchReplicas (settings ss)) =? 0)%nat then Go.Ok 0
  else countOpen stats 0 (searchReplicaXs ss).

(** The loop of [GetAllConns] over the read slots. *)
Fixpoint onlineConns (slots : list wrapperPtr) : Go.result (list wrapperPtr) :=
  match slots with
  | [] => Go.Ok []
  | r :: rest =>
      let* on := ptrOnline r in
      let* all := onlineConns rest in
      Go.Ok (if on then r :: all else all)
  end.

Definition GetAllConns (ss : SqlStore) : Go.result (list wrapperPtr) :=
  let* all := onlineConns (ReplicaXs ss) in
  Go.Ok (all ++ [masterX ss])%list.

(** ** Unique-constraint errors *)

Fixpoint isPrefix (p s : string) : bool :=
  match p, s with
  | EmptyString, _ => true
  | String a p', String b s' => if Ascii.eqb a b then isPrefix p' s' else false
  | String _ _, EmptyString => false
  end.

(** [strings.Contains(s, substr)] *)
Fixpoint Contains (s substr : string) : bool :=
  isPrefix substr s ||
  match s with
  | EmptyString => false
  | String _ s' => Contains s' substr
  end.

(** The loop [for _, contain := range indexName { if strings.Contains(err.Error(), contain)
    { field = true; break } }]; [err.Error()] on a nil error panics. *)
Fixpoint fieldMatches (err : option error) (indexName : list string) : Go.result bool :=
  match indexName with
  | [] => Go.Ok false
  | contain :: rest =>
      match err with
      | None => Go.Panic "nil pointer dereference"
      | Some e =>
          if Contains (errorText e) contain then Go.Ok true
          else fieldMatches err rest
      end
  end.

(** The type assertion of [err] to a [*pq.Error] looks at the error itself,
    not at what it wraps. *)
Definition IsUniqueConstraintError (err : option error) (indexName : list string)
  : Go.result bool :=
  let unique :=
    match err with
    | Some (PqError code _) => String.eqb code "23505"
    | _ => false
    end in
  let* field := fieldMatches err indexName in
  Go.Ok (unique && field).

(** ** Local schema version *)

(** The loop of [GetLocalSchemaVersion] over the names of the migration
    files; [submatch] is [models.Regex.FindStringSubmatch], declared in the
    morph library. *)
Fixpoint maxMigrationVersion (submatch : string -> list string)
    (maxVersion : Z) (names : list string) : Z * option error :=
  match names with
  | [] => (maxVersion, None)
  | name :: rest =>
      let m := submatch name in
      if (length m <? 2)%nat then
        (0, Some (ErrorString ("migration file name incorrectly formed: " ++ name)))
      else
        match Atoi (nth 1 m "") with
        | inl err => (0, Some err)
        | inr version =>
            maxMigrationVersion submatch
              (if maxVersion <? version then version else maxVersion) rest
        end
  end.

(** [readDir] is the outcome of [assets.ReadDir]. *)
Definition GetLocalSchemaVersion (submatch : string -> list string)
    (readDir : error + list string) : Z * option error :=
  match readDir with
  | inl err => (0, Some err)
  | inr assetsList => maxMigrationVersion submatch 0 assetsList
  end.

(** ** Full-text column lists *)

Fixpoint dropChars (n : nat) (s : string) : string :=
  match n, s with
  | O, _ => s
  | S n', String _ s' => dropChars n' s'
  | S _, EmptyString => EmptyString
  end.

(** The text before the first occurrence of [sep] in [s] and the text after
    it, if [sep] occurs ([strings.Index] and the two slices of [genSplit]). *)
Fixpoint cutAt (sep s : string) : option (string * string) :=
  if isPrefix sep s then Some ("", dropChars (String.length sep) s)
  else
    match s with
    | EmptyString => None
    | String a s' =>
        match cutAt sep s' with
        | Some (before, after) => Some (String a before, after)
        | None => None
        end
    end.

Fixpoint splitLoop (fuel : nat) (sep s : string) : list string :=
  match fuel with
  | O => [s]
  | S fuel' =>
      match cutAt sep s with
      | Some (before, after) => before :: splitLoop fuel' sep after
      | None => [s]
      end
  end.

(** [strings.Split(s, sep)] for a non-empty [sep]: at most [len(s)] cuts. *)
Definition Split (s sep : string) : list string := splitLoop (String.length s) sep s.

(** The loop of [convertMySQLFullTextColumnsToPostgres]: [n] is
    [len(columns)], [i] the position of the head of [columns]. *)
Fixpoint concatColumns (n i : nat) (concatenatedColumnNames : string)
    (columns : list string) : string :=
  match columns with
  | [] => concatenatedColumnNames
  | c :: rest =>
      let s1 := concatenatedColumnNames ++ c in
      concatColumns n (S i)
        (if (i <? n - 1)%nat then s1 ++ " || ' ' || " else s1) rest
  end.

Definition convertMySQLFullTextColumnsToPostgres (columnNames : string) : string :=
  let columns := Split columnNames ", " in
  concatColumns (length columns) 0 "" columns.

(** ** Vocabulary of the statements about a pool of slots *)

(** Every slot has had a handle stored into it. *)
Definition slotsLoaded (slots : list wrapperPtr) : Prop :=
  Forall (fun p : wrapperPtr => p <> None) slots.

(** The slot inspected for the counter value [c]. *)
Definition slotOf (slots : list wrapperPtr) (c : Z) : nat :=
  Z.to_nat (c mod Z.of_nat (length slots)).

Definition offlineAt (slots : list wrapperPtr) (c : Z) : Prop :=
  exists w, slots !! slotOf slots c = Some (Some w) /\ Online w = false.

Definition onlineAt (slots : list wrapperPtr) (c : Z) (w : sqlxDBWrapper) : Prop :=
  slots !! slotOf slots c = Some (Some w) /\ Online w = true.

Definition allOffline (slots : list wrapperPtr) : Prop :=
  Forall (fun p : wrapperPtr => exists w, p = Some w /\ Online w = false) slots.

(** The counter is non-negative and [n] further increments do not leave
    the [int64] range. *)
Definition counterInRange (c : Z) (n : nat) : Prop :=
  0 <= c /\ c + Z.of_nat n < 2 ^ 63.

(** The guard of [GetReplica]: no replica is configured, or the store is
    locked to the master, or no license is installed. *)
Definition routedToMaster (ss : SqlStore) : Prop :=
  DataSourceReplicas (settings ss) = [] \/ lockedToMaster ss = true \/ license ss = None.

(** Some slot of the pool holds an online handle. *)
Definition someOnline (slots : list wrapperPtr) : Prop :=
  exists i w, slots !! i = Some (Some w) /\ Online w = true.

(** The pools have one slot per configured data source, as
    [initConnection] builds them. *)
Definition poolsMatchSettings (ss : SqlStore) : Prop :=
  length (ReplicaXs ss) = length (DataSourceReplicas (settings ss)) /\
  length (searchReplicaXs ss) = length (DataSourceSearchReplicas (settings ss)).

(** ** Vocabulary of the statements about messages and errors *)

(** [sub] occurs in [msg]. *)
Definition contains (msg sub : string) : Prop :=
  exists pre post, msg = pre ++ sub ++ post.

(** The error at the bottom of a chain of wrappers. *)
Fixpoint rootCause (e : error) : error :=
  match e with
  | WithCause _ cause => rootCause cause
  | WrapError _ inner => rootCause inner
  | _ => e
  end.

(** ** Vocabulary of the statements about lag probes *)

(** The query a target asks for, if it has a non-empty text, with the
    handle found at the target's own position. *)
Definition lagTarget (field : ReplicaLagSetting -> option string)
    (handles : list sqlDB) (i : nat) (item : ReplicaLagSetting)
  : option (sqlDB * string) :=
  match field item, handles !! i with
  | Some text, Some h => if String.eqb text "" then None else Some (h, text)
  | _, _ => None
  end.

(** The targets to query among [items], whose first element stands at
    position [i] of [ReplicaLagSettings]. *)
Definition lagTargetsFrom (field : ReplicaLagSetting -> option string)
    (handles : list sqlDB) (i : nat) (items : list ReplicaLagSetting)
  : list (sqlDB * string) :=
  omap id (imap (fun j => lagTarget field handles (i + j)) items).

Definition lagTargets (field : ReplicaLagSetting -> option string)
    (handles : list sqlDB) (items : list ReplicaLagSetting) : list (sqlDB * string) :=
  lagTargetsFrom field handles 0 items.

(** The queries of a trace, in order. *)
Definition queriesOf (tr : list event) : list (sqlDB * string) :=
  omap (fun e => match e with QueryRow h q => Some (h, q) | _ => None end) tr.

Definition succeeds (query : rowQuery) (t : sqlDB * string) : Prop :=
  exists row, query (fst t) (snd t) = inr row.

(** ** Vocabulary of the statements about the health monitor *)

Definition isSetup (e : event) : bool :=
  match e with SetupConnection _ _ _ => true | _ => false end.

Definition isRegister (e : event) : bool :=
  match e with RegisterDBCollector _ _ => true | _ => false end.

(** The connection attempts, and the collector registrations, of a trace. *)
Definition attemptsOf (evs : list event) : list event := List.filter isSetup evs.
Definition registrationsOf (evs : list event) : list event := List.filter isRegister evs.

(** The pools are as [initConnection] leaves them: one loaded slot per
    configured data source. *)
Definition storeReady (ss : SqlStore) : Prop :=
  poolsMatchSettings ss /\ slotsLoaded (ReplicaXs ss) /\ slotsLoaded (searchReplicaXs ss).

(** What one tick does to a slot holding [w]: [p] is the slot afterwards,
    [evs] what was done for it. *)
Definition healed (dial : dialer) (hasMetrics : bool) (w : sqlxDBWrapper)
    (dsn name : string) (p : wrapperPtr) (evs : list event) : Prop :=
  (Online w = true -> p = Some w /\ evs = []) /\
  (Online w = false ->
     attemptsOf evs = [SetupConnection name dsn 1] /\
     (forall err, dial name dsn 1 = inl err ->
        p = Some w /\ registrationsOf evs = []) /\
     (forall h, dial name dsn 1 = inr h ->
        p = Some (newSqlxDBWrapper h) /\ Online (newSqlxDBWrapper h) = true /\
        registrationsOf evs
        = if hasMetrics then [RegisterDBCollector h name] else [])).

(** [outs] holds, for every slot of the pool, its content after the tick
    and the events of its own treatment; [i] is the position of the first
    slot. *)
Definition slotOutcomes (dial : dialer) (hasMetrics : bool) (prefix : string)
    (dsns : list string) (i : nat) (slots : list wrapperPtr)
    (outs : list (wrapperPtr * list event)) : Prop :=
  length outs = length slots /\
  forall j r, slots !! j = Some r ->
    exists w dsn p evs,
      r = Some w /\ dsns !! (i + j)%nat = Some dsn /\ outs !! j = Some (p, evs) /\
      healed dial hasMetrics w dsn (prefix ++ Itoa (Z.of_nat (i + j))) p evs.

(** ** Vocabulary of the statements about shutdown *)

(** What the monitor does to the outside world. *)
Definition isMonitorEvent (e : event) : bool :=
  match e with
  | SetupConnection _ _ _ | RegisterDBCollector _ _
  | UnregisterDBCollector _ _ | Warn _ _ => true
  | _ => false
  end.

(** The closing of a replica, search-replica or lag-probe handle. *)
Definition isHandleClose (e : event) : bool :=
  match e with
  | CloseReplica _ | CloseSearchReplica _ | CloseLagHandle _ => true
  | _ => false
  end.

(** How far the shutdown has come. *)
Inductive phase : Type :=
| Serving
| MasterClosed
| QuitSignalled
| MonitorStopped.

(** The order the specification prescribes, as an automaton over the trace:
    monitor activity, the master closed, monitor activity, the quit channel
    closed, monitor activity, the monitor done, and from then on nothing
    but handles being closed. *)
Definition advance (ph : phase) (e : event) : option phase :=
  match ph, e with
  | MonitorStopped, _ => if isHandleClose e then Some MonitorStopped else None
  | Serving, CloseMaster _ => Some MasterClosed
  | MasterClosed, CloseQuitMonitor => Some QuitSignalled
  | QuitSignalled, MonitorDone => Some MonitorStopped
  | _, _ => if isMonitorEvent e then Some ph else None
  end.

Fixpoint shutdownPhase (ph : phase) (tr : list event) : option phase :=
  match tr with
  | [] => Some ph
  | e :: tr' =>
      match advance ph e with
      | Some ph' => shutdownPhase ph' tr'
      | None => None
      end
  end.

(** The phase that goes with the control points of the two threads. *)
Definition phaseOf (s : system) : phase :=
  match closer s, monitor s with
  | AtCloseMaster, _ => Serving
  | AtCloseQuit, _ => MasterClosed
  | AtWait, Returned => MonitorStopped
  | AtWait, _ => QuitSignalled
  | AtCloseHandles, _ | Closed, _ => MonitorStopped
  end.

(** The invariant of the interleaving. *)
Definition shutdownInv (s : system) : Prop :=
  shutdownPhase Serving (trace s) = Some (phaseOf s) /\
  wgMonitor s = (match monitor s with Returned => 0 | _ => 1 end) /\
  quitClosed s = (match closer s with AtCloseMaster | AtCloseQuit => false | _ => true end) /\
  (monitor s = Returned -> quitClosed s = true) /\
  (match closer s with
   | AtCloseHandles | Closed => monitor s = Returned
   | _ => True
   end).

(** The shape of a trace up to a point where the monitor is done: monitor
    activity interleaved with the closing of the master and of the quit
    channel, in that order, then the monitor's acknowledgement, then handles
    being closed. *)
Definition monitorStoppedShape (tr : list event) : Prop :=
  exists t1 m t2 t3 t4,
    tr = (t1 ++ CloseMaster m :: t2 ++ CloseQuitMonitor :: t3 ++ MonitorDone :: t4)%list /\
    Forall (fun e => isMonitorEvent e = true) (t1 ++ t2 ++ t3)%list /\
    Forall (fun e => isHandleClose e = true) t4.

(** ** Vocabulary of the statements about start-up *)

(** An option that leaves the license alone, as both options of store.go
    do. *)
Definition keepsLicense (o : Option) : Prop :=
  forall s, license (fst (o s)) = license s.

(** An option that leaves the settings and the two pools alone, as both
    options of store.go do. *)
Definition keepsPools (o : Option) : Prop :=
  forall s, settings (fst (o s)) = settings s /\
            ReplicaXs (fst (o s)) = ReplicaXs s /\
            searchReplicaXs (fst (o s)) = searchReplicaXs s.

(** ** Vocabulary of the further statements about the router *)

Definition allOnline (slots : list wrapperPtr) : Prop :=
  Forall (fun p : wrapperPtr => exists w, p = Some w /\ Online w = true) slots.

(** [k] calls of [GetReplica] one after the other: the handles returned, in
    order, and the store after the last call. *)
Fixpoint callGetReplica (k : nat) (ss : SqlStore)
  : Go.result (list wrapperPtr * SqlStore) :=
  match k with
  | O => Go.Ok ([], ss)
  | S k' =>
      let* r := GetReplica ss in
      let* rs := callGetReplica k' (snd r) in
      Go.Ok (fst r :: fst rs, snd rs)
  end.

(** The pointer holds an online wrapper. *)
Definition onlinePtr (p : wrapperPtr) : bool :=
  match p with Some w => Online w | None => false end.

(** Every slot is loaded and every online wrapper has its connection. *)
Definition slotsUsable (slots : list wrapperPtr) : Prop :=
  Forall (fun p : wrapperPtr =>
            exists w, p = Some w /\ (Online w = true -> DB w <> None)) slots.

(** The connections behind the online slots, in order. *)
Definition onlineDBs (slots : list wrapperPtr) : list sqlDB :=
  omap (fun p : wrapperPtr => if onlinePtr p then p ≫= DB else None) slots.

Definition sumZ (l : list Z) : Z := foldr Z.add 0 l.

(** ** Vocabulary of the further statements about start-up and the monitor *)

(** What a slot holds after [initConnection]: an online wrapper if the
    connection opened, the offline placeholder if not. *)
Definition openedSlot (dial : dialer) (name dsn : string) : wrapperPtr :=
  match dial name dsn DBReplicaPingAttempts with
  | inl _ => Some offlineWrapper
  | inr h => Some (newSqlxDBWrapper h)
  end.

(** A slot holds the offline placeholder or an online wrapper around a
    connection: no offline wrapper keeps a connection. *)
Definition slotCanonical (p : wrapperPtr) : Prop :=
  p = Some offlineWrapper \/ exists h, p = Some (newSqlxDBWrapper h).

Definition isUnregister (e : event) : bool :=
  match e with UnregisterDBCollector _ _ => true | _ => false end.

(** Every lag target has a data source and its probe connection opens;
    [i] is the position of the first target. *)
Definition lagTargetsOpen (dial : dialer) (i : nat) (targets : list ReplicaLagSetting)
  : Prop :=
  forall j t, targets !! j = Some t ->
    exists dsn h,
      LagDataSource t = Some dsn /\
      dial (replicaLagPrefix ++ "-" ++ Itoa (Z.of_nat (i + j))) dsn DBReplicaPingAttempts
      = inr h.

(** ** Vocabulary of the further statements about shutdown *)



(** ** Vocabulary of the statements about column lists *)

(** [strings.Join(names, sep)] *)
Fixpoint Join (names : list string) (sep : string) : string :=
  match names with
  | [] => ""
  | [name] => name
  | name :: rest => name ++ sep ++ Join rest sep
  end.

(** No comma in the name. *)
Fixpoint commaFree (name : string) : bool :=
  match name with
  | EmptyString => true
  | String a rest => negb (Ascii.eqb a ",") && commaFree rest
  end.

(** The closings [Close] owes to a pool: one for each online slot, in
    order. *)
Definition closingsOf (mk : option sqlDB -> event) (slots : list wrapperPtr)
  : list event :=
  (fun p : wrapperPtr => mk (p ≫= DB)) <$> List.filter onlinePtr slots.

(** All the closings [Close] owes to the handles of a store. *)
Definition handleClosings (ss : SqlStore) : list event :=
  (closingsOf CloseReplica (ReplicaXs ss)
   ++ closingsOf CloseSearchReplica (searchReplicaXs ss)
   ++ (CloseLagHandle <$> replicaLagHandles ss))%list.

(** The slots of a pool that are offline. *)
Definition offlineSlots (slots : list wrapperPtr) : list wrapperPtr :=
  List.filter (fun p => negb (onlinePtr p)) slots.

(** Until [Close] has returned no handle has been closed; once it has,
    the trace ends with the closings owed to the store as it then is. *)
Definition closedInv (s : system) : Prop :=
  storeReady (store s) /\ shutdownInv s /\
  match closer s with
  | Closed =>
      exists pre, trace s = (pre ++ handleClosings (store s))%list /\
                  Forall (fun e => isHandleClose e = false) pre
  | _ => Forall (fun e => isHandleClose e = false) (trace s)
  end.

(** ** Sample stores *)

Module Sample.

Definition master : sqlxDBWrapper := newSqlxDBWrapper 0%nat.

Definition cfg (replicas searchReplicas : list string)
    (lag : list ReplicaLagSetting) : SqlSettings :=
  {| DriverName := "postgres"; DataSource := "postgres://master";
     DataSourceReplicas := replicas; DataSourceSearchReplicas := searchReplicas;
     ReplicaLagSettings := lag; ReplicaMonitorIntervalSeconds := 5 |}.

Definition store (st : SqlSettings) (read search : list wrapperPtr)
    (locked : bool) (lic : option unit) : SqlStore :=
  {| rrCounter := 0; srCounter := 0; masterX := Some master;
     ReplicaXs := read; searchReplicaXs := search; replicaLagHandles := [];
     settings := st; lockedToMaster := locked; license := lic;
     metrics := true; skipMigrations := false; disableMorphLogging := false |}.

(** Three read replicas, of which only the last is online; licensed. *)
Definition threeReplicas : SqlStore :=
  store (cfg ["r0"; "r1"; "r2"] [] [])
        [Some offlineWrapper; Some offlineWrapper; Some (newSqlxDBWrapper 2%nat)]
        [] false (Some tt).

(** One online read replica and one online search replica; a license is
    installed and [LockToMaster] has been called. *)
Definition lockedWithSearch : SqlStore :=
  LockToMaster
    (UpdateLicense (Some tt)
       (store (cfg ["r0"] ["s0"] [])
              [Some (newSqlxDBWrapper 1%nat)] [Some (newSqlxDBWrapper 7%nat)]
              false None)).

(** One online read replica, no search replica; licensed. *)
Definition noSearch (locked : bool) : SqlStore :=
  store (cfg ["r0"] [] []) [Some (newSqlxDBWrapper 1%nat)] [] locked (Some tt).

(** Two lag targets, each with both queries, and a handle for each. *)
Definition lagTarget0 : ReplicaLagSetting :=
  {| LagDataSource := Some "postgres://lag0";
     QueryAbsoluteLag := Some "SELECT abs0"; QueryTimeLag := Some "SELECT time0" |}.

Definition lagTarget1 : ReplicaLagSetting :=
  {| LagDataSource := Some "postgres://lag1";
     QueryAbsoluteLag := Some "SELECT abs1"; QueryTimeLag := Some "SELECT time1" |}.

Definition twoLagTargets : SqlStore :=
  set_replicaLagHandles [10%nat; 11%nat]
    (store (cfg [] [] [lagTarget0; lagTarget1]) [] [] false None).

(** The first target's queries fail, the second's succeed. *)
Definition firstFails : rowQuery :=
  fun h q => if (h =? 10)%nat then inl (ErrorString "connection reset")
             else inr ("node1", 42).

Definition allSucceed : rowQuery := fun h q => inr ("node", 42).

(** The master answers; nothing else does. *)
Definition onlyMaster : dialer :=
  fun name dsn attempts =>
    if String.eqb name "master" then inr 0%nat
    else inl (ErrorString "connection refused").

(** One lag target with a data source and both queries. *)
Definition oneLagTarget : SqlSettings := cfg [] [] [lagTarget0].

(** A first target without a data source, then a complete one. *)
Definition secondLagTargetOnly : SqlSettings :=
  cfg [] []
      [ {| LagDataSource := None; QueryAbsoluteLag := None; QueryTimeLag := None |};
        lagTarget1 ].

Definition allAnswer : dialer := fun name dsn attempts => inr 5%nat.

(** One offline read replica and no metrics sink. *)
Definition offlineNoMetrics : SqlStore :=
  {| rrCounter := 0; srCounter := 0; masterX := Some master;
     ReplicaXs := [Some offlineWrapper]; searchReplicaXs := [];
     replicaLagHandles := [];
     settings := cfg ["r0"] [] []; lockedToMaster := false; license := None;
     metrics := false; skipMigrations := false; disableMorphLogging := false |}.

(** Three online read replicas; licensed. *)
Definition threeOnline : SqlStore :=
  store (cfg ["r0"; "r1"; "r2"] [] [])
        [Some (newSqlxDBWrapper 1%nat); Some (newSqlxDBWrapper 2%nat);
         Some (newSqlxDBWrapper 3%nat)]
        [] false (Some tt).

(** A start-up store with two complete lag targets. *)
Definition twoLagSettings : SqlStore :=
  emptyStore (cfg [] [] [lagTarget0; lagTarget1]) true.

(** The master, which is connection 0, reports version 12.5; every other
    handle reports 15.4. *)
Definition oldMaster : getQuery :=
  fun w q => match DB w with
             | Some O => inr "120005"
             | _ => inr "150004"
             end.

End Sample.

(* ================================================================== *)
(** * Properties *)

(** ** The probe loop *)

Section ProbeLoop.

Variable slots : list wrapperPtr.

Lemma wrap64_small z : - 2 ^ 63 <= z < 2 ^ 63 -> Go.wrap64 z = z.
Proof.
  intros Hz. unfold Go.wrap64.
  rewrite Z.mod_small by lia. lia.
Qed.

Lemma index_slotOf c :
  0 <= c -> slots <> [] ->
  exists p, slots !! slotOf slots c = Some p /\
            Go.index slots (Go.rem c (Z.of_nat (length slots))) = Go.Ok p.
Proof.
  intros Hc Hne.
  assert (Hn : 0 < Z.of_nat (length slots)) by (destruct slots; simpl in *; [done | lia]).
  unfold Go.rem. rewrite Z.rem_mod_nonneg by lia.
  pose proof (Z.mod_pos_bound c _ Hn) as Hb.
  destruct (slots !! slotOf slots c) as [p|] eqn:Hp.
  - exists p. split; [done|]. unfold Go.index.
    destruct (_ <? 0) eqn:E1; [lia|].
    destruct (_ <=? _) eqn:E2; [lia|]. simpl.
    unfold slotOf in Hp. by rewrite Hp.
  - apply lookup_ge_None in Hp. unfold slotOf in Hp. lia.
Qed.

(** A handle returned from inside the loop is the online content of a
    slot, whatever the counter was. *)
Lemma probe_found fuel : forall c p c',
  probe fuel c slots = Go.Ok (Some p, c') ->
  exists i w, slots !! i = Some (Some w) /\ Online w = true /\ p = Some w.
Proof.
  induction fuel as [|fuel IH]; intros c p c' H; simpl in H; [done|].
  unfold Go.index in H.
  destruct (_ || _); simpl in H; [done|].
  destruct (slots !! _) as [q|] eqn:Hq; simpl in H; [|done].
  destruct q as [w|]; simpl in H; [|done].
  destruct (Online w) eqn:Hw.
  - inversion H; subst. eauto.
  - eauto.
Qed.

(** The loop makes at most [fuel] probes, at consecutive counter values,
    and stops at the first online slot. *)
Lemma probe_spec fuel : forall c,
  slotsLoaded slots -> slots <> [] ->
  0 <= c -> c + Z.of_nat fuel < 2 ^ 63 ->
  (exists k w, 1 <= k <= Z.of_nat fuel /\
      (forall j, 1 <= j < k -> offlineAt slots (c + j)) /\
      onlineAt slots (c + k) w /\
      probe fuel c slots = Go.Ok (Some (Some w), c + k))
  \/
  ((forall j, 1 <= j <= Z.of_nat fuel -> offlineAt slots (c + j)) /\
   probe fuel c slots = Go.Ok (None, c + Z.of_nat fuel)).
Proof.
  induction fuel as [|fuel IH]; intros c Hl Hne Hc Hr.
  - right. split; [intros; lia|]. simpl. by rewrite Z.add_0_r.
  - simpl probe. unfold Go.AddInt64.
    rewrite wrap64_small by lia.
    destruct (index_slotOf (c + 1)) as (p & Hp & Hi); [lia|done|].
    rewrite Hi. simpl.
    destruct p as [w|]; last first.
    { exfalso. unfold slotsLoaded in Hl. rewrite Forall_lookup in Hl.
      by apply (Hl _ _ Hp). }
    simpl. destruct (Online w) eqn:Hw.
    + left. exists 1, w. split; [lia|]. split; [intros; lia|]. by split.
    + destruct (IH (c + 1)) as [(k & w' & Hk & Hoff & Hon & Hpr)|[Hoff Hpr]];
        [done|done|lia|lia| |].
      * left. exists (k + 1), w'. split; [lia|]. split; [|split].
        -- intros j Hj. destruct (decide (j = 1)) as [->|Hj1].
           ++ by exists w.
           ++ replace (c + j) with (c + 1 + (j - 1)) by lia. apply Hoff. lia.
        -- by replace (c + (k + 1)) with (c + 1 + k) by lia.
        -- rewrite Hpr. do 2 f_equal. lia.
      * right. split.
        -- intros j Hj. destruct (decide (j = 1)) as [->|Hj1].
           ++ by exists w.
           ++ replace (c + j) with (c + 1 + (j - 1)) by lia. apply Hoff. lia.
        -- rewrite Hpr. do 2 f_equal. lia.
Qed.

Lemma allOffline_loaded : allOffline slots -> slotsLoaded slots.
Proof.
  unfold allOffline, slotsLoaded. intros H.
  eapply Forall_impl; [exact H|]. by intros p (w & -> & _).
Qed.

Lemma probe_allOffline fuel c :
  allOffline slots -> slots <> [] ->
  0 <= c -> c + Z.of_nat fuel < 2 ^ 63 ->
  probe fuel c slots = Go.Ok (None, c + Z.of_nat fuel).
Proof.
  intros Hall Hne Hc Hr.
  destruct (probe_spec fuel c) as [(k & w & Hk & _ & [Hon Hw] & _)|[_ H]];
    [by apply allOffline_loaded|done|done|done| |done].
  exfalso. unfold allOffline in Hall. rewrite Forall_lookup in Hall.
  destruct (Hall _ _ Hon) as (w' & [= <-] & Hoff). congruence.
Qed.

End ProbeLoop.

(** ** GetReplica *)

Lemma routedToMaster_guard ss :
  routedToMaster ss <->
  (length (DataSourceReplicas (settings ss)) =? 0)%nat
    || lockedToMaster ss || negb (hasLicense ss) = true.
Proof.
  unfold routedToMaster, hasLicense.
  destruct (DataSourceReplicas (settings ss)) as [|d ds], (lockedToMaster ss),
    (license ss); simpl; split; intros H; try done; auto.
  destruct H as [H|[H|H]]; done.
Qed.

Lemma GetReplica_unrouted ss :
  ~ routedToMaster ss ->
  GetReplica ss =
    (let* r := probe (length (ReplicaXs ss)) (rrCounter ss) (ReplicaXs ss) in
     let ss' := set_rrCounter (snd r) ss in
     match fst r with
     | Some p => Go.Ok (p, ss')
     | None => Go.Ok (GetMaster ss', ss')
     end).
Proof.
  intros Hn. unfold GetReplica.
  destruct (_ || _) eqn:E; [|done].
  exfalso. apply Hn. by apply routedToMaster_guard.
Qed.

Lemma GetReplica_routed ss :
  routedToMaster ss -> GetReplica ss = Go.Ok (masterX ss, ss).
Proof.
  intros H. apply routedToMaster_guard in H. unfold GetReplica. by rewrite H.
Qed.

(** C1. [GetReplica] returns the master when no replica is configured, the
    store is locked to the master or no license is installed. Otherwise it
    makes at most [len(ReplicaXs)] probes, each one incrementing the
    rotation counter and inspecting the slot at the counter modulo the slot
    count, and returns the first online handle it meets, or the master when
    every probed slot is offline. A returned handle is the master or the
    online content of a slot, and with every slot offline the master is
    returned. *)
Theorem GetReplica_selection (ss : SqlStore) :
  (routedToMaster ss -> GetReplica ss = Go.Ok (masterX ss, ss)) /\
  (forall p ss', GetReplica ss = Go.Ok (p, ss') ->
     p = masterX ss \/
     exists i w, ReplicaXs ss !! i = Some (Some w) /\ Online w = true /\ p = Some w) /\
  (~ routedToMaster ss ->
   slotsLoaded (ReplicaXs ss) ->
   counterInRange (rrCounter ss) (length (ReplicaXs ss)) ->
   let n := Z.of_nat (length (ReplicaXs ss)) in
   let c := rrCounter ss in
   (exists k w, 1 <= k <= n /\
       (forall j, 1 <= j < k -> offlineAt (ReplicaXs ss) (c + j)) /\
       onlineAt (ReplicaXs ss) (c + k) w /\
       GetReplica ss = Go.Ok (Some w, set_rrCounter (c + k) ss))
   \/
   ((forall j, 1 <= j <= n -> offlineAt (ReplicaXs ss) (c + j)) /\
    GetReplica ss = Go.Ok (masterX ss, set_rrCounter (c + n) ss))) /\
  (allOffline (ReplicaXs ss) ->
   counterInRange (rrCounter ss) (length (ReplicaXs ss)) ->
   exists ss', GetReplica ss = Go.Ok (masterX ss, ss')).
Proof.
  split; [|split; [|split]].
  - apply GetReplica_routed.
  - intros p ss' H. unfold GetReplica in H.
    destruct (_ || _); [left; by inversion H|].
    destruct (probe _ _ _) as [[[q|] c']|m] eqn:Hp; simpl in H; [| |done].
    + right. inversion H; subst. by apply probe_found in Hp.
    + left. by inversion H.
  - intros Hn Hl [Hc Hr]. cbv zeta. rewrite (GetReplica_unrouted _ Hn).
    destruct (decide (ReplicaXs ss = [])) as [Hs|Hne].
    { right. rewrite Hs. split; [simpl; intros; lia|]. simpl.
      by rewrite Z.add_0_r. }
    destruct (probe_spec (ReplicaXs ss) (length (ReplicaXs ss)) (rrCounter ss))
      as [(k & w & Hk & Hoff & Hon & Hpr)|[Hoff Hpr]]; try done.
    + left. exists k, w. rewrite Hpr. split; [done|]. split; [done|]. by split.
    + right. split; [done|]. by rewrite Hpr.
  - intros Hall [Hc Hr]. unfold GetReplica.
    destruct (_ || _); [by eexists|].
    destruct (decide (ReplicaXs ss = [])) as [Hs|Hne].
    { rewrite Hs. simpl. by eexists. }
    rewrite probe_allOffline by done. simpl. by eexists.
Qed.

(** The selection theorem at a store with three slots of which the last
    is the only online one. *)
Lemma GetReplica_selection_witness :
  ~ routedToMaster Sample.threeReplicas /\
  slotsLoaded (ReplicaXs Sample.threeReplicas) /\
  counterInRange (rrCounter Sample.threeReplicas)
                 (length (ReplicaXs Sample.threeReplicas)) /\
  ((exists k w, 1 <= k <= 3 /\
       (forall j, 1 <= j < k -> offlineAt (ReplicaXs Sample.threeReplicas) (0 + j)) /\
       onlineAt (ReplicaXs Sample.threeReplicas) (0 + k) w /\
       GetReplica Sample.threeReplicas
         = Go.Ok (Some w, set_rrCounter (0 + k) Sample.threeReplicas))
   \/
   ((forall j, 1 <= j <= 3 -> offlineAt (ReplicaXs Sample.threeReplicas) (0 + j)) /\
    GetReplica Sample.threeReplicas
      = Go.Ok (masterX Sample.threeReplicas, set_rrCounter (0 + 3) Sample.threeReplicas))).
Proof.
  assert (H1 : ~ routedToMaster Sample.threeReplicas).
  { intros [H|[H|H]]; discriminate H. }
  assert (H2 : slotsLoaded (ReplicaXs Sample.threeReplicas)).
  { repeat constructor; discriminate. }
  assert (H3 : counterInRange (rrCounter Sample.threeReplicas)
                 (length (ReplicaXs Sample.threeReplicas))).
  { split; simpl; lia. }
  split; [exact H1|]. split; [exact H2|]. split; [exact H3|].
  exact (proj1 (proj2 (proj2 (GetReplica_selection Sample.threeReplicas))) H1 H2 H3).
Defined.

Example GetReplica_threeReplicas :
  GetReplica Sample.threeReplicas
  = Go.Ok (Some (newSqlxDBWrapper 2%nat), set_rrCounter 2 Sample.threeReplicas).
Proof. vm_compute. reflexivity. Qed.

(** Outside the range of [counterInRange]: at the last [int64] value,
    which takes 2^63 - 1 probes to reach, the incremented counter is
    negative and so is the remainder used as the index. *)
Example GetReplica_counter_wraps :
  GetReplica (set_rrCounter (2 ^ 63 - 1) Sample.threeReplicas)
  = Go.Panic "index out of range".
Proof. vm_compute. reflexivity. Qed.

(** Within one round of probes every slot is inspected. *)
Lemma slotOf_covers (slots : list wrapperPtr) (c : Z) (i : nat) :
  (i < length slots)%nat ->
  exists j, 1 <= j <= Z.of_nat (length slots) /\ slotOf slots (c + j) = i.
Proof.
  intros Hi. set (n := Z.of_nat (length slots)).
  assert (Hn : 0 < n) by lia.
  pose proof (Z.mod_pos_bound (Z.of_nat i - c) n Hn) as Hb.
  assert (Hres : forall j, j mod n = (Z.of_nat i - c) mod n -> slotOf slots (c + j) = i).
  { intros j Hj. unfold slotOf. fold n.
    rewrite <- Zplus_mod_idemp_r, Hj, Zplus_mod_idemp_r.
    replace (c + (Z.of_nat i - c)) with (Z.of_nat i) by lia.
    rewrite Z.mod_small by lia. lia. }
  destruct (decide ((Z.of_nat i - c) mod n = 0)) as [H0|H0].
  - exists n. split; [lia|]. apply Hres. by rewrite Z_mod_same_full.
  - exists ((Z.of_nat i - c) mod n). split; [lia|]. apply Hres.
    by rewrite Z.mod_mod by lia.
Qed.

Lemma probe_someOnline (slots : list wrapperPtr) (c : Z) :
  slotsLoaded slots -> someOnline slots ->
  counterInRange c (length slots) ->
  exists k w, 1 <= k <= Z.of_nat (length slots) /\
    onlineAt slots (c + k) w /\
    probe (length slots) c slots = Go.Ok (Some (Some w), c + k).
Proof.
  intros Hl (i & w & Hi & Hw) [Hc Hr].
  assert (Hne : slots <> []) by (intros ->; done).
  destruct (probe_spec slots (length slots) c)
    as [(k & w' & Hk & _ & Hon & Hpr)|[Hoff _]]; try done.
  - by exists k, w'.
  - exfalso. destruct (slotOf_covers slots c i) as (j & Hj & Hji).
    { by eapply lookup_lt_Some. }
    destruct (Hoff j Hj) as (w' & Hw' & Hoffw). rewrite Hji in Hw'. congruence.
Qed.

Lemma GetReplica_someOnline ss :
  ~ routedToMaster ss -> slotsLoaded (ReplicaXs ss) -> someOnline (ReplicaXs ss) ->
  counterInRange (rrCounter ss) (length (ReplicaXs ss)) ->
  exists k w, 1 <= k <= Z.of_nat (length (ReplicaXs ss)) /\
    onlineAt (ReplicaXs ss) (rrCounter ss + k) w /\
    GetReplica ss = Go.Ok (Some w, set_rrCounter (rrCounter ss + k) ss).
Proof.
  intros Hn Hl Hs Hc.
  destruct (probe_someOnline _ _ Hl Hs Hc) as (k & w & Hk & Hon & Hpr).
  exists k, w. rewrite (GetReplica_unrouted _ Hn), Hpr. split; [done|]. by split.
Qed.

(** ** GetSearchReplicaX *)

Lemma hasLicense_true ss : license ss <> None -> hasLicense ss = true.
Proof. unfold hasLicense. by destruct (license ss). Qed.

(** With a license and a configured search pool holding an online handle,
    the search router returns such a handle; [lockedToMaster] is not
    consulted on this path. *)
Lemma GetSearchReplicaX_search_online ss :
  license ss <> None -> DataSourceSearchReplicas (settings ss) <> [] ->
  slotsLoaded (searchReplicaXs ss) -> someOnline (searchReplicaXs ss) ->
  counterInRange (srCounter ss) (length (searchReplicaXs ss)) ->
  exists k w, onlineAt (searchReplicaXs ss) (srCounter ss + k) w /\
    GetSearchReplicaX ss = Go.Ok (Some w, set_srCounter (srCounter ss + k) ss).
Proof.
  intros Hlic Hds Hl Hs Hc. unfold GetSearchReplicaX.
  rewrite (hasLicense_true _ Hlic). simpl.
  destruct (DataSourceSearchReplicas (settings ss)) eqn:E; [done|]. simpl.
  destruct (probe_someOnline _ _ Hl Hs Hc) as (k & w & Hk & Hon & Hpr).
  exists k, w. by rewrite Hpr.
Qed.

(** C4. With a license installed, [lockedToMaster] set and an online search
    replica configured, [GetSearchReplicaX] returns the search replica, not
    the master: the function never reads [lockedToMaster]. *)
Theorem GetSearchReplicaX_ignores_lock :
  license Sample.lockedWithSearch = Some tt /\
  lockedToMaster Sample.lockedWithSearch = true /\
  someOnline (searchReplicaXs Sample.lockedWithSearch) /\
  GetSearchReplicaX Sample.lockedWithSearch
    = Go.Ok (Some (newSqlxDBWrapper 7%nat), set_srCounter 1 Sample.lockedWithSearch) /\
  Some (newSqlxDBWrapper 7%nat) <> masterX Sample.lockedWithSearch /\
  GetReplica Sample.lockedWithSearch
    = Go.Ok (masterX Sample.lockedWithSearch, Sample.lockedWithSearch).
Proof.
  split; [done|]. split; [done|]. split.
  { exists 0%nat, (newSqlxDBWrapper 7%nat). done. }
  split; [by vm_compute|]. split; [discriminate|]. by vm_compute.
Qed.

(** C7 as stated fails: licensed, no search replica configured, an online
    read replica, but the store is locked to the master, and the master is
    returned. *)
Lemma GetSearchReplicaX_locked_no_search :
  license (Sample.noSearch true) = Some tt /\
  DataSourceSearchReplicas (settings (Sample.noSearch true)) = [] /\
  someOnline (ReplicaXs (Sample.noSearch true)) /\
  GetSearchReplicaX (Sample.noSearch true)
    = Go.Ok (masterX (Sample.noSearch true), Sample.noSearch true) /\
  ~ (exists i, ReplicaXs (Sample.noSearch true) !! i
               = Some (masterX (Sample.noSearch true))).
Proof.
  split; [done|]. split; [done|]. split.
  { exists 0%nat, (newSqlxDBWrapper 1%nat). done. }
  split; [by vm_compute|].
  intros [[|i] H]; simpl in H; [discriminate H|].
  by rewrite lookup_nil in H.
Qed.

(** C7, amended. Without a license [GetSearchReplicaX] returns the master
    at once. With a license and no search replica configured it is
    [GetReplica]; when moreover the store is not locked to the master and a
    read slot is online, the handle returned is the online content of a read
    slot, which is not the master as long as the master occupies no slot. *)
Theorem GetSearchReplicaX_delegates (ss : SqlStore) :
  (license ss = None -> GetSearchReplicaX ss = Go.Ok (masterX ss, ss)) /\
  (license ss <> None -> DataSourceSearchReplicas (settings ss) = [] ->
   GetSearchReplicaX ss = GetReplica ss) /\
  (license ss <> None -> DataSourceSearchReplicas (settings ss) = [] ->
   lockedToMaster ss = false ->
   poolsMatchSettings ss -> slotsLoaded (ReplicaXs ss) ->
   someOnline (ReplicaXs ss) ->
   counterInRange (rrCounter ss) (length (ReplicaXs ss)) ->
   exists i w ss',
     ReplicaXs ss !! i = Some (Some w) /\ Online w = true /\
     GetSearchReplicaX ss = Go.Ok (Some w, ss') /\
     ((forall j, ReplicaXs ss !! j <> Some (masterX ss)) -> Some w <> masterX ss)).
Proof.
  split; [|split].
  - intros H. unfold GetSearchReplicaX, hasLicense. by rewrite H.
  - intros Hlic Hds. unfold GetSearchReplicaX.
    rewrite (hasLicense_true _ Hlic), Hds. done.
  - intros Hlic Hds Hlock [Hlen _] Hl Hs Hc.
    assert (Hn : ~ routedToMaster ss).
    { intros [H|[H|H]]; [|congruence|done].
      destruct Hs as (i & w & Hi & _). apply lookup_lt_Some in Hi.
      rewrite H in Hlen. simpl in Hlen. lia. }
    destruct (GetReplica_someOnline ss Hn Hl Hs Hc) as (k & w & Hk & [Hon Hw] & Hg).
    exists (slotOf (ReplicaXs ss) (rrCounter ss + k)), w, (set_rrCounter (rrCounter ss + k) ss).
    split; [done|]. split; [done|]. split.
    + unfold GetSearchReplicaX. by rewrite (hasLicense_true _ Hlic), Hds.
    + intros Hm Heq. apply (Hm (slotOf (ReplicaXs ss) (rrCounter ss + k))).
      by rewrite Hon, Heq.
Qed.

(** The amended C7 at a licensed, unlocked store with one online read
    replica and no search replica. *)
Lemma GetSearchReplicaX_delegates_witness :
  exists i w ss',
    ReplicaXs (Sample.noSearch false) !! i = Some (Some w) /\ Online w = true /\
    GetSearchReplicaX (Sample.noSearch false) = Go.Ok (Some w, ss') /\
    ((forall j, ReplicaXs (Sample.noSearch false) !! j
                <> Some (masterX (Sample.noSearch false))) ->
     Some w <> masterX (Sample.noSearch false)).
Proof.
  apply (proj2 (proj2 (GetSearchReplicaX_delegates (Sample.noSearch false)))).
  - discriminate.
  - reflexivity.
  - reflexivity.
  - split; reflexivity.
  - repeat constructor; discriminate.
  - exists 0%nat, (newSqlxDBWrapper 1%nat). split; reflexivity.
  - split; simpl; lia.
Defined.

(** ** The version gate *)

Lemma append_cons a s t : String a s ++ t = String a (s ++ t).
Proof. reflexivity. Qed.

Lemma append_assoc s t u : (s ++ t) ++ u = s ++ t ++ u.
Proof.
  induction s as [|a s IH]; [reflexivity|].
  by rewrite !append_cons, IH.
Qed.

Lemma append_nil_r s : s ++ "" = s.
Proof.
  induction s as [|a s IH]; [reflexivity|].
  by rewrite append_cons, IH.
Qed.

Lemma contains_intro pre sub post : contains (pre ++ sub ++ post) sub.
Proof. by exists pre, post. Qed.

Lemma versionString_nonneg v driver :
  0 <= v -> versionString v driver = Itoa (v / 10000) ++ "." ++ Itoa (v mod 10000).
Proof.
  intros Hv. unfold versionString, Go.div, Go.rem.
  rewrite Z.quot_div_nonneg, Z.rem_mod_nonneg by lia. done.
Qed.

(** C6. With the Postgres driver, [ensureMinimumDBVersion] accepts every
    version string that parses to an integer of at least 130000, rejects
    every one that parses to a smaller integer with a message that contains
    both the found and the wanted version as major.minor (the quotient and
    remainder by 10000, which are [div] and [mod] for a non-negative
    version), and rejects every string that does not parse; 120000 gives a
    message with 12.0 and 13.0, 130000 and 130001 pass. *)
Theorem ensureMinimumDBVersion_gate (ss : SqlStore) :
  DriverName (settings ss) = DatabaseDriverPostgres ->
  (forall ver v, Atoi ver = inr v -> 130000 <= v ->
     ensureMinimumDBVersion ss ver = (true, None)) /\
  (forall ver v, Atoi ver = inr v -> v < 130000 ->
     exists msg,
       ensureMinimumDBVersion ss ver = (false, Some (ErrorString msg)) /\
       contains msg (Itoa (Go.div v 10000) ++ "." ++ Itoa (Go.rem v 10000)) /\
       contains msg (Itoa (130000 / 10000) ++ "." ++ Itoa (130000 mod 10000)) /\
       (0 <= v -> contains msg (Itoa (v / 10000) ++ "." ++ Itoa (v mod 10000)))) /\
  (forall ver e, Atoi ver = inl e ->
     exists err, ensureMinimumDBVersion ss ver = (false, Some err)) /\
  (exists msg,
     ensureMinimumDBVersion ss "120000" = (false, Some (ErrorString msg)) /\
     contains msg "12.0" /\ contains msg "13.0") /\
  ensureMinimumDBVersion ss "130000" = (true, None) /\
  ensureMinimumDBVersion ss "130001" = (true, None).
Proof.
  intros Hd.
  assert (Hp : String.eqb (DriverName (settings ss)) DatabaseDriverPostgres = true)
    by (by apply String.eqb_eq).
  assert (Hlow : forall ver v, Atoi ver = inr v -> v < 130000 ->
     ensureMinimumDBVersion ss ver
     = (false, Some (ErrorString
          ("minimum Postgres version requirements not met. Found: "
           ++ versionString v DatabaseDriverPostgres ++ ", Wanted: "
           ++ versionString 130000 DatabaseDriverPostgres)))).
  { intros ver v Hv Hlt. unfold ensureMinimumDBVersion.
    rewrite Hp, Hv, Hd. unfold minimumRequiredPostgresVersion.
    destruct (v <? 130000) eqn:E; [done|lia]. }
  assert (Hhigh : forall ver v, Atoi ver = inr v -> 130000 <= v ->
     ensureMinimumDBVersion ss ver = (true, None)).
  { intros ver v Hv Hge. unfold ensureMinimumDBVersion.
    rewrite Hp, Hv. unfold minimumRequiredPostgresVersion.
    destruct (v <? 130000) eqn:E; [lia|done]. }
  split; [exact Hhigh|]. split; [|split; [|split; [|split]]].
  - intros ver v Hv Hlt. eexists. split; [by apply Hlow|].
    split; [|split].
    + apply contains_intro.
    + exists ("minimum Postgres version requirements not met. Found: "
              ++ versionString v DatabaseDriverPostgres ++ ", Wanted: "), "".
      by rewrite !append_assoc, append_nil_r.
    + intros H0. rewrite <- (versionString_nonneg v DatabaseDriverPostgres H0).
      apply contains_intro.
  - intros ver e He. unfold ensureMinimumDBVersion. rewrite Hp, He. by eexists.
  - eexists. split; [by apply (Hlow "120000" 120000)|]. split.
    + by exists "minimum Postgres version requirements not met. Found: ", ", Wanted: 13.0".
    + by exists "minimum Postgres version requirements not met. Found: 12.0, Wanted: ", "".
  - by apply (Hhigh "130000" 130000).
  - by apply (Hhigh "130001" 130001).
Qed.

(** The gate at a store configured for Postgres. *)
Lemma ensureMinimumDBVersion_gate_witness :
  exists msg,
    ensureMinimumDBVersion Sample.threeReplicas "120000"
      = (false, Some (ErrorString msg)) /\
    contains msg "12.0" /\ contains msg "13.0".
Proof.
  exact (proj1 (proj2 (proj2 (proj2
           (ensureMinimumDBVersion_gate Sample.threeReplicas eq_refl))))).
Defined.

(** ** IsDuplicate *)

Lemma AsPqError_Cause e : AsPqError (Cause e) = AsPqError e.
Proof. induction e; simpl; auto. Qed.

Lemma AsPqError_rootCause e code :
  AsPqError e = Some code <-> exists message, rootCause e = PqError code message.
Proof.
  induction e; simpl; try done.
  - split; [intros [= ->]; by eexists|]. by intros (m & [= -> _]).
  - split; [done|]. by intros (m & ?).
  - split; [done|]. by intros (m & ?).
Qed.

(** C8 as stated fails: a Postgres error with the duplicate-object code
    42710 is not classified as a duplicate. *)
Lemma IsDuplicate_duplicate_object :
  IsDuplicate (Some (PqError PGDuplicateObjectErrorCode "type already exists")) = false /\
  IsDuplicate (Some (WithCause "migration failed"
                       (PqError PGDuplicateObjectErrorCode "type already exists"))) = false.
Proof. split; reflexivity. Qed.

(** C8, amended. [IsDuplicate] returns true exactly for the errors whose
    root cause is a Postgres error with the duplicate-table code 42P07; for
    every other error, the duplicate-object code 42710 and nil included, it
    returns false. *)
Theorem IsDuplicate_table_only (err : option error) :
  IsDuplicate err = true <->
  exists e message, err = Some e /\ rootCause e = PqError "42P07" message.
Proof.
  unfold IsDuplicate. destruct err as [e|]; last first.
  { split; [done|]. by intros (e & m & ? & _). }
  rewrite AsPqError_Cause. split.
  - destruct (AsPqError e) as [code|] eqn:E; [|done].
    destruct (String.eqb_spec code PGDupTableErrorCode) as [->|]; [|done].
    intros _. apply AsPqError_rootCause in E as (m & Hm). by exists e, m.
  - intros (e' & m & [= <-] & Hr).
    assert (E : AsPqError e = Some "42P07") by (apply AsPqError_rootCause; eauto).
    by rewrite E.
Qed.

(** ** Lag probes *)

Lemma index_lookup {A} (l : list A) (i : nat) (a : A) :
  l !! i = Some a -> Go.index l (Z.of_nat i) = Go.Ok a.
Proof.
  intros H. pose proof (lookup_lt_Some _ _ _ H) as Hlt. unfold Go.index.
  destruct (_ <? 0) eqn:E1; [lia|].
  destruct (_ <=? _) eqn:E2; [lia|]. simpl.
  by rewrite Nat2Z.id, H.
Qed.

Lemma index_out_of_range {A} (l : list A) (i : nat) :
  (length l <= i)%nat -> Go.index l (Z.of_nat i) = Go.Panic "index out of range".
Proof.
  intros H. unfold Go.index.
  destruct (_ <? 0) eqn:E1; [done|].
  destruct (_ <=? _) eqn:E2; [done|lia].
Qed.

Lemma queriesOf_cons e tr : queriesOf (e :: tr) = (queriesOf [e] ++ queriesOf tr)%list.
Proof. unfold queriesOf. simpl. by destruct e. Qed.

Section LagLoop.

Variable query : rowQuery.
Variable field : ReplicaLagSetting -> option string.
Variable setter : string -> Z -> event.
Variable handles : list sqlDB.
Hypothesis setter_no_query : forall node value, queriesOf [setter node value] = [].

Lemma lagTargetsFrom_cons i item rest :
  lagTargetsFrom field handles i (item :: rest)
  = match lagTarget field handles i item with
    | Some t => t :: lagTargetsFrom field handles (S i) rest
    | None => lagTargetsFrom field handles (S i) rest
    end.
Proof.
  unfold lagTargetsFrom. rewrite imap_cons. simpl. rewrite Nat.add_0_r.
  assert (E : imap ((fun j => lagTarget field handles (i + j)) ∘ S) rest
              = imap (fun j => lagTarget field handles (S i + j)) rest).
  { apply imap_ext. intros j x _. simpl. f_equal. lia. }
  by rewrite E.
Qed.

(** With every position of [items] inside [handles], the loop queries the
    targets in order and stops at the first failing one. *)
Lemma lagLoop_spec : forall items i,
  (i + length items <= length handles)%nat ->
  (Forall (succeeds query) (lagTargetsFrom field handles i items) ->
   exists tr, lagLoop query true field setter handles i items = Go.Ok (None, tr) /\
              queriesOf tr = lagTargetsFrom field handles i items) /\
  (forall pre t post err,
     lagTargetsFrom field handles i items = (pre ++ t :: post)%list ->
     Forall (succeeds query) pre ->
     query (fst t) (snd t) = inl err ->
     exists tr, lagLoop query true field setter handles i items = Go.Ok (Some err, tr) /\
                queriesOf tr = (pre ++ [t])%list).
Proof.
  induction items as [|item rest IH]; intros i Hlen.
  { split; [intros _; by exists []|].
    intros pre t post err H. by destruct pre. }
  simpl in Hlen. destruct (IH (S i)) as [IH1 IH2]; [lia|].
  rewrite lagTargetsFrom_cons. simpl lagLoop. unfold lagTarget.
  destruct (field item) as [text|]; [|by split].
  destruct (handles !! i) as [h|] eqn:Hh; last first.
  { apply lookup_ge_None in Hh. lia. }
  destruct (String.eqb text "") eqn:Et; [by split|].
  rewrite (index_lookup _ _ _ Hh). simpl. split.
  - intros Hall. inversion Hall as [|t ts [[node value] Hq] Hrest]; subst.
    simpl in Hq. rewrite Hq.
    destruct (IH1 Hrest) as (tr & Htr & Hqs). rewrite Htr. simpl.
    eexists. split; [done|].
    rewrite queriesOf_cons, (queriesOf_cons (setter node value)), setter_no_query.
    simpl. by rewrite Hqs.
  - intros pre t post err Heq Hpre Hq. destruct pre as [|p pre].
    + simpl in Heq. inversion Heq; subst. simpl in Hq. rewrite Hq.
      by exists [QueryRow h text].
    + simpl in Heq. inversion Heq; subst.
      inversion Hpre as [|? ? [[node value] Hp] Hpre']; subst.
      simpl in Hp. rewrite Hp.
      destruct (IH2 pre t post err) as (tr & Htr & Hqs); [done|done|done|].
      rewrite Htr. simpl. eexists. split; [done|].
      rewrite queriesOf_cons, (queriesOf_cons (setter node value)), setter_no_query.
      simpl. by rewrite Hqs.
Qed.

End LagLoop.

Lemma setReplicaLagAbsolute_no_query node value :
  queriesOf [SetReplicaLagAbsolute node value] = [].
Proof. reflexivity. Qed.

Lemma setReplicaLagTime_no_query node value :
  queriesOf [SetReplicaLagTime node value] = [].
Proof. reflexivity. Qed.

(** C5 as stated fails: with two targets that both have query texts and
    handles, an error from the first target's query ends the call; the second
    target is never queried. *)
Lemma ReplicaLag_short_circuits :
  ReplicaLagAbs Sample.firstFails Sample.twoLagTargets
    = Go.Ok (Some (ErrorString "connection reset"), [QueryRow 10%nat "SELECT abs0"]) /\
  ReplicaLagTime Sample.firstFails Sample.twoLagTargets
    = Go.Ok (Some (ErrorString "connection reset"), [QueryRow 10%nat "SELECT time0"]) /\
  lagTargets QueryAbsoluteLag (replicaLagHandles Sample.twoLagTargets)
             (ReplicaLagSettings (settings Sample.twoLagTargets))
    = [(10%nat, "SELECT abs0"); (11%nat, "SELECT abs1")] /\
  succeeds Sample.firstFails (11%nat, "SELECT abs1").
Proof.
  split; [by vm_compute|]. split; [by vm_compute|]. split; [by vm_compute|].
  by exists ("node1", 42).
Qed.

(** C5, amended. With a metrics sink and a handle at the position of every
    target, [ReplicaLagAbs] and [ReplicaLagTime] query, in configuration
    order, the targets that have a non-empty query text. When every query
    succeeds all of them are queried and nil is returned; at the first
    query that fails the call returns that error, and the targets after it
    are not queried. *)
Theorem ReplicaLag_stops_at_first_error (query : rowQuery) (ss : SqlStore) :
  metrics ss = true ->
  (length (ReplicaLagSettings (settings ss)) <= length (replicaLagHandles ss))%nat ->
  let items := ReplicaLagSettings (settings ss) in
  let handles := replicaLagHandles ss in
  (Forall (succeeds query) (lagTargets QueryAbsoluteLag handles items) ->
   exists tr, ReplicaLagAbs query ss = Go.Ok (None, tr) /\
              queriesOf tr = lagTargets QueryAbsoluteLag handles items) /\
  (forall pre t post err,
     lagTargets QueryAbsoluteLag handles items = (pre ++ t :: post)%list ->
     Forall (succeeds query) pre -> query (fst t) (snd t) = inl err ->
     exists tr, ReplicaLagAbs query ss = Go.Ok (Some err, tr) /\
                queriesOf tr = (pre ++ [t])%list) /\
  (Forall (succeeds query) (lagTargets QueryTimeLag handles items) ->
   exists tr, ReplicaLagTime query ss = Go.Ok (None, tr) /\
              queriesOf tr = lagTargets QueryTimeLag handles items) /\
  (forall pre t post err,
     lagTargets QueryTimeLag handles items = (pre ++ t :: post)%list ->
     Forall (succeeds query) pre -> query (fst t) (snd t) = inl err ->
     exists tr, ReplicaLagTime query ss = Go.Ok (Some err, tr) /\
                queriesOf tr = (pre ++ [t])%list).
Proof.
  intros Hm Hlen items handles. unfold ReplicaLagAbs, ReplicaLagTime. rewrite Hm.
  destruct (lagLoop_spec query QueryAbsoluteLag SetReplicaLagAbsolute handles
              setReplicaLagAbsolute_no_query items 0 Hlen) as [A1 A2].
  destruct (lagLoop_spec query QueryTimeLag SetReplicaLagTime handles
              setReplicaLagTime_no_query items 0 Hlen) as [T1 T2].
  by repeat split.
Qed.

(** The amended C5 at two targets of which the first fails. *)
Lemma ReplicaLag_stops_at_first_error_witness :
  exists tr,
    ReplicaLagAbs Sample.firstFails Sample.twoLagTargets
      = Go.Ok (Some (ErrorString "connection reset"), tr) /\
    queriesOf tr = [(10%nat, "SELECT abs0")].
Proof.
  apply (proj1 (proj2 (ReplicaLag_stops_at_first_error
                         Sample.firstFails Sample.twoLagTargets eq_refl
                         (le_n 2)))
           [] (10%nat, "SELECT abs0") [(11%nat, "SELECT abs1")]).
  - reflexivity.
  - constructor.
  - reflexivity.
Defined.

(** C10. After [initConnection] on one configured lag target whose probe
    connection could not be opened, [replicaLagHandles] is empty while
    [ReplicaLagSettings] has one entry, and both lag probes index past the
    end of [replicaLagHandles]. The same happens at the second of two
    targets when the first has no data source, although every connection
    opened. *)
Theorem ReplicaLag_index_out_of_range (query : rowQuery) :
  (exists ss evs,
     initConnection Sample.onlyMaster (emptyStore Sample.oneLagTarget true)
       = (None, ss, evs) /\
     replicaLagHandles ss = [] /\
     length (ReplicaLagSettings (settings ss)) = 1%nat /\
     ReplicaLagAbs query ss = Go.Panic "index out of range" /\
     ReplicaLagTime query ss = Go.Panic "index out of range") /\
  (exists ss evs,
     initConnection Sample.allAnswer (emptyStore Sample.secondLagTargetOnly true)
       = (None, ss, evs) /\
     replicaLagHandles ss = [5%nat] /\
     length (ReplicaLagSettings (settings ss)) = 2%nat /\
     ReplicaLagAbs query ss = Go.Panic "index out of range" /\
     ReplicaLagTime query ss = Go.Panic "index out of range").
Proof.
  split; do 2 eexists; (split; [by vm_compute|]); by repeat split.
Qed.

(** [initConnection] never produces more lag handles than there are
    targets, and produces fewer as soon as one target is skipped. *)
Lemma initLagHandles_length dial targets : forall i,
  (length (fst (initLagHandles dial i targets)) <= length targets)%nat.
Proof.
  induction targets as [|src rest IH]; intros i; simpl; [done|].
  specialize (IH (S i)). destruct (initLagHandles dial (S i) rest) as [hs evs'].
  destruct (LagDataSource src) as [dsn|]; simpl in *; [|lia].
  destruct (dial _ dsn _); simpl; lia.
Qed.

(** ** Start-up *)

Lemma SkipMigrations_keepsLicense : keepsLicense SkipMigrations.
Proof. by intros s. Qed.

Lemma DisableMorphLogging_keepsLicense : keepsLicense DisableMorphLogging.
Proof. by intros s. Qed.

Lemma applyOptions_license options : forall s s',
  Forall keepsLicense options ->
  applyOptions options s = inr s' -> license s' = license s.
Proof.
  induction options as [|o options IH]; intros s s' Hall; simpl.
  { by intros [= <-]. }
  apply Forall_cons in Hall as [Ho Hall]. specialize (Ho s).
  destruct (o s) as [s1 [err|]]; [done|]. simpl in Ho.
  intros H. rewrite (IH _ _ Hall H). done.
Qed.

Lemma initConnection_ok dial ss ss' evs :
  initConnection dial ss = (None, ss', evs) ->
  license ss' = license ss /\ settings ss' = settings ss /\
  lockedToMaster ss' = lockedToMaster ss /\
  rrCounter ss' = rrCounter ss /\
  exists h, dial "master" (DataSource (settings ss)) DBPingAttempts = inr h /\
            masterX ss' = Some (newSqlxDBWrapper h).
Proof.
  unfold initConnection. destruct (dial "master" _ _) as [err|h]; [done|].
  destruct (match DataSourceReplicas _ with [] => _ | _ => _ end) as [read ev1].
  destruct (match DataSourceSearchReplicas _ with [] => _ | _ => _ end) as [search ev2].
  destruct (match ReplicaLagSettings _ with [] => _ | _ => _ end) as [lag ev3].
  intros [= <- _]. simpl. repeat split. by exists h.
Qed.

Lemma initPool_ready dial hasMetrics dialPrefix regPrefix dsns : forall i,
  let pool := fst (initPool dial hasMetrics dialPrefix regPrefix i dsns) in
  length pool = length dsns /\ slotsLoaded pool.
Proof.
  induction dsns as [|dsn rest IH]; intros i; simpl; [by split; [|constructor]|].
  destruct (initSlot _ _ _ _ _) as [p evs] eqn:Hs.
  specialize (IH (S i)). destruct (initPool _ _ _ _ (S i) rest) as [ps evs'].
  simpl in *. destruct IH as [Hlen Hl]. split; [by rewrite Hlen|].
  constructor; [|done]. unfold initSlot, setDB in Hs.
  destruct (dial _ _ _); inversion Hs; done.
Qed.

(** The store [initConnection] makes of a store without slots, as [New]
    passes it, is ready: one loaded slot per configured data source, and
    the counters where they were. *)
Lemma initConnection_ready dial ss ss' evs :
  ReplicaXs ss = [] -> searchReplicaXs ss = [] ->
  initConnection dial ss = (None, ss', evs) ->
  storeReady ss' /\ rrCounter ss' = rrCounter ss /\ srCounter ss' = srCounter ss.
Proof.
  intros HR HS. unfold initConnection. destruct (dial "master" _ _) as [err|h]; [done|].
  destruct (match DataSourceReplicas _ with [] => _ | _ => _ end) as [read ev1] eqn:E1.
  destruct (match DataSourceSearchReplicas _ with [] => _ | _ => _ end)
    as [search ev2] eqn:E2.
  destruct (match ReplicaLagSettings _ with [] => _ | _ => _ end) as [lag ev3].
  intros [= <- _]. unfold storeReady, poolsMatchSettings. simpl.
  assert (length read = length (DataSourceReplicas (settings ss)) /\ slotsLoaded read)
    as [? ?].
  { destruct (DataSourceReplicas (settings ss)) as [|d ds] eqn:Hd.
    - inversion E1; subst. rewrite HR. by split; [|constructor].
    - pose proof (initPool_ready dial (metrics ss) "replica-" "replica-" (d :: ds) 0)
        as Hpool.
      rewrite E1 in Hpool. exact Hpool. }
  assert (length search = length (DataSourceSearchReplicas (settings ss))
          /\ slotsLoaded search) as [? ?].
  { destruct (DataSourceSearchReplicas (settings ss)) as [|d ds] eqn:Hd.
    - inversion E2; subst. rewrite HS. by split; [|constructor].
    - pose proof (initPool_ready dial (metrics ss) "search-replica-" "searchreplica-"
                    (d :: ds) 0) as Hpool.
      rewrite E2 in Hpool. exact Hpool. }
  done.
Qed.

(** The version query of a store without a license goes to its master. *)
Lemma GetDbVersion_unlicensed get ss w :
  license ss = None -> masterX ss = Some w ->
  GetDbVersion get true ss
  = if String.eqb (DriverName (settings ss)) DatabaseDriverPostgres
    then Go.Ok (get w "SHOW server_version_num", ss)
    else Go.Ok (inl (ErrorString "Not supported driver"), ss).
Proof.
  intros Hl Hm. unfold GetDbVersion.
  rewrite (GetReplica_routed ss) by (by right; right). simpl. rewrite Hm.
  destruct (String.eqb _ _); [|done]. by destruct (get _ _).
Qed.

(** ** The health monitor *)

Lemma setupReplica_healed dial hasMetrics w dsn name :
  exists p evs,
    setupReplica dial hasMetrics (Some w) dsn name = Go.Ok (p, evs) /\
    healed dial hasMetrics w dsn name p evs.
Proof.
  unfold setupReplica, healed. simpl.
  destruct (Online w) eqn:Hw.
  { exists (Some w), []. by repeat split. }
  destruct (dial name dsn 1) as [err|h] eqn:Hd.
  - do 2 eexists. split; [done|]. split; [done|]. intros _.
    split; [done|]. split; [by intros ? [= <-]|done].
  - do 2 eexists. split; [done|]. split; [done|]. intros _.
    split; [|split; [done|]].
    + destruct hasMetrics, w as [[db|] on]; done.
    + intros h' [= <-]. split; [done|]. split; [done|].
      destruct hasMetrics, w as [[db|] on]; done.
Qed.

Lemma tickPool_outcomes dial hasMetrics prefix dsns : forall slots i,
  slotsLoaded slots -> (i + length slots <= length dsns)%nat ->
  exists outs,
    tickPool dial hasMetrics prefix dsns i slots = Go.Ok (outs.*1, concat outs.*2) /\
    slotOutcomes dial hasMetrics prefix dsns i slots outs.
Proof.
  induction slots as [|r rest IH]; intros i Hl Hlen.
  { exists []. split; [done|]. split; [done|]. intros j r H. by rewrite lookup_nil in H. }
  apply Forall_cons in Hl as [Hr Hl]. simpl in Hlen.
  destruct r as [w|]; [|done].
  destruct (dsns !! i) as [dsn|] eqn:Hdsn; last first.
  { apply lookup_ge_None in Hdsn. lia. }
  destruct (setupReplica_healed dial hasMetrics w dsn (prefix ++ Itoa (Z.of_nat i)))
    as (p & evs & Hs & Hh).
  destruct (IH (S i) Hl) as (outs & Ht & Hlo & Ho); [lia|].
  exists ((p, evs) :: outs). split.
  - simpl tickPool. rewrite (index_lookup _ _ _ Hdsn). simpl Go.bind.
    rewrite Hs. simpl Go.bind. rewrite Ht. done.
  - split; [simpl; by rewrite Hlo|].
    intros [|j] r Hj; simpl in Hj.
    + inversion Hj; subst. exists w, dsn, p, evs. rewrite Nat.add_0_r. done.
    + destruct (Ho j r Hj) as (w' & dsn' & p' & evs' & ? & ? & ? & ?).
      exists w', dsn', p', evs'. replace (i + S j)%nat with (S i + j)%nat by lia. done.
Qed.

Lemma slotOutcomes_loaded dial hasMetrics prefix dsns i slots outs :
  slotOutcomes dial hasMetrics prefix dsns i slots outs -> slotsLoaded (outs.*1).
Proof.
  intros [Hlen Ho]. unfold slotsLoaded. apply Forall_lookup. intros j p Hj.
  rewrite list_lookup_fmap in Hj.
  destruct (outs !! j) as [[p' evs]|] eqn:Hout; [|done]. simpl in Hj. inversion Hj; subst.
  destruct (slots !! j) as [r|] eqn:Hr; last first.
  { apply lookup_ge_None in Hr. apply lookup_lt_Some in Hout. lia. }
  destruct (Ho j r Hr) as (w & dsn & p'' & evs'' & _ & _ & Heq & [Hon Hoff]).
  rewrite Hout in Heq. inversion Heq; subst.
  destruct (Online w) eqn:Hw.
  - by destruct (Hon eq_refl) as [-> _].
  - destruct (Hoff eq_refl) as (_ & Hf & Hs).
    destruct (dial (prefix ++ Itoa (Z.of_nat (i + j))) dsn 1) as [err|h] eqn:Hd.
    + by destruct (Hf err eq_refl) as [-> _].
    + by destruct (Hs h eq_refl) as [-> _].
Qed.

Lemma monitorTick_outcomes dial ss :
  storeReady ss ->
  exists outsR outsS,
    monitorTick dial ss
    = Go.Ok (set_slots (outsR.*1) (outsS.*1) ss,
             (concat outsR.*2 ++ concat outsS.*2)%list) /\
    slotOutcomes dial (metrics ss) "replica-"
      (DataSourceReplicas (settings ss)) 0 (ReplicaXs ss) outsR /\
    slotOutcomes dial (metrics ss) "search-replica-"
      (DataSourceSearchReplicas (settings ss)) 0 (searchReplicaXs ss) outsS /\
    storeReady (set_slots (outsR.*1) (outsS.*1) ss).
Proof.
  intros ([HlenR HlenS] & HlR & HlS).
  destruct (tickPool_outcomes dial (metrics ss) "replica-"
              (DataSourceReplicas (settings ss)) (ReplicaXs ss) 0 HlR)
    as (outsR & HtR & HoR); [simpl; lia|].
  destruct (tickPool_outcomes dial (metrics ss) "search-replica-"
              (DataSourceSearchReplicas (settings ss)) (searchReplicaXs ss) 0 HlS)
    as (outsS & HtS & HoS); [simpl; lia|].
  exists outsR, outsS. split; [|split; [done|split; [done|]]].
  - unfold monitorTick. rewrite HtR. simpl Go.bind. rewrite HtS. done.
  - split; [|split].
    + split; simpl; rewrite length_fmap.
      * destruct HoR as [-> _]. done.
      * destruct HoS as [-> _]. done.
    + simpl. by eapply slotOutcomes_loaded.
    + simpl. by eapply slotOutcomes_loaded.
Qed.

(** C3 as stated fails: without a metrics sink a successful reconnect
    stores the new online handle and registers no collector. *)
Lemma monitorTick_no_metrics_no_registration :
  exists ss',
    monitorTick Sample.allAnswer Sample.offlineNoMetrics
      = Go.Ok (ss', [SetupConnection "replica-0" "r0" 1]) /\
    ReplicaXs Sample.offlineNoMetrics = [Some offlineWrapper] /\
    ReplicaXs ss' = [Some (newSqlxDBWrapper 5%nat)] /\
    registrationsOf [SetupConnection "replica-0" "r0" 1] = [].
Proof. eexists. split; [by vm_compute|]. by repeat split. Qed.

(** C3, amended. On a tick every read and search slot is treated on its
    own: an online slot keeps its handle and nothing is done for it; for an
    offline slot exactly one connection attempt with one ping is made, after
    which the slot holds its previous handle if the attempt failed and a new
    online handle if it succeeded, whose collector is registered when the
    store has a metrics sink and not otherwise. A failure leaves the other
    slots' treatment and the loop untouched: the tick branch always returns
    to [select], and the monitor returns only from [select] with the quit
    channel closed. *)
Theorem monitorTick_heals (dial : dialer) (ss : SqlStore) :
  storeReady ss ->
  (exists outsR outsS,
     monitorTick dial ss
     = Go.Ok (set_slots (outsR.*1) (outsS.*1) ss,
              (concat outsR.*2 ++ concat outsS.*2)%list) /\
     slotOutcomes dial (metrics ss) "replica-"
       (DataSourceReplicas (settings ss)) 0 (ReplicaXs ss) outsR /\
     slotOutcomes dial (metrics ss) "search-replica-"
       (DataSourceSearchReplicas (settings ss)) 0 (searchReplicaXs ss) outsS /\
     storeReady (set_slots (outsR.*1) (outsS.*1) ss)) /\
  (forall s, store s = ss -> monitor s = InTick ->
     exists s', step s s' /\ monitor s' = InSelect /\ storeReady (store s')) /\
  (forall s s', step s s' -> monitor s' = Returned ->
     monitor s = Returned \/ (monitor s = InSelect /\ quitClosed s = true)).
Proof.
  intros Hready.
  destruct (monitorTick_outcomes dial ss Hready) as (outsR & outsS & Ht & HR & HS & Hr').
  split; [by exists outsR, outsS|]. split.
  - intros s Hs Hm. subst ss. eexists. split; [by eapply step_tick_end|]. done.
  - intros s s' Hstep Hret. inversion Hstep; subst; simpl in Hret; auto; done.
Qed.

(** The amended C3 on a tick over three read slots of which two are
    offline. *)
Lemma monitorTick_heals_witness :
  exists outsR outsS,
    monitorTick Sample.allAnswer Sample.threeReplicas
    = Go.Ok (set_slots (outsR.*1) (outsS.*1) Sample.threeReplicas,
             (concat outsR.*2 ++ concat outsS.*2)%list) /\
    slotOutcomes Sample.allAnswer true "replica-" ["r0"; "r1"; "r2"] 0
      (ReplicaXs Sample.threeReplicas) outsR /\
    slotOutcomes Sample.allAnswer true "search-replica-" [] 0 [] outsS /\
    storeReady (set_slots (outsR.*1) (outsS.*1) Sample.threeReplicas).
Proof.
  apply (monitorTick_heals Sample.allAnswer Sample.threeReplicas).
  split; [split; reflexivity|].
  split; repeat constructor; discriminate.
Defined.

Example monitorTick_threeReplicas :
  monitorTick Sample.allAnswer Sample.threeReplicas
  = Go.Ok (set_slots [Some (newSqlxDBWrapper 5%nat); Some (newSqlxDBWrapper 5%nat);
                      Some (newSqlxDBWrapper 2%nat)] [] Sample.threeReplicas,
           [SetupConnection "replica-0" "r0" 1; RegisterDBCollector 5%nat "replica-0";
            SetupConnection "replica-1" "r1" 1; RegisterDBCollector 5%nat "replica-1"]).
Proof. by vm_compute. Qed.

(** ** Start-up with the monitor running *)

Lemma SkipMigrations_keepsPools : keepsPools SkipMigrations.
Proof. by intros s. Qed.

Lemma DisableMorphLogging_keepsPools : keepsPools DisableMorphLogging.
Proof. by intros s. Qed.

Lemma applyOptions_pools options : forall s s',
  Forall keepsPools options ->
  applyOptions options s = inr s' ->
  settings s' = settings s /\ ReplicaXs s' = ReplicaXs s /\
  searchReplicaXs s' = searchReplicaXs s.
Proof.
  induction options as [|o options IH]; intros s s' Hall; simpl.
  { by intros [= <-]. }
  apply Forall_cons in Hall as [Ho Hall]. specialize (Ho s).
  destruct (o s) as [s1 [err|]]; [done|]. simpl in Ho.
  intros H. destruct (IH _ _ Hall H) as (-> & -> & ->). done.
Qed.

Lemma ensureMinimumDBVersion_settings ss ss' ver :
  settings ss' = settings ss ->
  ensureMinimumDBVersion ss' ver = ensureMinimumDBVersion ss ver.
Proof. intros H. unfold ensureMinimumDBVersion. by rewrite H. Qed.

(** A tick that returns has changed nothing but the content of slots. *)
Lemma monitorTick_frame dial ss ss' evs :
  monitorTick dial ss = Go.Ok (ss', evs) ->
  ss' = set_slots (ReplicaXs ss') (searchReplicaXs ss') ss.
Proof.
  unfold monitorTick.
  destruct (tickPool _ _ _ _ _ (ReplicaXs ss)) as [[ps1 evs1]|]; simpl; [|done].
  destruct (tickPool _ _ _ _ _ (searchReplicaXs ss)) as [[ps2 evs2]|]; simpl; [|done].
  by intros [= <- <-].
Qed.

Lemma ticks_frame dials : forall ss ss' evs,
  ticks dials ss = Go.Ok (ss', evs) ->
  ss' = set_slots (ReplicaXs ss') (searchReplicaXs ss') ss.
Proof.
  induction dials as [|dial rest IH]; intros ss ss' evs; simpl.
  { intros [= <- <-]. by destruct ss. }
  destruct (monitorTick dial ss) as [[ss1 evs1]|] eqn:Ht; simpl; [|done].
  destruct (ticks rest ss1) as [[ss2 evs2]|] eqn:Hr; simpl; [|done].
  intros [= <- <-]. rewrite (IH _ _ _ Hr) at 1.
  by rewrite (monitorTick_frame _ _ _ _ Ht).
Qed.

(** On a ready store any number of ticks returns, and leaves it ready. *)
Lemma ticks_ready dials : forall ss,
  storeReady ss -> exists ss' evs, ticks dials ss = Go.Ok (ss', evs) /\ storeReady ss'.
Proof.
  induction dials as [|dial rest IH]; intros ss Hready.
  { by exists ss, []. }
  destruct (monitorTick_outcomes dial ss Hready) as (outsR & outsS & Ht & _ & _ & Hready1).
  destruct (IH _ Hready1) as (ss' & evs & Hticks & Hready').
  do 2 eexists. simpl ticks. rewrite Ht. simpl Go.bind. rewrite Hticks. simpl. done.
Qed.

Lemma monitorStarts_frame sched ss ss1 :
  monitorStarts sched ss = Go.Ok ss1 ->
  ss1 = set_slots (ReplicaXs ss1) (searchReplicaXs ss1) ss.
Proof.
  destruct sched as [|before after]; simpl.
  { intros [= <-]. by destruct ss. }
  destruct (NewTicker _) as [t|]; simpl; [|done].
  destruct (ticks before ss) as [[ss' evs]|] eqn:Ht; simpl; [|done].
  intros [= <-]. by apply ticks_frame in Ht.
Qed.

Lemma monitorGoesOn_frame sched ss ss2 :
  monitorGoesOn sched ss = Go.Ok ss2 ->
  ss2 = set_slots (ReplicaXs ss2) (searchReplicaXs ss2) ss.
Proof.
  destruct sched as [|before after]; simpl.
  { intros [= <-]. by destruct ss. }
  destruct (ticks after ss) as [[ss' evs]|] eqn:Ht; simpl; [|done].
  intros [= <-]. by apply ticks_frame in Ht.
Qed.

(** On a ready store the monitor gets through whatever it is scheduled to
    do, provided its ticker can be created. *)
Lemma monitor_survives sched ss :
  storeReady ss ->
  sched = NotScheduled \/ 0 < tickerInterval (settings ss) ->
  exists ss1 ss2,
    monitorStarts sched ss = Go.Ok ss1 /\ monitorGoesOn sched ss1 = Go.Ok ss2 /\
    storeReady ss2 /\ ss2 = set_slots (ReplicaXs ss2) (searchReplicaXs ss2) ss.
Proof.
  intros Hready Hsched. destruct sched as [|before after].
  { exists ss, ss. repeat split; try done; try apply Hready. by destruct ss. }
  destruct Hsched as [|Hpos]; [done|].
  destruct (ticks_ready before ss Hready) as (ss1 & evs1 & Ht1 & Hready1).
  destruct (ticks_ready after ss1 Hready1) as (ss2 & evs2 & Ht2 & Hready2).
  exists ss1, ss2. simpl. unfold NewTicker.
  destruct (tickerInterval (settings ss) <=? 0) eqn:E; [lia|]. simpl.
  rewrite Ht1. simpl. rewrite Ht2. simpl. split; [done|]. split; [done|].
  split; [done|]. apply ticks_frame in Ht1, Ht2. rewrite Ht2 at 1. by rewrite Ht1.
Qed.

(** What [New] comes to once the options are applied and the master is
    connected: the monitor runs as scheduled, and the gate decides on the
    answer of the master. *)
Lemma NewVersionGate_connected dial get st hasMetrics options sched store ss evs h :
  Forall keepsLicense options ->
  applyOptions options (emptyStore st hasMetrics) = inr store ->
  initConnection dial store = (None, ss, evs) ->
  dial "master" (DataSource (settings store)) DBPingAttempts = inr h ->
  NewVersionGate dial get st hasMetrics options sched
  = Go.bind (monitorStarts sched ss) (fun ss1 =>
      if String.eqb (DriverName (settings store)) DatabaseDriverPostgres then
        Go.bind (monitorGoesOn sched ss1) (fun ss2 =>
          match get (newSqlxDBWrapper h) "SHOW server_version_num" with
          | inl err => Go.Ok (None, Some (WithCause "error while getting DB version" err))
          | inr ver =>
              match ensureMinimumDBVersion ss ver with
              | (false, err) =>
                  Go.Ok (None, option_map (WithCause "error while checking DB version") err)
              | (true, _) => Go.Ok (Some ss2, None)
              end
          end)
      else
        Go.bind (monitorGoesOn sched ss1) (fun _ =>
          Go.Ok (None, Some (WithCause "error while getting DB version"
                               (ErrorString "Not supported driver"))))).
Proof.
  intros Hopts Happ Hinit Hd. unfold NewVersionGate. rewrite Happ, Hinit.
  destruct (initConnection_ok _ _ _ _ Hinit) as (Hl & Hs & _ & _ & h' & Hd' & Hm).
  rewrite Hd in Hd'. inversion Hd'; subst h'.
  rewrite (applyOptions_license _ _ _ Hopts Happ) in Hl. simpl in Hl.
  destruct (monitorStarts sched ss) as [ss1|msg] eqn:H1; simpl; [|done].
  pose proof (monitorStarts_frame _ _ _ H1) as F1.
  assert (Hl1 : license ss1 = None) by (rewrite F1; exact Hl).
  assert (Hm1 : masterX ss1 = Some (newSqlxDBWrapper h)) by (rewrite F1; exact Hm).
  assert (Hs1 : settings ss1 = settings store) by (rewrite F1; exact Hs).
  rewrite (GetDbVersion_unlicensed get ss1 _ Hl1 Hm1), Hs1.
  destruct (String.eqb _ _); simpl.
  - destruct (monitorGoesOn sched ss1) as [ss2|msg] eqn:H2; simpl; [|done].
    pose proof (monitorGoesOn_frame _ _ _ H2) as F2.
    destruct (get _ _) as [err|ver]; simpl; [done|].
    rewrite (ensureMinimumDBVersion_settings ss ss2 ver); [done|].
    rewrite F2. simpl. by rewrite Hs1.
  - by destruct (monitorGoesOn sched ss1).
Qed.

(** C9. In [New], with options that leave the license alone (as those of
    store.go do), no license is installed at the call of [GetDbVersion]:
    [GetReplica] returns the master and leaves the counters alone, and the
    version query is put to the master wrapper built by [initConnection]
    (first part). Inside [New] itself, whatever the monitor that [New] has
    just started gets through meanwhile, the version handed to
    [ensureMinimumDBVersion] is the answer of that master wrapper to
    [SHOW server_version_num]: an error of the master is the error [New]
    returns, and on an answer [New] returns what the gate says of that very
    answer (second part). The monitor does get through, on a store built with
    options that leave the pools alone, when it is not scheduled or its
    ticker interval is positive, and it leaves master and license as they
    are (third part). The outcome of [New] up to the gate depends on the
    answers of no other handle than the master's (fourth part). *)
Theorem New_reads_version_from_master (dial : dialer) (st : SqlSettings)
    (hasMetrics : bool) (options : list Option) :
  Forall keepsLicense options ->
  (forall store ss evs,
     applyOptions options (emptyStore st hasMetrics) = inr store ->
     initConnection dial store = (None, ss, evs) ->
     license ss = None /\
     GetReplica ss = Go.Ok (masterX ss, ss) /\
     exists h, dial "master" (DataSource (settings store)) DBPingAttempts = inr h /\
       masterX ss = Some (newSqlxDBWrapper h) /\
       forall get, DriverName (settings ss) = DatabaseDriverPostgres ->
         GetDbVersion get true ss
         = Go.Ok (get (newSqlxDBWrapper h) "SHOW server_version_num", ss)) /\
  (forall get sched store ss evs h ss1 ss2,
     applyOptions options (emptyStore st hasMetrics) = inr store ->
     initConnection dial store = (None, ss, evs) ->
     dial "master" (DataSource (settings store)) DBPingAttempts = inr h ->
     DriverName (settings store) = DatabaseDriverPostgres ->
     monitorStarts sched ss = Go.Ok ss1 ->
     monitorGoesOn sched ss1 = Go.Ok ss2 ->
     NewVersionGate dial get st hasMetrics options sched
     = match get (newSqlxDBWrapper h) "SHOW server_version_num" with
       | inl err => Go.Ok (None, Some (WithCause "error while getting DB version" err))
       | inr ver =>
           match ensureMinimumDBVersion ss ver with
           | (false, err) =>
               Go.Ok (None, option_map (WithCause "error while checking DB version") err)
           | (true, _) => Go.Ok (Some ss2, None)
           end
       end) /\
  (Forall keepsPools options ->
   forall sched store ss evs,
     applyOptions options (emptyStore st hasMetrics) = inr store ->
     initConnection dial store = (None, ss, evs) ->
     sched = NotScheduled \/ 0 < tickerInterval st ->
     exists ss1 ss2,
       monitorStarts sched ss = Go.Ok ss1 /\ monitorGoesOn sched ss1 = Go.Ok ss2 /\
       masterX ss2 = masterX ss /\ license ss2 = None) /\
  (forall sched get1 get2,
     (forall store h q,
        applyOptions options (emptyStore st hasMetrics) = inr store ->
        dial "master" (DataSource (settings store)) DBPingAttempts = inr h ->
        get1 (newSqlxDBWrapper h) q = get2 (newSqlxDBWrapper h) q) ->
     NewVersionGate dial get1 st hasMetrics options sched
     = NewVersionGate dial get2 st hasMetrics options sched).
Proof.
  intros Hopts.
  assert (Hmain : forall store ss evs,
     applyOptions options (emptyStore st hasMetrics) = inr store ->
     initConnection dial store = (None, ss, evs) ->
     license ss = None /\
     exists h, dial "master" (DataSource (settings store)) DBPingAttempts = inr h /\
       masterX ss = Some (newSqlxDBWrapper h)).
  { intros store ss evs Happ Hinit.
    destruct (initConnection_ok _ _ _ _ Hinit) as (Hl & _ & _ & _ & h & Hd & Hm).
    rewrite (applyOptions_license _ _ _ Hopts Happ) in Hl. split; [done|]. by exists h. }
  split; [|split; [|split]].
  - intros store ss evs Happ Hinit.
    destruct (Hmain _ _ _ Happ Hinit) as (Hl & h & Hd & Hm).
    split; [done|]. split; [apply GetReplica_routed; by right; right|].
    exists h. split; [done|]. split; [done|].
    intros get Hdrv. rewrite (GetDbVersion_unlicensed get ss _ Hl Hm).
    apply String.eqb_eq in Hdrv. by rewrite Hdrv.
  - intros get sched store ss evs h ss1 ss2 Happ Hinit Hd Hdrv H1 H2.
    rewrite (NewVersionGate_connected _ get _ _ _ sched _ _ _ _ Hopts Happ Hinit Hd).
    rewrite H1. simpl. apply String.eqb_eq in Hdrv. rewrite Hdrv, H2. done.
  - intros Hpools sched store ss evs Happ Hinit Hsched.
    destruct (applyOptions_pools _ _ _ Hpools Happ) as (Hst & HR & HS).
    destruct (initConnection_ready _ _ _ _ HR HS Hinit) as (Hready & _).
    destruct (initConnection_ok _ _ _ _ Hinit) as (_ & Hs & _).
    destruct (Hmain _ _ _ Happ Hinit) as (Hl & _).
    destruct (monitor_survives sched ss Hready) as (ss1 & ss2 & H1 & H2 & _ & F).
    { destruct Hsched as [|Hpos]; [by left|right]. by rewrite Hs, Hst. }
    exists ss1, ss2. split; [done|]. split; [done|]. rewrite F. done.
  - intros sched get1 get2 Hagree. 
    destruct (applyOptions options (emptyStore st hasMetrics)) as [err|store] eqn:Happ.
    { unfold NewVersionGate. by rewrite Happ. }
    destruct (initConnection dial store) as [[[err|] ss] evs] eqn:Hinit.
    { unfold NewVersionGate. by rewrite Happ, Hinit. }
    destruct (Hmain _ _ _ eq_refl Hinit) as (Hl & h & Hd & Hm).
    rewrite !(NewVersionGate_connected _ _ _ _ _ sched _ _ _ _ Hopts Happ Hinit Hd).
    by rewrite (Hagree store h _ eq_refl Hd).
Qed.

(** The C9 theorem on a start-up with [SkipMigrations] where the master
    answers, one replica is down, and the monitor ticks once before the
    version query: the master reports version 12.5, and [New] returns the
    error of the gate. *)
Lemma New_reads_version_from_master_witness :
  Forall keepsLicense [SkipMigrations] /\
  (exists store ss evs,
     applyOptions [SkipMigrations] (emptyStore (Sample.cfg ["r0"] [] []) true)
       = inr store /\
     initConnection Sample.onlyMaster store = (None, ss, evs) /\
     license ss = None /\
     GetReplica ss = Go.Ok (masterX ss, ss)) /\
  NewVersionGate Sample.onlyMaster
    Sample.oldMaster
    (Sample.cfg ["r0"] [] []) true [SkipMigrations] (Running [Sample.allAnswer] [])
  = Go.Ok (None,
           Some (WithCause "error while checking DB version"
                   (ErrorString "minimum Postgres version requirements not met. Found: 12.5, Wanted: 13.0"))).
Proof.
  assert (H : Forall keepsLicense [SkipMigrations]).
  { constructor; [intros s; reflexivity|constructor]. }
  split; [exact H|]. split.
  - do 3 eexists. split; [reflexivity|]. split; [reflexivity|].
    pose proof (proj1 (New_reads_version_from_master Sample.onlyMaster
                         (Sample.cfg ["r0"] [] []) true [SkipMigrations] H)
                  _ _ _ eq_refl eq_refl) as (H1 & H2 & _).
    exact (conj H1 H2).
  - assert (H1 : exists ss1,
        monitorStarts (Running [Sample.allAnswer] [])
          (initConnection Sample.onlyMaster
             (SkipMigrations (emptyStore (Sample.cfg ["r0"] [] []) true)).1).1.2
        = Go.Ok ss1 /\
        monitorGoesOn (Running [Sample.allAnswer] []) ss1 = Go.Ok ss1).
    { eexists. split; vm_compute; reflexivity. }
    destruct H1 as (ss1 & H1 & H2).
    exact (proj1 (proj2 (New_reads_version_from_master Sample.onlyMaster
                           (Sample.cfg ["r0"] [] []) true [SkipMigrations] H))
             _ (Running [Sample.allAnswer] []) _ _ _ 0%nat ss1 ss1
             eq_refl eq_refl eq_refl eq_refl H1 H2).
Defined.

(** ** Shutdown *)

Lemma shutdownPhase_app ph tr1 tr2 :
  shutdownPhase ph (tr1 ++ tr2)%list
  = match shutdownPhase ph tr1 with
    | Some ph' => shutdownPhase ph' tr2
    | None => None
    end.
Proof.
  revert ph. induction tr1 as [|e tr1 IH]; intros ph; simpl; [done|].
  destruct (advance ph e); [apply IH|done].
Qed.

Lemma shutdownPhase_monitor_events ph evs :
  ph <> MonitorStopped -> Forall (fun e => isMonitorEvent e = true) evs ->
  shutdownPhase ph evs = Some ph.
Proof.
  intros Hph. induction 1 as [|e evs He _ IH]; simpl; [done|].
  assert (advance ph e = Some ph) as ->; [|done].
  destruct ph, e; simpl in *; done.
Qed.

Lemma shutdownPhase_handle_closes evs :
  Forall (fun e => isHandleClose e = true) evs ->
  shutdownPhase MonitorStopped evs = Some MonitorStopped.
Proof.
  induction 1 as [|e evs He _ IH]; simpl; [done|]. by rewrite He.
Qed.

Lemma setupReplica_monitor_events dial hasMetrics r dsn name p evs :
  setupReplica dial hasMetrics r dsn name = Go.Ok (p, evs) ->
  Forall (fun e => isMonitorEvent e = true) evs.
Proof.
  unfold setupReplica. destruct r as [w|]; simpl; [|done].
  destruct (Online w); [by intros [= <- <-]|].
  destruct (dial name dsn 1) as [err|h].
  - intros [= <- <-]. by repeat constructor.
  - intros [= <- <-]. destruct hasMetrics, w as [[db|] on]; by repeat constructor.
Qed.

Lemma tickPool_monitor_events dial hasMetrics prefix dsns : forall slots i ps evs,
  tickPool dial hasMetrics prefix dsns i slots = Go.Ok (ps, evs) ->
  Forall (fun e => isMonitorEvent e = true) evs.
Proof.
  induction slots as [|r rest IH]; intros i ps evs; simpl.
  { by intros [= <- <-]. }
  destruct (Go.index dsns _) as [dsn|]; simpl; [|done].
  destruct (setupReplica _ _ _ _ _) as [[p1 evs1]|] eqn:Hs; simpl; [|done].
  destruct (tickPool _ _ _ _ _ rest) as [[ps2 evs2]|] eqn:Ht; simpl; [|done].
  intros [= <- <-]. apply Forall_app. split.
  - by eapply setupReplica_monitor_events.
  - by eapply IH.
Qed.

Lemma monitorTick_monitor_events dial ss ss' evs :
  monitorTick dial ss = Go.Ok (ss', evs) ->
  Forall (fun e => isMonitorEvent e = true) evs.
Proof.
  unfold monitorTick.
  destruct (tickPool _ _ _ _ _ (ReplicaXs ss)) as [[ps1 evs1]|] eqn:H1; simpl; [|done].
  destruct (tickPool _ _ _ _ _ (searchReplicaXs ss)) as [[ps2 evs2]|] eqn:H2; simpl; [|done].
  intros [= <- <-]. apply Forall_app.
  split; by eapply tickPool_monitor_events.
Qed.

Lemma closePool_handle_closes mk slots evs :
  (forall db, isHandleClose (mk db) = true) ->
  closePool mk slots = Go.Ok evs ->
  Forall (fun e => isHandleClose e = true) evs.
Proof.
  intros Hmk. revert evs. induction slots as [|r rest IH]; intros evs; simpl.
  { by intros [= <-]. }
  destruct r as [w|]; simpl; [|done].
  destruct (closePool mk rest) as [evs'|]; simpl; [|done].
  intros [= <-]. destruct (Online w); [constructor|]; auto.
Qed.

Lemma closeHandles_handle_closes ss evs :
  closeHandles ss = Go.Ok evs -> Forall (fun e => isHandleClose e = true) evs.
Proof.
  unfold closeHandles.
  destruct (closePool CloseReplica _) as [evs1|] eqn:H1; simpl; [|done].
  destruct (closePool CloseSearchReplica _) as [evs2|] eqn:H2; simpl; [|done].
  intros [= <-]. rewrite !Forall_app. split; [|split].
  - exact (closePool_handle_closes CloseReplica _ _ (fun _ => eq_refl) H1).
  - exact (closePool_handle_closes CloseSearchReplica _ _ (fun _ => eq_refl) H2).
  - apply Forall_forall. intros e He. apply list_elem_of_fmap in He as (h & -> & _). done.
Qed.

Lemma closePool_loaded mk slots :
  slotsLoaded slots -> exists evs, closePool mk slots = Go.Ok evs.
Proof.
  induction 1 as [|r rest Hr _ [evs IH]]; simpl; [by eexists|].
  destruct r as [w|]; [|done]. simpl. rewrite IH. simpl. by eexists.
Qed.

Lemma shutdownInv_started ss : shutdownInv (started ss).
Proof. by repeat split. Qed.

Lemma shutdownInv_step s s' : shutdownInv s -> step s s' -> shutdownInv s'.
Proof.
  intros (Htr & Hwg & Hq & Hr & Hm) Hstep. unfold shutdownInv, phaseOf in *.
  inversion Hstep as [s0 Hmon|s0 dial ss' evs Hmon Htick|s0 Hmon Hquit
                     |s0 w Hc Hmaster|s0 Hc Hquit|s0 Hc Hw|s0 evs Hc Hclose];
    subst; simpl in *.
  - rewrite Hmon in *. destruct (closer s); first [done|discriminate Hm].
  - rewrite Hmon in *. rewrite shutdownPhase_app, Htr.
    pose proof (monitorTick_monitor_events _ _ _ _ Htick) as Hev.
    destruct (closer s); try discriminate Hm;
      (split; [by apply shutdownPhase_monitor_events|done]).
  - rewrite Hmon in *. rewrite shutdownPhase_app, Htr.
    destruct (closer s); try discriminate Hm; try congruence.
    split; [done|]. split; [lia|done].
  - rewrite Hc in *. rewrite shutdownPhase_app, Htr. done.
  - rewrite Hc in *. rewrite shutdownPhase_app, Htr. simpl.
    destruct (monitor s); try done. specialize (Hr eq_refl). congruence.
  - rewrite Hc in *. destruct (monitor s); first [done|lia].
  - rewrite Hc in *. rewrite shutdownPhase_app, Htr. rewrite Hm in *.
    split; [|done]. apply shutdownPhase_handle_closes.
    by eapply closeHandles_handle_closes.
Qed.

Lemma reachable_shutdownInv ss s : reachable ss s -> shutdownInv s.
Proof.
  unfold reachable. revert s. apply rtc_ind_r.
  - apply shutdownInv_started.
  - intros y z _ Hstep IH. by eapply shutdownInv_step.
Qed.

Lemma shutdownPhase_stopped tr ph :
  shutdownPhase MonitorStopped tr = Some ph ->
  ph = MonitorStopped /\ Forall (fun e => isHandleClose e = true) tr.
Proof.
  induction tr as [|e tr IH]; simpl; [by intros [= <-]|].
  destruct (isHandleClose e) eqn:He; [|done].
  intros H. destruct (IH H) as [-> Hall]. split; [done|]. by constructor.
Qed.

(** From a phase before the monitor's stop, a trace either stays in the
    phase on monitor events only, or leaves it at its first other event. *)
Lemma shutdownPhase_split ph tr ph' :
  ph <> MonitorStopped -> shutdownPhase ph tr = Some ph' ->
  (ph' = ph /\ Forall (fun e => isMonitorEvent e = true) tr) \/
  (exists t e ph1 t',
     tr = (t ++ e :: t')%list /\ Forall (fun e => isMonitorEvent e = true) t /\
     isMonitorEvent e = false /\ advance ph e = Some ph1 /\
     shutdownPhase ph1 t' = Some ph').
Proof.
  intros Hph. induction tr as [|e tr IH]; simpl.
  { intros [= <-]. by left. }
  destruct (advance ph e) as [ph1|] eqn:Ha; [|done]. intros H.
  destruct (isMonitorEvent e) eqn:He.
  - assert (ph1 = ph) as ->.
    { destruct ph, e; simpl in *; congruence. }
    destruct (IH H) as [[-> Hall]|(t & e' & ph2 & t' & -> & Hall & He' & Ha' & Hrest)].
    + left. split; [done|]. by constructor.
    + right. exists (e :: t), e', ph2, t'. split; [done|]. split; [by constructor|done].
  - right. exists [], e, ph1, tr. by repeat split.
Qed.

Lemma shutdownPhase_shape tr :
  shutdownPhase Serving tr = Some MonitorStopped -> monitorStoppedShape tr.
Proof.
  intros H.
  destruct (shutdownPhase_split Serving tr _ ltac:(done) H)
    as [[? _]|(t1 & e1 & ph1 & r1 & -> & H1 & He1 & Ha1 & Hr1)]; [done|].
  assert (exists m, e1 = CloseMaster m /\ ph1 = MasterClosed) as (m & -> & ->).
  { destruct e1; simpl in *; try done. inversion Ha1. by eexists. }
  destruct (shutdownPhase_split MasterClosed r1 _ ltac:(done) Hr1)
    as [[? _]|(t2 & e2 & ph2 & r2 & -> & H2 & He2 & Ha2 & Hr2)]; [done|].
  assert (e2 = CloseQuitMonitor /\ ph2 = QuitSignalled) as [-> ->].
  { destruct e2; simpl in *; try done. by inversion Ha2. }
  destruct (shutdownPhase_split QuitSignalled r2 _ ltac:(done) Hr2)
    as [[? _]|(t3 & e3 & ph3 & r3 & -> & H3 & He3 & Ha3 & Hr3)]; [done|].
  assert (e3 = MonitorDone /\ ph3 = MonitorStopped) as [-> ->].
  { destruct e3; simpl in *; try done. by inversion Ha3. }
  apply shutdownPhase_stopped in Hr3 as [_ H4].
  exists t1, m, t2, t3, r3. split; [done|]. split; [|done].
  rewrite !Forall_app. done.
Qed.

Lemma handle_close_after_stop pre e post ph :
  shutdownPhase Serving (pre ++ e :: post)%list = Some ph ->
  isHandleClose e = true ->
  shutdownPhase Serving pre = Some MonitorStopped.
Proof.
  rewrite shutdownPhase_app. destruct (shutdownPhase Serving pre) as [ph1|]; [|done].
  simpl. intros H He. destruct ph1, e; simpl in *; done.
Qed.

Lemma monitor_done_then_closes pre post ph :
  shutdownPhase Serving (pre ++ MonitorDone :: post)%list = Some ph ->
  Forall (fun e => isHandleClose e = true) post.
Proof.
  rewrite shutdownPhase_app. destruct (shutdownPhase Serving pre) as [ph1|]; [|done].
  simpl. destruct ph1; simpl; try done.
  intros H. by apply shutdownPhase_stopped in H as [_ H].
Qed.

(** [Close] can always run to its end: once the quit channel is closed the
    monitor takes the quit branch, [Wait] returns and the handles are
    closed. *)
Lemma Close_completes ss w :
  masterX ss = Some w ->
  slotsLoaded (ReplicaXs ss) -> slotsLoaded (searchReplicaXs ss) ->
  exists s evs,
    reachable ss s /\ closer s = Closed /\ monitor s = Returned /\
    closeHandles ss = Go.Ok evs /\
    trace s = (CloseMaster (DB w) :: CloseQuitMonitor :: MonitorDone :: evs)%list.
Proof.
  intros Hm HlR HlS.
  assert (exists evs, closeHandles ss = Go.Ok evs) as [evs Hevs].
  { unfold closeHandles.
    destruct (closePool_loaded CloseReplica _ HlR) as [e1 ->].
    destruct (closePool_loaded CloseSearchReplica _ HlS) as [e2 ->].
    simpl. by eexists. }
  eexists _, evs. split; [|split; [|split; [|split; [exact Hevs|]]]].
  - unfold reachable.
    eapply rtc_l; [by eapply (step_close_master (started ss) w)|].
    eapply rtc_l; [by apply step_close_quit|].
    eapply rtc_l; [by apply step_quit|].
    eapply rtc_l; [by apply step_wait|].
    eapply rtc_l; [by eapply (step_close_handles _ evs)|].
    apply rtc_refl.
  - done.
  - done.
  - done.
Qed.

(** C2. In every state an execution of [Close] against the running monitor
    can reach, the trace follows the prescribed order: the master is closed
    first, then the quit channel, then the monitor acknowledges, and only
    after that are replica, search-replica and lag-probe handles closed.
    [Close] is past [wgMonitor.Wait()] only when the monitor has returned;
    every closing of such a handle is preceded by the monitor's
    acknowledgement; after it the monitor does nothing more. And [Close]
    can always run to its end. *)
Theorem Close_order (ss : SqlStore) :
  (forall s, reachable ss s ->
     shutdownPhase Serving (trace s) = Some (phaseOf s) /\
     (closer s = AtCloseHandles \/ closer s = Closed ->
      monitor s = Returned /\ wgMonitor s = 0) /\
     (forall pre e post,
        trace s = (pre ++ e :: post)%list -> isHandleClose e = true ->
        monitorStoppedShape pre) /\
     (forall pre post,
        trace s = (pre ++ MonitorDone :: post)%list ->
        Forall (fun e => isHandleClose e = true) post)) /\
  (forall w, masterX ss = Some w ->
     slotsLoaded (ReplicaXs ss) -> slotsLoaded (searchReplicaXs ss) ->
     exists s evs,
       reachable ss s /\ closer s = Closed /\ monitor s = Returned /\
       closeHandles ss = Go.Ok evs /\
       trace s = (CloseMaster (DB w) :: CloseQuitMonitor :: MonitorDone :: evs)%list).
Proof.
  split; [|apply Close_completes].
  intros s Hs. destruct (reachable_shutdownInv ss s Hs) as (Htr & Hwg & Hq & Hr & Hm).
  split; [done|]. split; [|split].
  - intros [Hc|Hc]; rewrite Hc in Hm; rewrite Hm in Hwg; done.
  - intros pre e post Heq He. rewrite Heq in Htr.
    apply shutdownPhase_shape. by eapply handle_close_after_stop.
  - intros pre post Heq. rewrite Heq in Htr. by eapply monitor_done_then_closes.
Qed.

(** The C2 theorem on the run in which [Close] meets an idle monitor, over
    three read slots of which one is online. *)
Lemma Close_order_witness :
  exists s,
    reachable Sample.threeReplicas s /\
    trace s = [CloseMaster (Some 0%nat); CloseQuitMonitor; MonitorDone;
               CloseReplica (Some 2%nat)] /\
    monitorStoppedShape [CloseMaster (Some 0%nat); CloseQuitMonitor; MonitorDone].
Proof.
  assert (Hreach : reachable Sample.threeReplicas
            {| store := Sample.threeReplicas; quitClosed := true; wgMonitor := 0;
               closer := Closed; monitor := Returned;
               trace := [CloseMaster (Some 0%nat); CloseQuitMonitor; MonitorDone;
                         CloseReplica (Some 2%nat)] |}).
  { unfold reachable.
    eapply rtc_l;
      [exact (step_close_master (started Sample.threeReplicas) Sample.master
                eq_refl eq_refl)|].
    eapply rtc_l; [apply step_close_quit; reflexivity|].
    eapply rtc_l; [apply step_quit; reflexivity|].
    eapply rtc_l; [apply step_wait; reflexivity|].
    eapply rtc_l; [apply (step_close_handles _ [CloseReplica (Some 2%nat)]);
                   reflexivity|].
    apply rtc_refl. }
  eexists. split; [exact Hreach|]. split; [reflexivity|].
  exact (proj1 (proj2 (proj2 (proj1 (Close_order Sample.threeReplicas) _ Hreach)))
           [CloseMaster (Some 0%nat); CloseQuitMonitor; MonitorDone]
           (CloseReplica (Some 2%nat)) [] eq_refl eq_refl).
Defined.

(* ================================================================== *)
(** * Further properties *)

(** ** The router *)

Lemma set_rrCounter_same ss : set_rrCounter (rrCounter ss) ss = ss.
Proof. by destruct ss. Qed.

Lemma set_srCounter_same ss : set_srCounter (srCounter ss) ss = ss.
Proof. by destruct ss. Qed.

Lemma GetReplica_result ss p ss' :
  GetReplica ss = Go.Ok (p, ss') ->
  (p = masterX ss \/
   exists i w, ReplicaXs ss !! i = Some (Some w) /\ Online w = true /\ p = Some w) /\
  ss' = set_rrCounter (rrCounter ss') ss.
Proof.
  unfold GetReplica. destruct (_ || _).
  { intros [= <- <-]. split; [by left|]. by rewrite set_rrCounter_same. }
  destruct (probe _ _ _) as [[[q|] c']|m] eqn:Hp; simpl; [| |done].
  - intros [= <- <-]. split; [|done]. right. by apply probe_found in Hp.
  - intros [= <- <-]. split; [by left|done].
Qed.

Lemma probe_counter slots fuel : forall c r c',
  probe fuel c slots = Go.Ok (r, c') ->
  0 <= c -> c + Z.of_nat fuel < 2 ^ 63 ->
  c <= c' <= c + Z.of_nat fuel /\ (r <> None -> c < c').
Proof.
  induction fuel as [|fuel IH]; intros c r c' H Hc Hr; simpl in H.
  { inversion H; subst. split; [lia|done]. }
  unfold Go.AddInt64 in H. rewrite wrap64_small in H by lia.
  destruct (Go.index slots _) as [p|]; simpl in H; [|done].
  destruct (ptrOnline p) as [[|]|]; simpl in H; [| |done].
  - inversion H; subst. split; lia.
  - destruct (IH _ _ _ H) as [Hb Hlt]; [lia|lia|]. split; [lia|]. intros Hn. lia.
Qed.

(** X1. Whatever the store, a handle returned by [GetSearchReplicaX] is the
    master or the online content of a read slot or of a search slot; an
    offline handle is never returned. *)
Theorem GetSearchReplicaX_never_offline (ss : SqlStore) (p : wrapperPtr) (ss' : SqlStore) :
  GetSearchReplicaX ss = Go.Ok (p, ss') ->
  p = masterX ss \/
  (exists i w, ReplicaXs ss !! i = Some (Some w) /\ Online w = true /\ p = Some w) \/
  (exists i w, searchReplicaXs ss !! i = Some (Some w) /\ Online w = true /\ p = Some w).
Proof.
  unfold GetSearchReplicaX. destruct (negb _); [intros [= <- _]; by left|].
  destruct (_ =? _)%nat.
  { intros H. apply GetReplica_result in H as [[H|H] _]; auto. }
  destruct (probe _ _ _) as [[[q|] c']|m] eqn:Hp; simpl; [| |done].
  - intros [= <- _]. right. right. by apply probe_found in Hp.
  - intros H. apply GetReplica_result in H as [[H|H] _]; auto.
Qed.

Lemma GetSearchReplicaX_never_offline_witness :
  Some (newSqlxDBWrapper 7%nat) = masterX Sample.lockedWithSearch \/
  (exists i w, ReplicaXs Sample.lockedWithSearch !! i = Some (Some w) /\
               Online w = true /\ Some (newSqlxDBWrapper 7%nat) = Some w) \/
  (exists i w, searchReplicaXs Sample.lockedWithSearch !! i = Some (Some w) /\
               Online w = true /\ Some (newSqlxDBWrapper 7%nat) = Some w).
Proof.
  apply (GetSearchReplicaX_never_offline Sample.lockedWithSearch _
           (set_srCounter 1 Sample.lockedWithSearch)).
  vm_compute. reflexivity.
Defined.

(** X2. The routers touch nothing but the rotation counters: [GetReplica]
    leaves a store that differs from the one it was given in [rrCounter]
    only, [GetSearchReplicaX] one that differs in the two counters only; and
    while the counter is in range a call of [GetReplica] never moves it
    back and advances it by at most the number of slots. *)
Theorem routers_touch_counters_only (ss : SqlStore) :
  (forall p ss', GetReplica ss = Go.Ok (p, ss') ->
     ss' = set_rrCounter (rrCounter ss') ss /\
     (counterInRange (rrCounter ss) (length (ReplicaXs ss)) ->
      rrCounter ss <= rrCounter ss'
        <= rrCounter ss + Z.of_nat (length (ReplicaXs ss)))) /\
  (forall p ss', GetSearchReplicaX ss = Go.Ok (p, ss') ->
     ss' = set_rrCounter (rrCounter ss') (set_srCounter (srCounter ss') ss)).
Proof.
  split.
  - intros p ss' H. split; [by apply GetReplica_result in H as [_ H]|].
    intros [Hc Hr]. unfold GetReplica in H. destruct (_ || _).
    { inversion H; subst. lia. }
    destruct (probe _ _ _) as [[r c']|m] eqn:Hp; simpl in H; [|done].
    apply probe_counter in Hp as [Hb _]; [|done|done].
    destruct r; inversion H; subst; simpl; lia.
  - intros p ss' H. unfold GetSearchReplicaX in H. destruct (negb _).
    { inversion H; subst. by rewrite set_srCounter_same, set_rrCounter_same. }
    destruct (_ =? _)%nat.
    { apply GetReplica_result in H as [_ H]. rewrite H. simpl.
      by rewrite set_srCounter_same. }
    destruct (probe _ _ _) as [[[q|] c']|m] eqn:Hp; simpl in H; [| |done].
    + inversion H; subst. simpl. by destruct ss.
    + apply GetReplica_result in H as [_ H]. rewrite H. simpl. by destruct ss.
Qed.

Lemma routers_touch_counters_only_witness :
  set_rrCounter 2 Sample.threeReplicas
  = set_rrCounter (rrCounter (set_rrCounter 2 Sample.threeReplicas)) Sample.threeReplicas /\
  (counterInRange (rrCounter Sample.threeReplicas)
                  (length (ReplicaXs Sample.threeReplicas)) ->
   rrCounter Sample.threeReplicas <= rrCounter (set_rrCounter 2 Sample.threeReplicas)
     <= rrCounter Sample.threeReplicas
        + Z.of_nat (length (ReplicaXs Sample.threeReplicas))).
Proof.
  apply (proj1 (routers_touch_counters_only Sample.threeReplicas)
           (Some (newSqlxDBWrapper 2%nat))).
  vm_compute. reflexivity.
Defined.

Lemma routedToMaster_set_rrCounter c ss :
  routedToMaster (set_rrCounter c ss) <-> routedToMaster ss.
Proof. done. Qed.

Lemma slotOf_lt (slots : list wrapperPtr) c :
  slots <> [] -> (slotOf slots c < length slots)%nat.
Proof.
  intros Hne. unfold slotOf.
  assert (0 < Z.of_nat (length slots)) by (destruct slots; simpl in *; [done|lia]).
  pose proof (Z.mod_pos_bound c (Z.of_nat (length slots))). lia.
Qed.

Lemma GetReplica_allOnline ss :
  ~ routedToMaster ss -> allOnline (ReplicaXs ss) -> ReplicaXs ss <> [] ->
  counterInRange (rrCounter ss) (length (ReplicaXs ss)) ->
  exists p, ReplicaXs ss !! slotOf (ReplicaXs ss) (rrCounter ss + 1) = Some p /\
            GetReplica ss = Go.Ok (p, set_rrCounter (rrCounter ss + 1) ss).
Proof.
  intros Hn Hall Hne [Hc Hr].
  assert (Hl : slotsLoaded (ReplicaXs ss)).
  { eapply Forall_impl; [exact Hall|]. by intros p (w & -> & _). }
  assert (Hoff : ~ offlineAt (ReplicaXs ss) (rrCounter ss + 1)).
  { intros (w & Hw & Hoff). unfold allOnline in Hall. rewrite Forall_lookup in Hall.
    destruct (Hall _ _ Hw) as (w' & [= <-] & Hon). congruence. }
  assert (Hlen : 1 <= Z.of_nat (length (ReplicaXs ss))).
  { destruct (ReplicaXs ss); simpl in *; [done|lia]. }
  rewrite (GetReplica_unrouted _ Hn).
  destruct (probe_spec (ReplicaXs ss) (length (ReplicaXs ss)) (rrCounter ss))
    as [(k & w & Hk & Hbefore & [Hon Hw] & Hpr)|[Hbefore _]]; try done.
  - destruct (decide (k = 1)) as [->|Hk1].
    + exists (Some w). by rewrite Hpr.
    + exfalso. apply Hoff, Hbefore. lia.
  - exfalso. apply Hoff, Hbefore. lia.
Qed.

Lemma callGetReplica_allOnline : forall k ss,
  ~ routedToMaster ss -> allOnline (ReplicaXs ss) -> ReplicaXs ss <> [] ->
  counterInRange (rrCounter ss) (k + length (ReplicaXs ss)) ->
  exists ps,
    callGetReplica k ss = Go.Ok (ps, set_rrCounter (rrCounter ss + Z.of_nat k) ss) /\
    length ps = k /\
    forall j, (j < k)%nat ->
      ps !! j = ReplicaXs ss !! slotOf (ReplicaXs ss) (rrCounter ss + Z.of_nat j + 1).
Proof.
  induction k as [|k IH]; intros ss Hn Hall Hne [Hc Hr].
  { exists []. simpl. rewrite Z.add_0_r, set_rrCounter_same.
    split; [done|]. split; [done|]. intros j Hj. lia. }
  destruct (GetReplica_allOnline ss Hn Hall Hne) as (p & Hp & Hg).
  { split; [done|]. lia. }
  destruct (IH (set_rrCounter (rrCounter ss + 1) ss)) as (ps & Hps & Hlen & Hj);
    try done.
  { split; simpl; lia. }
  exists (p :: ps). simpl callGetReplica. rewrite Hg. simpl Go.bind.
  rewrite Hps. simpl. split; [|split].
  - do 2 f_equal. unfold set_rrCounter. simpl. f_equal. lia.
  - by rewrite Hlen.
  - intros [|j] Hlt; simpl.
    + by rewrite Z.add_0_r, Hp.
    + rewrite Hj by lia. simpl. do 2 f_equal. lia.
Qed.

Lemma slotOf_inj (slots : list wrapperPtr) c (i j : nat) :
  (i < length slots)%nat -> (j < length slots)%nat ->
  slotOf slots (c + Z.of_nat i + 1) = slotOf slots (c + Z.of_nat j + 1) -> i = j.
Proof.
  intros Hi Hj H. unfold slotOf in H. set (n := Z.of_nat (length slots)) in *.
  assert (Hn : 0 < n) by lia.
  pose proof (Z.mod_pos_bound (c + Z.of_nat i + 1) n Hn).
  pose proof (Z.mod_pos_bound (c + Z.of_nat j + 1) n Hn).
  assert (E : (c + Z.of_nat i + 1) mod n = (c + Z.of_nat j + 1) mod n) by lia.
  assert (D : (Z.of_nat i - Z.of_nat j) mod n = 0).
  { replace (Z.of_nat i - Z.of_nat j)
      with ((c + Z.of_nat i + 1) - (c + Z.of_nat j + 1)) by lia.
    rewrite Zminus_mod, E, Z.sub_diag. by apply Z.mod_0_l; lia. }
  apply Z.mod_divide in D; [|lia]. destruct D as [q Hq].
  assert (q = 0) by nia. lia.
Qed.

Lemma cycle_Permutation (slots ps : list wrapperPtr) c :
  slots <> [] -> length ps = length slots ->
  (forall j, (j < length slots)%nat ->
     ps !! j = slots !! slotOf slots (c + Z.of_nat j + 1)) ->
  ps ≡ₚ slots.
Proof.
  intros Hne Hlen Hps.
  set (idx := (fun j : nat => slotOf slots (c + Z.of_nat j + 1)) <$> seq 0 (length slots)).
  assert (Hidx : idx ≡ₚ seq 0 (length slots)).
  { apply NoDup_Permutation.
    - apply NoDup_fmap_2_strong; [|apply NoDup_seq].
      intros i j Hi Hj. apply elem_of_seq in Hi, Hj. apply slotOf_inj; lia.
    - apply NoDup_seq.
    - intros i. unfold idx. rewrite list_elem_of_fmap, elem_of_seq. split.
      + intros (j & -> & _). pose proof (slotOf_lt slots (c + Z.of_nat j + 1) Hne). lia.
      + intros [_ Hi]. destruct (slotOf_covers slots c i) as (j & Hj & Hji); [lia|].
        exists (Z.to_nat (j - 1)). split.
        * rewrite <- Hji. f_equal. lia.
        * apply elem_of_seq. lia. }
  assert (E1 : ps = (fun i => slots !!! i) <$> idx).
  { apply list_eq. intros j. unfold idx. rewrite !list_lookup_fmap.
    destruct (decide (j < length slots)%nat) as [Hj|Hj].
    - rewrite lookup_seq_lt by done. simpl. rewrite (Hps j Hj).
      apply list_lookup_lookup_total_lt. by apply slotOf_lt.
    - rewrite lookup_seq_ge by lia. simpl. apply lookup_ge_None. lia. }
  assert (E2 : slots = (fun i => slots !!! i) <$> seq 0 (length slots)).
  { apply list_eq. intros j. rewrite list_lookup_fmap.
    destruct (decide (j < length slots)%nat) as [Hj|Hj].
    - rewrite lookup_seq_lt by done. simpl. by apply list_lookup_lookup_total_lt.
    - rewrite lookup_seq_ge by lia. simpl. apply lookup_ge_None. lia. }
  rewrite E1, E2 at 1. by apply fmap_Permutation.
Qed.

(** X3. Round robin: on a licensed, unlocked store whose read slots are all
    online, as many consecutive calls of [GetReplica] as there are slots
    return every slot exactly once, in cyclic order from the slot after the
    counter, and leave the counter advanced by the number of slots. *)
Theorem GetReplica_round_robin (ss : SqlStore) :
  ~ routedToMaster ss -> allOnline (ReplicaXs ss) -> ReplicaXs ss <> [] ->
  counterInRange (rrCounter ss) (length (ReplicaXs ss) + length (ReplicaXs ss)) ->
  exists ps,
    callGetReplica (length (ReplicaXs ss)) ss
      = Go.Ok (ps, set_rrCounter (rrCounter ss + Z.of_nat (length (ReplicaXs ss))) ss) /\
    ps ≡ₚ ReplicaXs ss /\
    forall j, (j < length (ReplicaXs ss))%nat ->
      ps !! j = ReplicaXs ss !! slotOf (ReplicaXs ss) (rrCounter ss + Z.of_nat j + 1).
Proof.
  intros Hn Hall Hne Hc.
  destruct (callGetReplica_allOnline (length (ReplicaXs ss)) ss Hn Hall Hne Hc)
    as (ps & Hps & Hlen & Hj).
  exists ps. split; [done|]. split; [|done].
  by apply (cycle_Permutation _ _ (rrCounter ss)).
Qed.

Lemma GetReplica_round_robin_witness :
  exists ps,
    callGetReplica 3 Sample.threeOnline
      = Go.Ok (ps, set_rrCounter 3 Sample.threeOnline) /\
    ps ≡ₚ ReplicaXs Sample.threeOnline /\
    forall j, (j < 3)%nat ->
      ps !! j = ReplicaXs Sample.threeOnline
                  !! slotOf (ReplicaXs Sample.threeOnline) (0 + Z.of_nat j + 1).
Proof.
  apply (GetReplica_round_robin Sample.threeOnline).
  - intros [H|[H|H]]; discriminate H.
  - repeat constructor; eexists; split; reflexivity.
  - discriminate.
  - split; simpl; lia.
Defined.

(** X4. [GetInternalReplicaDB] does not look at the online flag. Under the
    guard of [GetReplica] it returns the master's connection and leaves the
    counter alone; otherwise it increments the counter once and takes the
    slot at the counter modulo the slot count: the connection of that slot
    if it has one, a nil dereference if the slot holds the offline
    placeholder, even though other slots are online. *)
Theorem GetInternalReplicaDB_ignores_online (ss : SqlStore) :
  (routedToMaster ss -> forall w db, masterX ss = Some w -> DB w = Some db ->
     GetInternalReplicaDB ss = Go.Ok (db, ss)) /\
  (~ routedToMaster ss -> ReplicaXs ss <> [] -> counterInRange (rrCounter ss) 1 ->
   forall w, ReplicaXs ss !! slotOf (ReplicaXs ss) (rrCounter ss + 1) = Some (Some w) ->
     (forall db, DB w = Some db ->
        GetInternalReplicaDB ss = Go.Ok (db, set_rrCounter (rrCounter ss + 1) ss)) /\
     (DB w = None ->
        GetInternalReplicaDB ss = Go.Panic "nil pointer dereference")).
Proof.
  split.
  - intros Hr w db Hm Hdb. apply routedToMaster_guard in Hr.
    unfold GetInternalReplicaDB, GetMaster. rewrite Hr, Hm. simpl. by rewrite Hdb.
  - intros Hn Hne [Hc Hr] w Hw.
    assert (Hg : (length (DataSourceReplicas (settings ss)) =? 0)%nat
                 || lockedToMaster ss || negb (hasLicense ss) = false).
    { destruct (_ || _) eqn:E; [|done]. exfalso. by apply Hn, routedToMaster_guard. }
    unfold GetInternalReplicaDB. rewrite Hg. unfold Go.AddInt64.
    rewrite wrap64_small by lia.
    destruct (length (ReplicaXs ss) =? 0)%nat eqn:El.
    { apply Nat.eqb_eq in El. by destruct (ReplicaXs ss). }
    destruct (index_slotOf (ReplicaXs ss) (rrCounter ss + 1)) as (p & Hp & Hi);
      [lia|done|].
    rewrite Hi. rewrite Hw in Hp. inversion Hp; subst. simpl.
    split; [intros db Hdb; by rewrite Hdb|intros Hdb; by rewrite Hdb].
Qed.

(** On three slots of which only the last is online, [GetInternalReplicaDB]
    runs into the offline placeholder of the second slot. *)
Lemma GetInternalReplicaDB_ignores_online_witness :
  GetInternalReplicaDB Sample.threeReplicas = Go.Panic "nil pointer dereference".
Proof.
  apply (proj2 (GetInternalReplicaDB_ignores_online Sample.threeReplicas))
    with (w := offlineWrapper).
  - intros [H|[H|H]]; discriminate H.
  - discriminate.
  - split; simpl; lia.
  - reflexivity.
  - reflexivity.
Defined.

(** ** Connection counts *)

Lemma sumZ_cons x l : sumZ (x :: l) = x + sumZ l.
Proof. reflexivity. Qed.

Lemma sumZ_nonneg (stats : dbStats) l :
  (forall db, 0 <= stats db) -> 0 <= sumZ (stats <$> l).
Proof.
  intros Hs. induction l as [|x l IH]; [done|].
  rewrite fmap_cons, sumZ_cons. specialize (Hs x). lia.
Qed.

Lemma onlineDBs_cons p rest :
  onlineDBs (p :: rest)
  = match (if onlinePtr p then p ≫= DB else None) with
    | Some db => db :: onlineDBs rest
    | None => onlineDBs rest
    end.
Proof. reflexivity. Qed.

Lemma countOpen_spec stats slots : forall count,
  slotsUsable slots -> (forall db, 0 <= stats db) ->
  0 <= count -> count + sumZ (stats <$> onlineDBs slots) < 2 ^ 63 ->
  countOpen stats count slots = Go.Ok (count + sumZ (stats <$> onlineDBs slots)).
Proof.
  intros count Hu Hs. revert count.
  induction Hu as [|p rest (w & -> & Hdb) _ IH]; intros count Hc Hr.
  { simpl. by rewrite Z.add_0_r. }
  rewrite onlineDBs_cons in *. simpl countOpen. simpl onlinePtr in *.
  destruct (Online w) eqn:Hw; simpl.
  - destruct (DB w) as [db|] eqn:Ed; [|by destruct (Hdb eq_refl)].
    cbn [mbind option_bind] in *. rewrite Ed in *.
    rewrite fmap_cons, sumZ_cons in *. simpl Go.bind.
    pose proof (Hs db). pose proof (sumZ_nonneg stats (onlineDBs rest) Hs).
    rewrite wrap64_small by lia. rewrite IH by lia. f_equal. lia.
  - simpl in Hr. by apply IH.
Qed.

(** X5. [TotalReadDbConnections] and [TotalSearchDbConnections] are 0 when
    no data source of their kind is configured, whatever the slots hold;
    otherwise, with non-negative statistics that sum up inside [int], they
    are the sum of the open connections of the online slots: an offline
    placeholder is skipped and never dereferenced. *)
Theorem TotalDbConnections_online_only (stats : dbStats) (ss : SqlStore) :
  (DataSourceReplicas (settings ss) = [] -> TotalReadDbConnections stats ss = Go.Ok 0) /\
  (DataSourceSearchReplicas (settings ss) = [] ->
   TotalSearchDbConnections stats ss = Go.Ok 0) /\
  ((forall db, 0 <= stats db) ->
   (DataSourceReplicas (settings ss) <> [] -> slotsUsable (ReplicaXs ss) ->
    sumZ (stats <$> onlineDBs (ReplicaXs ss)) < 2 ^ 63 ->
    TotalReadDbConnections stats ss
    = Go.Ok (sumZ (stats <$> onlineDBs (ReplicaXs ss)))) /\
   (DataSourceSearchReplicas (settings ss) <> [] -> slotsUsable (searchReplicaXs ss) ->
    sumZ (stats <$> onlineDBs (searchReplicaXs ss)) < 2 ^ 63 ->
    TotalSearchDbConnections stats ss
    = Go.Ok (sumZ (stats <$> onlineDBs (searchReplicaXs ss))))).
Proof.
  unfold TotalReadDbConnections, TotalSearchDbConnections.
  split; [by intros ->|]. split; [by intros ->|].
  intros Hs. split.
  - intros Hne Hu Hr. destruct (DataSourceReplicas (settings ss)); [done|]. simpl.
    by rewrite countOpen_spec.
  - intros Hne Hu Hr. destruct (DataSourceSearchReplicas (settings ss)); [done|]. simpl.
    by rewrite countOpen_spec.
Qed.

Lemma TotalDbConnections_online_only_witness :
  TotalReadDbConnections (fun db => Z.of_nat db) Sample.threeReplicas = Go.Ok 2.
Proof.
  apply (proj1 (proj2 (proj2 (TotalDbConnections_online_only
                                (fun db => Z.of_nat db) Sample.threeReplicas))
                 (fun db => Nat2Z.is_nonneg db))).
  - discriminate.
  - repeat constructor; eexists; (split; [reflexivity|]); simpl; discriminate.
  - vm_compute. reflexivity.
Defined.

Lemma onlineConns_filter slots :
  slotsLoaded slots -> onlineConns slots = Go.Ok (List.filter onlinePtr slots).
Proof.
  induction 1 as [|p rest Hp _ IH]; simpl; [done|].
  destruct p as [w|]; [|done]. simpl. rewrite IH. simpl. by destruct (Online w).
Qed.

Lemma filter_sublist {A} (f : A -> bool) (l : list A) :
  List.filter f l `sublist_of` l.
Proof.
  induction l as [|a l IH]; simpl; [constructor|].
  destruct (f a); by constructor.
Qed.

Lemma filter_allOnline slots :
  allOnline slots -> List.filter onlinePtr slots = slots.
Proof.
  induction 1 as [|p rest (w & -> & Hw) _ IH]; simpl; [done|].
  by rewrite Hw, IH.
Qed.

Lemma filter_allOffline slots :
  allOffline slots -> List.filter onlinePtr slots = [].
Proof.
  induction 1 as [|p rest (w & -> & Hw) _ IH]; simpl; [done|].
  by rewrite Hw.
Qed.

(** X6. With loaded slots [GetAllConns] returns the online read handles in
    slot order followed by the master, which comes last whatever its state:
    the result is the list of the read slots' contents with the offline
    ones struck out and the master appended. What comes before the master is
    thus a subsequence of the slots, in their order and with no handle
    repeated or moved, and holds exactly the contents that are online, so an
    offline placeholder is never handed out; with every slot online it is
    the whole pool, with every slot offline the master stands alone. *)
Theorem GetAllConns_online_and_master (ss : SqlStore) :
  slotsLoaded (ReplicaXs ss) ->
  GetAllConns ss = Go.Ok (List.filter onlinePtr (ReplicaXs ss) ++ [masterX ss])%list /\
  List.filter onlinePtr (ReplicaXs ss) `sublist_of` ReplicaXs ss /\
  (forall p, p ∈ List.filter onlinePtr (ReplicaXs ss)
             <-> p ∈ ReplicaXs ss /\ onlinePtr p = true) /\
  (allOnline (ReplicaXs ss) ->
   GetAllConns ss = Go.Ok (ReplicaXs ss ++ [masterX ss])%list) /\
  (allOffline (ReplicaXs ss) -> GetAllConns ss = Go.Ok [masterX ss]).
Proof.
  intros Hl.
  assert (Hg : GetAllConns ss
               = Go.Ok (List.filter onlinePtr (ReplicaXs ss) ++ [masterX ss])%list).
  { unfold GetAllConns. by rewrite onlineConns_filter. }
  split; [done|]. split; [apply filter_sublist|]. split; [|split].
  - intros p. rewrite !list_elem_of_In. apply List.filter_In.
  - intros Hon. by rewrite Hg, filter_allOnline.
  - intros Hoff. by rewrite Hg, filter_allOffline.
Qed.

Lemma GetAllConns_online_and_master_witness :
  GetAllConns Sample.threeReplicas
  = Go.Ok [Some (newSqlxDBWrapper 2%nat); masterX Sample.threeReplicas].
Proof.
  apply (GetAllConns_online_and_master Sample.threeReplicas).
  repeat constructor; discriminate.
Defined.

(** ** Unique-constraint errors *)

Lemma isPrefix_spec p : forall s,
  isPrefix p s = true <-> exists post, s = p ++ post.
Proof.
  induction p as [|a p IH]; intros s; simpl.
  { split; [intros _; by exists s|done]. }
  destruct s as [|b s].
  { split; [done|]. by intros (post & H). }
  destruct (Ascii.eqb_spec a b) as [->|Hab].
  - rewrite IH. split.
    + intros (post & ->). by exists post.
    + intros (post & H). rewrite append_cons in H. inversion H. by exists post.
  - split; [done|]. intros (post & H). rewrite append_cons in H. by inversion H.
Qed.

Lemma Contains_spec s substr : Contains s substr = true <-> contains s substr.
Proof.
  split.
  - induction s as [|a s IH]; simpl.
    + rewrite orb_false_r. intros H. apply isPrefix_spec in H as (post & H).
      by exists "", post.
    + intros H. apply orb_true_iff in H as [H|H].
      * apply isPrefix_spec in H as (post & H). by exists "", post.
      * destruct (IH H) as (pre & post & ->). by exists (String a pre), post.
  - intros (pre & post & ->). induction pre as [|a pre IH].
    + assert (H : isPrefix substr (substr ++ post) = true)
        by (apply isPrefix_spec; by exists post).
      change ("" ++ substr ++ post) with (substr ++ post).
      destruct (substr ++ post); simpl in *; by rewrite H.
    + rewrite append_cons. simpl. rewrite IH. by destruct (isPrefix _ _).
Qed.

Lemma fieldMatches_some e indexName :
  fieldMatches (Some e) indexName
  = Go.Ok (existsb (Contains (errorText e)) indexName).
Proof.
  induction indexName as [|name rest IH]; simpl; [done|].
  by destruct (Contains (errorText e) name).
Qed.

(** X7. [IsUniqueConstraintError] answers true exactly for an error that is
    itself a Postgres error with code 23505 and whose text contains one of
    the given index names. A unique violation that has been wrapped is not
    recognised (unlike in [IsDuplicate], the cause is not looked up), an
    empty list of names gives false for every error, and a nil error with a
    non-empty list of names panics. *)
Theorem IsUniqueConstraintError_direct_only (err : option error) (indexName : list string) :
  (IsUniqueConstraintError err indexName = Go.Ok true <->
   exists message name,
     err = Some (PqError "23505" message) /\ name ∈ indexName /\
     contains ("pq: " ++ message) name) /\
  (indexName = [] -> IsUniqueConstraintError err indexName = Go.Ok false) /\
  (forall msg cause,
     err = Some (WithCause msg cause) \/ err = Some (WrapError msg cause) ->
     IsUniqueConstraintError err indexName = Go.Ok false) /\
  (indexName <> [] -> err = None ->
   IsUniqueConstraintError err indexName = Go.Panic "nil pointer dereference").
Proof.
  split; [|split; [|split]].
  - unfold IsUniqueConstraintError. destruct err as [e|].
    + rewrite fieldMatches_some. simpl. split.
      * intros [= H]. apply andb_true_iff in H as [Hu Hf].
        destruct e as [code message| | | |]; try done.
        apply String.eqb_eq in Hu as ->.
        apply existsb_exists in Hf as (name & Hin & Hc).
        exists message, name. split; [done|]. split; [by apply list_elem_of_In|].
        by apply Contains_spec.
      * intros (message & name & [= ->] & Hin & Hc).
        assert (existsb (Contains (errorText (PqError "23505" message))) indexName = true)
          as ->; [|done].
        apply existsb_exists. exists name. split; [by apply list_elem_of_In|].
        by apply Contains_spec.
    + split.
      * destruct indexName; simpl; done.
      * by intros (message & name & H & _).
  - intros ->. unfold IsUniqueConstraintError. simpl. by rewrite andb_false_r.
  - intros msg cause [-> | ->]; unfold IsUniqueConstraintError;
      by rewrite fieldMatches_some.
  - intros Hne ->. by destruct indexName.
Qed.

Example IsUniqueConstraintError_wrapped :
  IsUniqueConstraintError
    (Some (PqError "23505" "duplicate key value violates unique constraint users_email_key"))
    ["users_email_key"] = Go.Ok true /\
  IsUniqueConstraintError
    (Some (WithCause "failed to save user"
             (PqError "23505"
                "duplicate key value violates unique constraint users_email_key")))
    ["users_email_key"] = Go.Ok false.
Proof. split; by vm_compute. Qed.

(** ** Opening the connections *)

Lemma initPool_lookup dial hasMetrics dialPrefix regPrefix dsns : forall i j dsn,
  dsns !! j = Some dsn ->
  fst (initPool dial hasMetrics dialPrefix regPrefix i dsns) !! j
  = Some (openedSlot dial (dialPrefix ++ Itoa (Z.of_nat (i + j))) dsn).
Proof.
  induction dsns as [|d rest IH]; intros i j dsn Hj; [by rewrite lookup_nil in Hj|].
  simpl. destruct (initSlot _ _ _ _ _) as [p evs] eqn:Hs.
  specialize (IH (S i)). destruct (initPool _ _ _ _ (S i) rest) as [ps evs'].
  simpl in *. destruct j as [|j]; simpl in *.
  - inversion Hj; subst. rewrite Nat.add_0_r. f_equal.
    unfold initSlot, setDB, openedSlot in *.
    destruct (dial _ _ _); by inversion Hs.
  - rewrite (IH j dsn Hj), Nat.add_succ_r. done.
Qed.

(** X8. The master decides whether [initConnection] succeeds. If its
    connection cannot be opened, the error is returned, the store is left as
    it was and no other connection is attempted. If it opens, nil is
    returned whatever the replicas do: the master is wrapped online, and
    every configured read or search replica gets a slot that is online if
    its connection opened and holds the offline placeholder if not. *)
Theorem initConnection_master_decides (dial : dialer) (ss : SqlStore) :
  (forall err, dial "master" (DataSource (settings ss)) DBPingAttempts = inl err ->
     initConnection dial ss
     = (Some err, ss, [SetupConnection "master" (DataSource (settings ss)) DBPingAttempts])) /\
  (forall h, dial "master" (DataSource (settings ss)) DBPingAttempts = inr h ->
     exists ss' evs,
       initConnection dial ss = (None, ss', evs) /\
       masterX ss' = Some (newSqlxDBWrapper h) /\
       (forall i dsn, DataSourceReplicas (settings ss) !! i = Some dsn ->
          ReplicaXs ss' !! i
          = Some (openedSlot dial ("replica-" ++ Itoa (Z.of_nat i)) dsn)) /\
       (forall i dsn, DataSourceSearchReplicas (settings ss) !! i = Some dsn ->
          searchReplicaXs ss' !! i
          = Some (openedSlot dial ("search-replica-" ++ Itoa (Z.of_nat i)) dsn))).
Proof.
  split.
  - intros err Hd. unfold initConnection. by rewrite Hd.
  - intros h Hd. unfold initConnection. rewrite Hd.
    destruct (match DataSourceReplicas _ with [] => _ | _ => _ end) as [read ev1] eqn:E1.
    destruct (match DataSourceSearchReplicas _ with [] => _ | _ => _ end)
      as [search ev2] eqn:E2.
    destruct (match ReplicaLagSettings _ with [] => _ | _ => _ end) as [lag ev3].
    do 2 eexists. split; [done|]. simpl. split; [done|]. split.
    + intros i dsn Hi. destruct (DataSourceReplicas (settings ss)) as [|d ds] eqn:Hds.
      { by rewrite lookup_nil in Hi. }
      pose proof (initPool_lookup dial (metrics ss) "replica-" "replica-" (d :: ds)
                    0 i dsn Hi) as Hl.
      rewrite E1 in Hl. exact Hl.
    + intros i dsn Hi.
      destruct (DataSourceSearchReplicas (settings ss)) as [|d ds] eqn:Hds.
      { by rewrite lookup_nil in Hi. }
      pose proof (initPool_lookup dial (metrics ss) "search-replica-" "searchreplica-"
                    (d :: ds) 0 i dsn Hi) as Hl.
      rewrite E2 in Hl. exact Hl.
Qed.

Lemma initConnection_master_decides_witness :
  exists ss' evs,
    initConnection Sample.onlyMaster (emptyStore (Sample.cfg ["r0"] ["s0"] []) true)
      = (None, ss', evs) /\
    masterX ss' = Some (newSqlxDBWrapper 0%nat) /\
    ReplicaXs ss' !! 0%nat = Some (Some offlineWrapper) /\
    searchReplicaXs ss' !! 0%nat = Some (Some offlineWrapper).
Proof.
  destruct (proj2 (initConnection_master_decides Sample.onlyMaster
                     (emptyStore (Sample.cfg ["r0"] ["s0"] []) true))
              0%nat eq_refl) as (ss' & evs & H1 & H2 & H3 & H4).
  exists ss', evs. split; [exact H1|]. split; [exact H2|]. split.
  - exact (H3 0%nat "r0" eq_refl).
  - exact (H4 0%nat "s0" eq_refl).
Defined.

Lemma initLagHandles_open dial targets : forall i,
  lagTargetsOpen dial i targets ->
  let hs := fst (initLagHandles dial i targets) in
  length hs = length targets /\
  forall j t dsn, targets !! j = Some t -> LagDataSource t = Some dsn ->
    exists h, hs !! j = Some h /\
      dial (replicaLagPrefix ++ "-" ++ Itoa (Z.of_nat (i + j))) dsn DBReplicaPingAttempts
      = inr h.
Proof.
  induction targets as [|src rest IH]; intros i Hopen; simpl.
  { split; [done|]. intros j t dsn Hj. by rewrite lookup_nil in Hj. }
  destruct (IH (S i)) as [Hlen Hlook].
  { intros j t Hj. destruct (Hopen (S j) t Hj) as (dsn & h & Hd & Hh).
    exists dsn, h. by rewrite Nat.add_succ_r in Hh. }
  destruct (initLagHandles dial (S i) rest) as [hs evs']. simpl in *.
  destruct (Hopen 0%nat src eq_refl) as (dsn0 & h0 & Hd0 & Hh0).
  rewrite Nat.add_0_r in Hh0. rewrite Hd0, Hh0. simpl. split; [by rewrite Hlen|].
  intros [|j] t dsn Hj Hd; simpl in *.
  - inversion Hj; subst. rewrite Hd0 in Hd. inversion Hd; subst.
    exists h0. by rewrite Nat.add_0_r.
  - destruct (Hlook j t dsn Hj Hd) as (h & Hh & Hdial).
    exists h. by rewrite Nat.add_succ_r.
Qed.

Lemma lagLoop_returns query field setter handles : forall items i,
  (i + length items <= length handles)%nat ->
  Go.returns (lagLoop query true field setter handles i items) = true.
Proof.
  induction items as [|item rest IH]; intros i Hlen; simpl; [done|].
  simpl in Hlen. specialize (IH (S i) ltac:(lia)).
  destruct (field item) as [text|]; [|done].
  destruct (String.eqb text ""); [done|].
  destruct (handles !! i) as [h|] eqn:Hh; last first.
  { apply lookup_ge_None in Hh. lia. }
  rewrite (index_lookup _ _ _ Hh). simpl.
  destruct (query h text) as [err|[node value]]; [done|].
  by destruct (lagLoop _ _ _ _ _ _ rest).
Qed.

(** X9. When [initConnection] runs on a store without lag handles, every
    configured lag target has a data source and every probe connection
    opens, [replicaLagHandles] gets one handle per target, at the target's
    own position, and with a metrics sink neither [ReplicaLagAbs] nor
    [ReplicaLagTime] panics afterwards, whatever the queries answer. *)
Theorem initConnection_lag_aligned (dial : dialer) (query : rowQuery)
    (ss ss' : SqlStore) (evs : list event) :
  replicaLagHandles ss = [] -> metrics ss = true ->
  lagTargetsOpen dial 0 (ReplicaLagSettings (settings ss)) ->
  initConnection dial ss = (None, ss', evs) ->
  length (replicaLagHandles ss') = length (ReplicaLagSettings (settings ss')) /\
  (forall j t dsn,
     ReplicaLagSettings (settings ss') !! j = Some t -> LagDataSource t = Some dsn ->
     exists h, replicaLagHandles ss' !! j = Some h /\
       dial (replicaLagPrefix ++ "-" ++ Itoa (Z.of_nat j)) dsn DBReplicaPingAttempts
       = inr h) /\
  Go.returns (ReplicaLagAbs query ss') = true /\
  Go.returns (ReplicaLagTime query ss') = true.
Proof.
  intros Hempty Hm Hopen. unfold initConnection.
  destruct (dial "master" _ _) as [err|h]; [done|].
  destruct (match DataSourceReplicas _ with [] => _ | _ => _ end) as [read ev1].
  destruct (match DataSourceSearchReplicas _ with [] => _ | _ => _ end) as [search ev2].
  destruct (match ReplicaLagSettings _ with [] => _ | _ => _ end) as [lag ev3] eqn:E3.
  intros [= <- _]. unfold ReplicaLagAbs, ReplicaLagTime. simpl. rewrite Hm.
  assert (Hlag : length lag = length (ReplicaLagSettings (settings ss)) /\
     forall j t dsn,
       ReplicaLagSettings (settings ss) !! j = Some t -> LagDataSource t = Some dsn ->
       exists h, lag !! j = Some h /\
         dial (replicaLagPrefix ++ "-" ++ Itoa (Z.of_nat j)) dsn DBReplicaPingAttempts
         = inr h).
  { destruct (ReplicaLagSettings (settings ss)) as [|t ts] eqn:Ht.
    - inversion E3; subst. rewrite Hempty. split; [done|].
      intros j t dsn Hj. by rewrite lookup_nil in Hj.
    - pose proof (initLagHandles_open dial (t :: ts) 0 Hopen) as Hio.
      rewrite E3 in Hio. exact Hio. }
  destruct Hlag as [Hlen Hlook]. split; [done|]. split; [done|].
  split; apply lagLoop_returns; simpl; lia.
Qed.

Lemma initConnection_lag_aligned_witness :
  exists ss' evs,
    initConnection Sample.allAnswer Sample.twoLagSettings = (None, ss', evs) /\
    length (replicaLagHandles ss') = 2%nat /\
    Go.returns (ReplicaLagAbs Sample.firstFails ss') = true.
Proof.
  do 2 eexists. split; [reflexivity|].
  assert (Hopen : lagTargetsOpen Sample.allAnswer 0
                    (ReplicaLagSettings (settings Sample.twoLagSettings))).
  { intros [|[|j]] t Hj; simpl in Hj; inversion Hj; subst.
    - exists "postgres://lag0", 5%nat. split; reflexivity.
    - exists "postgres://lag1", 5%nat. split; reflexivity. }
  pose proof (initConnection_lag_aligned Sample.allAnswer Sample.firstFails
                Sample.twoLagSettings _ _ eq_refl eq_refl Hopen eq_refl)
    as (H1 & _ & H3 & _).
  exact (conj H1 H3).
Defined.

(** ** More on the health monitor *)

Lemma setupReplica_canonical dial hasMetrics r dsn name p evs :
  slotCanonical r ->
  setupReplica dial hasMetrics r dsn name = Go.Ok (p, evs) ->
  slotCanonical p /\ Forall (fun e => isUnregister e = false) evs.
Proof.
  intros Hr. unfold setupReplica, setDB.
  destruct Hr as [->|[h ->]]; simpl.
  - destruct (dial name dsn 1) as [err|h'].
    + intros [= <- <-]. split; [by left|]. by repeat constructor.
    + intros [= <- <-]. split; [right; by eexists|].
      destruct hasMetrics; by repeat constructor.
  - intros [= <- <-]. split; [right; by eexists|constructor].
Qed.

Lemma tickPool_canonical dial hasMetrics prefix dsns : forall slots i ps evs,
  Forall slotCanonical slots ->
  tickPool dial hasMetrics prefix dsns i slots = Go.Ok (ps, evs) ->
  Forall slotCanonical ps /\ Forall (fun e => isUnregister e = false) evs.
Proof.
  induction slots as [|r rest IH]; intros i ps evs Hc; simpl.
  { intros [= <- <-]. by split. }
  apply Forall_cons in Hc as [Hr Hc].
  destruct (Go.index dsns _) as [dsn|]; simpl; [|done].
  destruct (setupReplica _ _ _ _ _) as [[p1 evs1]|] eqn:Hs; simpl; [|done].
  destruct (tickPool _ _ _ _ _ rest) as [[ps2 evs2]|] eqn:Ht; simpl; [|done].
  intros [= <- <-].
  destruct (setupReplica_canonical _ _ _ _ _ _ _ Hr Hs) as [H1 H2].
  destruct (IH _ _ _ Hc Ht) as [H3 H4].
  split; [by constructor|]. by apply Forall_app.
Qed.

Lemma monitorTick_canonical dial ss ss' evs :
  Forall slotCanonical (ReplicaXs ss) -> Forall slotCanonical (searchReplicaXs ss) ->
  monitorTick dial ss = Go.Ok (ss', evs) ->
  Forall slotCanonical (ReplicaXs ss') /\ Forall slotCanonical (searchReplicaXs ss') /\
  Forall (fun e => isUnregister e = false) evs.
Proof.
  intros HR HS. unfold monitorTick.
  destruct (tickPool _ _ _ _ _ (ReplicaXs ss)) as [[ps1 evs1]|] eqn:H1; simpl; [|done].
  destruct (tickPool _ _ _ _ _ (searchReplicaXs ss)) as [[ps2 evs2]|] eqn:H2;
    simpl; [|done].
  intros [= <- <-]. simpl.
  destruct (tickPool_canonical _ _ _ _ _ _ _ _ HR H1) as [A1 A2].
  destruct (tickPool_canonical _ _ _ _ _ _ _ _ HS H2) as [B1 B2].
  split; [done|]. split; [done|]. by apply Forall_app.
Qed.

Lemma ticks_canonical dials : forall ss ss' evs,
  Forall slotCanonical (ReplicaXs ss) -> Forall slotCanonical (searchReplicaXs ss) ->
  ticks dials ss = Go.Ok (ss', evs) ->
  Forall slotCanonical (ReplicaXs ss') /\ Forall slotCanonical (searchReplicaXs ss') /\
  Forall (fun e => isUnregister e = false) evs.
Proof.
  induction dials as [|dial rest IH]; intros ss ss' evs HR HS; simpl.
  { intros [= <- <-]. by repeat split. }
  destruct (monitorTick dial ss) as [[ss1 evs1]|] eqn:Ht; simpl; [|done].
  destruct (ticks rest ss1) as [[ss2 evs2]|] eqn:Hr; simpl; [|done].
  intros [= <- <-].
  destruct (monitorTick_canonical _ _ _ _ HR HS Ht) as (A1 & A2 & A3).
  destruct (IH _ _ _ A1 A2 Hr) as (B1 & B2 & B3).
  split; [done|]. split; [done|]. by apply Forall_app.
Qed.

Lemma initPool_canonical dial hasMetrics dialPrefix regPrefix dsns : forall i,
  Forall slotCanonical (fst (initPool dial hasMetrics dialPrefix regPrefix i dsns)).
Proof.
  induction dsns as [|dsn rest IH]; intros i; simpl; [constructor|].
  destruct (initSlot _ _ _ _ _) as [p evs] eqn:Hs.
  specialize (IH (S i)). destruct (initPool _ _ _ _ (S i) rest) as [ps evs'].
  simpl in *. constructor; [|done].
  unfold initSlot, setDB in Hs. destruct (dial _ _ _) as [err|h]; inversion Hs; subst.
  - by left.
  - right. by eexists.
Qed.

Lemma initConnection_canonical dial ss ss' evs :
  ReplicaXs ss = [] -> searchReplicaXs ss = [] ->
  initConnection dial ss = (None, ss', evs) ->
  Forall slotCanonical (ReplicaXs ss') /\ Forall slotCanonical (searchReplicaXs ss').
Proof.
  intros HR HS. unfold initConnection. destruct (dial "master" _ _) as [err|h]; [done|].
  destruct (match DataSourceReplicas _ with [] => _ | _ => _ end) as [read ev1] eqn:E1.
  destruct (match DataSourceSearchReplicas _ with [] => _ | _ => _ end)
    as [search ev2] eqn:E2.
  destruct (match ReplicaLagSettings _ with [] => _ | _ => _ end) as [lag ev3].
  intros [= <- _]. simpl. split.
  - destruct (DataSourceReplicas (settings ss)) as [|d ds].
    + inversion E1; subst. rewrite HR. constructor.
    + pose proof (initPool_canonical dial (metrics ss) "replica-" "replica-" (d :: ds) 0)
        as Hc.
      by rewrite E1 in Hc.
  - destruct (DataSourceSearchReplicas (settings ss)) as [|d ds].
    + inversion E2; subst. rewrite HS. constructor.
    + pose proof (initPool_canonical dial (metrics ss) "search-replica-" "searchreplica-"
                    (d :: ds) 0) as Hc.
      by rewrite E2 in Hc.
Qed.

(** X10. No offline slot ever keeps a connection. After [initConnection] on
    a store without slots, and after any number of monitor ticks, every
    read and search slot holds either the offline placeholder, which has no
    connection, or an online wrapper; the wrapper a tick overwrites is
    therefore always the placeholder, no live connection is dropped by the
    monitor, and its [UnregisterDBCollector] call is never made. *)
Theorem monitor_overwrites_placeholders_only (dial0 : dialer) (dials : list dialer)
    (ss ss1 ss2 : SqlStore) (evs0 evs : list event) :
  ReplicaXs ss = [] -> searchReplicaXs ss = [] ->
  initConnection dial0 ss = (None, ss1, evs0) ->
  ticks dials ss1 = Go.Ok (ss2, evs) ->
  Forall slotCanonical (ReplicaXs ss1) /\ Forall slotCanonical (searchReplicaXs ss1) /\
  Forall slotCanonical (ReplicaXs ss2) /\ Forall slotCanonical (searchReplicaXs ss2) /\
  Forall (fun e => isUnregister e = false) evs.
Proof.
  intros HR HS Hinit Hticks.
  destruct (initConnection_canonical _ _ _ _ HR HS Hinit) as [A1 A2].
  destruct (ticks_canonical _ _ _ _ A1 A2 Hticks) as (B1 & B2 & B3).
  done.
Qed.

Lemma monitor_overwrites_placeholders_only_witness :
  exists ss1 evs0 ss2 evs,
    initConnection Sample.onlyMaster (emptyStore (Sample.cfg ["r0"] ["s0"] []) true)
      = (None, ss1, evs0) /\
    ticks [Sample.onlyMaster; Sample.allAnswer] ss1 = Go.Ok (ss2, evs) /\
    Forall slotCanonical (ReplicaXs ss2) /\
    Forall (fun e => isUnregister e = false) evs.
Proof.
  do 4 eexists. split; [reflexivity|]. split; [vm_compute; reflexivity|].
  pose proof (monitor_overwrites_placeholders_only Sample.onlyMaster
                [Sample.onlyMaster; Sample.allAnswer]
                (emptyStore (Sample.cfg ["r0"] ["s0"] []) true) _ _ _ _
                eq_refl eq_refl eq_refl eq_refl) as (_ & _ & H3 & _ & H5).
  exact (conj H3 H5).
Defined.

Lemma slotOutcomes_online dial hasMetrics prefix dsns slots outs i w :
  slotOutcomes dial hasMetrics prefix dsns 0 slots outs ->
  slots !! i = Some (Some w) -> Online w = true ->
  outs.*1 !! i = Some (Some w).
Proof.
  intros [_ Ho] Hi Hw.
  destruct (Ho i _ Hi) as (w' & dsn & p & evs & [= <-] & _ & Hout & [Hon _]).
  rewrite list_lookup_fmap, Hout. simpl. by destruct (Hon Hw) as [-> _].
Qed.

Lemma slotOutcomes_reconnected dial hasMetrics prefix dsns slots outs i w dsn h :
  slotOutcomes dial hasMetrics prefix dsns 0 slots outs ->
  slots !! i = Some (Some w) -> Online w = false ->
  dsns !! i = Some dsn ->
  dial (prefix ++ Itoa (Z.of_nat i)) dsn 1 = inr h ->
  outs.*1 !! i = Some (Some (newSqlxDBWrapper h)).
Proof.
  intros [_ Ho] Hi Hw Hdsn Hd.
  destruct (Ho i _ Hi) as (w' & dsn' & p & evs & [= <-] & Hdsn' & Hout & [_ Hoff]).
  simpl in Hdsn'. rewrite Hdsn in Hdsn'. inversion Hdsn'; subst.
  destruct (Hoff Hw) as (_ & _ & Hs). destruct (Hs h Hd) as [-> _].
  by rewrite list_lookup_fmap, Hout.
Qed.

Lemma set_slots_set_slots r1 s1 r2 s2 ss :
  set_slots r2 s2 (set_slots r1 s1 ss) = set_slots r2 s2 ss.
Proof. done. Qed.

Lemma set_slots_same ss : set_slots (ReplicaXs ss) (searchReplicaXs ss) ss = ss.
Proof. by destruct ss. Qed.

Lemma ticks_effect dials : forall ss,
  storeReady ss ->
  exists ss' evs,
    ticks dials ss = Go.Ok (ss', evs) /\ storeReady ss' /\
    ss' = set_slots (ReplicaXs ss') (searchReplicaXs ss') ss /\
    (forall i w, ReplicaXs ss !! i = Some (Some w) -> Online w = true ->
       ReplicaXs ss' !! i = Some (Some w)) /\
    (forall i w, searchReplicaXs ss !! i = Some (Some w) -> Online w = true ->
       searchReplicaXs ss' !! i = Some (Some w)).
Proof.
  induction dials as [|dial rest IH]; intros ss Hready.
  { exists ss, []. split; [done|]. split; [done|].
    split; [by rewrite set_slots_same|done]. }
  destruct (monitorTick_outcomes dial ss Hready)
    as (outsR & outsS & Ht & HR & HS & Hready1).
  destruct (IH _ Hready1) as (ss' & evs & Hticks & Hready' & Heq & HkR & HkS).
  exists ss', (concat outsR.*2 ++ concat outsS.*2 ++ evs)%list.
  simpl ticks. rewrite Ht. simpl Go.bind. rewrite Hticks. simpl.
  split; [by rewrite app_assoc|]. split; [done|]. split; [|split].
  - rewrite Heq at 1. apply set_slots_set_slots.
  - intros i w Hi Hw. apply HkR; [|done]. simpl. by eapply slotOutcomes_online.
  - intros i w Hi Hw. apply HkS; [|done]. simpl. by eapply slotOutcomes_online.
Qed.

(** X11. The monitor only heals. On a store whose pools are as
    [initConnection] leaves them, any number of ticks, whatever the network
    answers, runs without a panic, changes nothing in the store but the
    content of slots, keeps the number of slots, and leaves every slot that
    was online with the very handle it had: an online slot is never
    reconnected, replaced or taken offline. *)
Theorem ticks_never_demote (dials : list dialer) (ss : SqlStore) :
  storeReady ss ->
  exists ss' evs,
    ticks dials ss = Go.Ok (ss', evs) /\ storeReady ss' /\
    ss' = set_slots (ReplicaXs ss') (searchReplicaXs ss') ss /\
    length (ReplicaXs ss') = length (ReplicaXs ss) /\
    length (searchReplicaXs ss') = length (searchReplicaXs ss) /\
    (forall i w, ReplicaXs ss !! i = Some (Some w) -> Online w = true ->
       ReplicaXs ss' !! i = Some (Some w)) /\
    (forall i w, searchReplicaXs ss !! i = Some (Some w) -> Online w = true ->
       searchReplicaXs ss' !! i = Some (Some w)).
Proof.
  intros Hready.
  destruct (ticks_effect dials ss Hready) as (ss' & evs & Ht & Hready' & Heq & HR & HS).
  exists ss', evs. split; [done|]. split; [done|]. split; [done|].
  destruct Hready as ([L1 L2] & _). destruct Hready' as ([L1' L2'] & _).
  rewrite Heq in L1', L2'. simpl in L1', L2'.
  split; [congruence|]. split; [congruence|]. done.
Qed.

Lemma ticks_never_demote_witness :
  exists ss' evs,
    ticks [Sample.onlyMaster; Sample.allAnswer] Sample.threeReplicas = Go.Ok (ss', evs) /\
    ReplicaXs ss' !! 2%nat = Some (Some (newSqlxDBWrapper 2%nat)).
Proof.
  assert (Hready : storeReady Sample.threeReplicas).
  { split; [split; reflexivity|]. split; repeat constructor; discriminate. }
  destruct (ticks_never_demote [Sample.onlyMaster; Sample.allAnswer]
              Sample.threeReplicas Hready)
    as (ss' & evs & Ht & _ & _ & _ & _ & HR & _).
  exists ss', evs. split; [exact Ht|].
  exact (HR 2%nat (newSqlxDBWrapper 2%nat) eq_refl eq_refl).
Defined.

(** X12. Recovery. On a licensed, unlocked store whose pools are as
    [initConnection] leaves them, a tick during which the connection of some
    configured read replica opens is followed by a [GetReplica] that returns
    an online replica, not the master fallback; if every read slot was
    offline before the tick, [GetReplica] returned the master then. *)
Theorem tick_then_GetReplica_recovers (dial : dialer) (ss : SqlStore)
    (i : nat) (dsn : string) (h : sqlDB) :
  storeReady ss -> ~ routedToMaster ss ->
  counterInRange (rrCounter ss) (length (ReplicaXs ss)) ->
  DataSourceReplicas (settings ss) !! i = Some dsn ->
  dial ("replica-" ++ Itoa (Z.of_nat i)) dsn 1 = inr h ->
  exists ss' evs k w,
    monitorTick dial ss = Go.Ok (ss', evs) /\
    GetReplica ss' = Go.Ok (Some w, set_rrCounter (rrCounter ss + k) ss') /\
    onlineAt (ReplicaXs ss') (rrCounter ss + k) w /\
    (allOffline (ReplicaXs ss) ->
     GetReplica ss
     = Go.Ok (masterX ss,
              set_rrCounter (rrCounter ss + Z.of_nat (length (ReplicaXs ss))) ss)).
Proof.
  intros Hready Hn Hc Hdsn Hd.
  destruct (monitorTick_outcomes dial ss Hready)
    as (outsR & outsS & Ht & HR & HS & Hready').
  pose proof Hready as ([HlenR _] & HlR & _).
  pose proof Hready' as (_ & HlR' & _). simpl in HlR'.
  assert (Hlen' : length (outsR.*1) = length (ReplicaXs ss)).
  { rewrite length_fmap. by destruct HR as [-> _]. }
  destruct (ReplicaXs ss !! i) as [r|] eqn:Hi; last first.
  { apply lookup_ge_None in Hi. apply lookup_lt_Some in Hdsn. lia. }
  assert (exists w, r = Some w) as [w0 ->].
  { unfold slotsLoaded in HlR. rewrite Forall_lookup in HlR.
    specialize (HlR _ _ Hi). destruct r; [by eexists|done]. }
  assert (Hsome : someOnline (outsR.*1)).
  { destruct (Online w0) eqn:Hw0.
    - exists i, w0. split; [|done]. by eapply slotOutcomes_online.
    - exists i, (newSqlxDBWrapper h). split; [|done].
      by eapply slotOutcomes_reconnected. }
  destruct (GetReplica_someOnline (set_slots (outsR.*1) (outsS.*1) ss))
    as (k & w & Hk & Hon & Hg); try done.
  { simpl. by rewrite Hlen'. }
  eexists _, _, k, w. split; [exact Ht|]. split; [exact Hg|]. split; [exact Hon|].
  intros Hoff. rewrite (GetReplica_unrouted _ Hn).
  assert (Hne : ReplicaXs ss <> []) by (intros E; by rewrite E in Hi).
  destruct Hc as [Hc0 Hc1]. by rewrite probe_allOffline.
Qed.

Lemma tick_then_GetReplica_recovers_witness :
  exists ss' evs k w,
    monitorTick Sample.allAnswer Sample.threeReplicas = Go.Ok (ss', evs) /\
    GetReplica ss' = Go.Ok (Some w, set_rrCounter (0 + k) ss') /\
    onlineAt (ReplicaXs ss') (0 + k) w.
Proof.
  assert (Hready : storeReady Sample.threeReplicas).
  { split; [split; reflexivity|]. split; repeat constructor; discriminate. }
  assert (Hn : ~ routedToMaster Sample.threeReplicas).
  { intros [H|[H|H]]; discriminate H. }
  assert (Hc : counterInRange (rrCounter Sample.threeReplicas)
                 (length (ReplicaXs Sample.threeReplicas))).
  { split; simpl; lia. }
  destruct (tick_then_GetReplica_recovers Sample.allAnswer Sample.threeReplicas
              0%nat "r0" 5%nat Hready Hn Hc eq_refl eq_refl)
    as (ss' & evs & k & w & H1 & H2 & H3 & _).
  exists ss', evs, k, w. exact (conj H1 (conj H2 H3)).
Defined.

(** ** More on start-up *)

Lemma initConnection_master_answers dial ss h :
  dial "master" (DataSource (settings ss)) DBPingAttempts = inr h ->
  exists ss' evs, initConnection dial ss = (None, ss', evs).
Proof.
  intros Hd. unfold initConnection. rewrite Hd.
  destruct (match DataSourceReplicas _ with [] => _ | _ => _ end) as [read ev1].
  destruct (match DataSourceSearchReplicas _ with [] => _ | _ => _ end) as [search ev2].
  destruct (match ReplicaLagSettings _ with [] => _ | _ => _ end) as [lag ev3].
  by do 2 eexists.
Qed.

Lemma tickerInterval_seconds st :
  - 9223372036 <= ReplicaMonitorIntervalSeconds st <= 9223372036 ->
  tickerInterval st = ReplicaMonitorIntervalSeconds st * Second.
Proof.
  intros H. unfold tickerInterval, Second. apply wrap64_small. lia.
Qed.

(** X13. [New], up to the version gate, with options that leave the
    license, the settings and the pools alone, and with the monitor it
    starts running beside it. If the monitor has not been scheduled yet, or
    its ticker interval is positive, [New] does not panic, whatever ticks
    the monitor gets through meanwhile, and returns either a store or an
    error, never neither. Under every schedule it returns a store only if
    the driver is Postgres and the master, asked for [server_version_num],
    reported a string that parses to an integer of at least 130000. If the
    interval is not positive and [New] has come as far as starting the
    monitor, the goroutine panics in [time.NewTicker] as soon as it runs,
    which ends the process whatever the database reports. As a duration the
    interval has the sign of the setting for up to 9223372036 seconds
    either way; 9223372037 seconds wrap around to a negative duration. *)
Theorem NewVersionGate_outcome (dial : dialer) (get : getQuery) (st : SqlSettings)
    (hasMetrics : bool) (options : list Option) :
  Forall keepsLicense options -> Forall keepsPools options ->
  (forall sched, sched = NotScheduled \/ 0 < tickerInterval st ->
     (exists store,
        NewVersionGate dial get st hasMetrics options sched = Go.Ok (Some store, None)) \/
     (exists err,
        NewVersionGate dial get st hasMetrics options sched = Go.Ok (None, Some err))) /\
  (forall sched store,
     NewVersionGate dial get st hasMetrics options sched = Go.Ok (Some store, None) ->
     DriverName (settings store) = DatabaseDriverPostgres /\
     license store = None /\
     exists h ver v,
       dial "master" (DataSource st) DBPingAttempts = inr h /\
       masterX store = Some (newSqlxDBWrapper h) /\
       get (newSqlxDBWrapper h) "SHOW server_version_num" = inr ver /\
       Atoi ver = inr v /\ 130000 <= v) /\
  (tickerInterval st <= 0 ->
   forall before after store h,
     applyOptions options (emptyStore st hasMetrics) = inr store ->
     dial "master" (DataSource st) DBPingAttempts = inr h ->
     NewVersionGate dial get st hasMetrics options (Running before after)
     = Go.Panic "non-positive interval for NewTicker") /\
  (- 9223372036 <= ReplicaMonitorIntervalSeconds st <= 9223372036 ->
   tickerInterval st = ReplicaMonitorIntervalSeconds st * Second) /\
  (ReplicaMonitorIntervalSeconds st = 9223372037 -> tickerInterval st < 0).
Proof.
  intros Hopts Hpools.
  split; [|split; [|split; [|split]]].
  - intros sched Hsched.
    destruct (applyOptions options (emptyStore st hasMetrics)) as [err|store0] eqn:Happ.
    { right. exists err. unfold NewVersionGate. by rewrite Happ. }
    destruct (initConnection dial store0) as [[[err|] ss] evs] eqn:Hinit.
    { right. eexists. unfold NewVersionGate. by rewrite Happ, Hinit. }
    destruct (applyOptions_pools _ _ _ Hpools Happ) as (Hst & HR & HS).
    destruct (initConnection_ready _ _ _ _ HR HS Hinit) as (Hready & _).
    destruct (initConnection_ok _ _ _ _ Hinit) as (_ & Hs & _ & _ & h & Hd & _).
    destruct (monitor_survives sched ss Hready) as (ss1 & ss2 & H1 & H2 & _ & _).
    { destruct Hsched as [|Hpos]; [by left|right]. by rewrite Hs, Hst. }
    rewrite (NewVersionGate_connected _ get _ _ _ sched _ _ _ _ Hopts Happ Hinit Hd).
    rewrite H1. simpl. rewrite H2.
    destruct (String.eqb _ _); simpl; [|right; by eexists].
    destruct (get _ _) as [err|ver]; [right; by eexists|].
    unfold ensureMinimumDBVersion.
    destruct (String.eqb _ _); [|left; by eexists].
    destruct (Atoi ver) as [err|v]; [right; by eexists|].
    destruct (v <? _); [right; by eexists|left; by eexists].
  - intros sched store Hres.
    destruct (applyOptions options (emptyStore st hasMetrics)) as [err|store0] eqn:Happ.
    { unfold NewVersionGate in Hres. by rewrite Happ in Hres. }
    destruct (initConnection dial store0) as [[[err|] ss] evs] eqn:Hinit.
    { unfold NewVersionGate in Hres. by rewrite Happ, Hinit in Hres. }
    destruct (applyOptions_pools _ _ _ Hpools Happ) as (Hst & _).
    destruct (initConnection_ok _ _ _ _ Hinit) as (Hl & Hs & _ & _ & h & Hd & Hm).
    rewrite (applyOptions_license _ _ _ Hopts Happ) in Hl. simpl in Hl.
    rewrite (NewVersionGate_connected _ get _ _ _ sched _ _ _ _ Hopts Happ Hinit Hd)
      in Hres.
    destruct (monitorStarts sched ss) as [ss1|msg] eqn:H1; simpl in Hres; [|done].
    destruct (String.eqb_spec (DriverName (settings store0)) DatabaseDriverPostgres)
      as [Hdrv|Hdrv]; last first.
    { by destruct (monitorGoesOn sched ss1). }
    destruct (monitorGoesOn sched ss1) as [ss2|msg] eqn:H2; simpl in Hres; [|done].
    destruct (get (newSqlxDBWrapper h) "SHOW server_version_num") as [err|ver] eqn:Hget;
      [done|].
    unfold ensureMinimumDBVersion in Hres. rewrite Hs, Hdrv in Hres. simpl in Hres.
    destruct (Atoi ver) as [err|v] eqn:Hv; [done|].
    unfold minimumRequiredPostgresVersion in Hres.
    destruct (v <? 130000) eqn:Hlt; [done|].
    inversion Hres; subst store.
    apply monitorStarts_frame in H1. apply monitorGoesOn_frame in H2.
    rewrite H2, H1. simpl. rewrite Hs. split; [done|]. split; [done|].
    simpl in Hst. rewrite Hst in Hd.
    exists h, ver, v. repeat split; try done. lia.
  - intros Hneg before after store h Happ Hd.
    destruct (applyOptions_pools _ _ _ Hpools Happ) as (Hst & _). simpl in Hst.
    rewrite <- Hst in Hd.
    destruct (initConnection_master_answers dial store h Hd) as (ss & evs & Hinit).
    destruct (initConnection_ok _ _ _ _ Hinit) as (_ & Hs & _).
    rewrite (NewVersionGate_connected _ get _ _ _ _ _ _ _ _ Hopts Happ Hinit Hd).
    simpl. unfold NewTicker. rewrite Hs, Hst.
    destruct (tickerInterval st <=? 0) eqn:E; [done|lia].
  - apply tickerInterval_seconds.
  - intros H. unfold tickerInterval. rewrite H. by vm_compute.
Qed.

(** X13 on a start-up with both options of store.go, where only the master
    answers at first, the monitor ticks before and after the version query,
    and the master reports version 15.4: [New] goes on with a store. *)
Lemma NewVersionGate_outcome_witness :
  exists store,
    NewVersionGate Sample.onlyMaster (fun w q => inr "150004")
      (Sample.cfg ["r0"] [] []) true [SkipMigrations; DisableMorphLogging]
      (Running [Sample.allAnswer] [Sample.onlyMaster])
    = Go.Ok (Some store, None).
Proof.
  assert (H : Forall keepsLicense [SkipMigrations; DisableMorphLogging]).
  { repeat constructor; intros s; reflexivity. }
  assert (Hp : Forall keepsPools [SkipMigrations; DisableMorphLogging]).
  { repeat constructor; intros s; reflexivity. }
  assert (Hi : Running [Sample.allAnswer] [Sample.onlyMaster] = NotScheduled \/
               0 < tickerInterval (Sample.cfg ["r0"] [] [])).
  { right. vm_compute. reflexivity. }
  destruct (proj1 (NewVersionGate_outcome Sample.onlyMaster (fun w q => inr "150004")
                     (Sample.cfg ["r0"] [] []) true
                     [SkipMigrations; DisableMorphLogging] H Hp)
              (Running [Sample.allAnswer] [Sample.onlyMaster]) Hi) as [Hs|[err He]].
  - exact Hs.
  - vm_compute in He. discriminate He.
Defined.

(** ** More on shutdown *)







(** ** Local schema version *)

Lemma maxMigrationVersion_spec submatch names : forall m v,
  maxMigrationVersion submatch m names = (v, None) ->
  m <= v /\
  (forall name, name ∈ names ->
     exists ver, Atoi (nth 1 (submatch name) "") = inr ver /\ ver <= v) /\
  (v = m \/ exists name, name ∈ names /\ Atoi (nth 1 (submatch name) "") = inr v).
Proof.
  induction names as [|name rest IH]; intros m v; simpl.
  { intros [= <-]. split; [lia|]. split; [|by left].
    intros name Hin. by apply elem_of_nil in Hin. }
  destruct (length (submatch name) <? 2)%nat; [done|].
  destruct (Atoi (nth 1 (submatch name) "")) as [err|version] eqn:Hv; [done|].
  intros H. apply IH in H as (Hle & Hall & Hex).
  assert (Hmax : m <= (if m <? version then version else m)
                 /\ version <= (if m <? version then version else m)).
  { destruct (m <? version) eqn:E; lia. }
  split; [lia|]. split.
  - intros name' Hin. apply elem_of_cons in Hin as [->|Hin].
    + exists version. split; [done|lia].
    + by apply Hall.
  - destruct Hex as [->|(name' & Hin & Hn)].
    + destruct (m <? version) eqn:E; [|by left].
      right. exists name. split; [by left|done].
    + right. exists name'. split; [by right|done].
Qed.

Lemma maxMigrationVersion_error submatch names : forall m v err,
  maxMigrationVersion submatch m names = (v, Some err) -> v = 0.
Proof.
  induction names as [|name rest IH]; intros m v err; simpl; [done|].
  destruct (length (submatch name) <? 2)%nat; [by intros [= <- _]|].
  destruct (Atoi (nth 1 (submatch name) "")); [by intros [= <- _]|].
  apply IH.
Qed.

(** X15. [GetLocalSchemaVersion] returns, when it succeeds, the largest
    version among the migration files and 0: the result is not negative, no
    file has a larger version, and it is 0 or the version of some file. When
    the directory cannot be read, or a name does not match or its version
    does not parse, it returns 0 with the error. *)
Theorem GetLocalSchemaVersion_max (submatch : string -> list string)
    (readDir : error + list string) :
  (forall names v, readDir = inr names ->
     GetLocalSchemaVersion submatch readDir = (v, None) ->
     0 <= v /\
     (forall name, name ∈ names ->
        exists ver, Atoi (nth 1 (submatch name) "") = inr ver /\ ver <= v) /\
     (v = 0 \/ exists name, name ∈ names /\ Atoi (nth 1 (submatch name) "") = inr v)) /\
  (forall v err, GetLocalSchemaVersion submatch readDir = (v, Some err) -> v = 0) /\
  (forall err, readDir = inl err ->
     GetLocalSchemaVersion submatch readDir = (0, Some err)).
Proof.
  split; [|split].
  - intros names v -> H. simpl in H. by apply maxMigrationVersion_spec in H.
  - intros v err. destruct readDir as [e|names]; simpl.
    + by intros [= <- _].
    + apply maxMigrationVersion_error.
  - by intros err ->.
Qed.

Lemma GetLocalSchemaVersion_max_witness :
  0 <= 120 /\
  (forall name, name ∈ ["000054"; "000120"; "000007"] ->
     exists ver, Atoi (nth 1 ["" ; name] "") = inr ver /\ ver <= 120) /\
  (120 = 0 \/ exists name, name ∈ ["000054"; "000120"; "000007"] /\
                           Atoi (nth 1 [""; name] "") = inr 120).
Proof.
  apply (proj1 (GetLocalSchemaVersion_max (fun name => [""; name])
                  (inr ["000054"; "000120"; "000007"]))
           ["000054"; "000120"; "000007"] 120 eq_refl).
  vm_compute. reflexivity.
Defined.

(** ** Full-text column lists *)

Lemma Join_cons name n2 rest sep :
  Join (name :: n2 :: rest) sep = name ++ sep ++ Join (n2 :: rest) sep.
Proof. reflexivity. Qed.

Lemma concatColumns_join columns : forall n i acc,
  n = (i + length columns)%nat ->
  concatColumns n i acc columns = acc ++ Join columns " || ' ' || ".
Proof.
  induction columns as [|c rest IH]; intros n i acc Hn.
  { simpl. by rewrite append_nil_r. }
  simpl concatColumns. destruct rest as [|c2 rest].
  - simpl in Hn. assert ((i <? n - 1)%nat = false) as -> by (apply Nat.ltb_ge; lia).
    done.
  - simpl in Hn. assert ((i <? n - 1)%nat = true) as -> by (apply Nat.ltb_lt; lia).
    rewrite IH by (simpl; lia). rewrite Join_cons. by rewrite !append_assoc.
Qed.

Lemma dropChars_append p : forall post, dropChars (String.length p) (p ++ post) = post.
Proof. induction p as [|a p IH]; intros post; simpl; [done|]. apply IH. Qed.

Lemma isPrefix_drop sep s :
  isPrefix sep s = true -> s = sep ++ dropChars (String.length sep) s.
Proof.
  intros H. apply isPrefix_spec in H as (post & ->). by rewrite dropChars_append.
Qed.

Lemma cutAt_sound sep : forall s before after,
  cutAt sep s = Some (before, after) -> s = before ++ sep ++ after.
Proof.
  induction s as [|a s IH]; intros before after; simpl.
  - destruct (isPrefix sep "") eqn:Hp; [|done].
    intros [= <- <-]. by apply isPrefix_drop.
  - destruct (isPrefix sep (String a s)) eqn:Hp.
    + intros [= <- <-]. by apply isPrefix_drop.
    + destruct (cutAt sep s) as [[b r]|]; [|done].
      intros [= <- <-]. by rewrite (IH b r eq_refl) at 1.
Qed.

Lemma splitLoop_join sep fuel : forall s, Join (splitLoop fuel sep s) sep = s.
Proof.
  induction fuel as [|fuel IH]; intros s; simpl; [done|].
  destruct (cutAt sep s) as [[before after]|] eqn:Hc; [|done].
  apply cutAt_sound in Hc. specialize (IH after).
  destruct (splitLoop fuel sep after) as [|p ps] eqn:Hs.
  { destruct fuel; simpl in Hs; [done|]. by destruct (cutAt sep after) as [[? ?]|]. }
  rewrite Join_cons, IH. done.
Qed.

Lemma cutAt_cons sep a s :
  cutAt sep (String a s)
  = if isPrefix sep (String a s)
    then Some ("", dropChars (String.length sep) (String a s))
    else match cutAt sep s with
         | Some (before, after) => Some (String a before, after)
         | None => None
         end.
Proof. reflexivity. Qed.

Lemma isPrefix_comma_other a s :
  negb (Ascii.eqb a ",") = true -> isPrefix ", " (String a s) = false.
Proof.
  intros Ha. change (isPrefix ", " (String a s))
    with (if Ascii.eqb "," a then isPrefix " " s else false).
  rewrite Ascii.eqb_sym. by destruct (Ascii.eqb a ",").
Qed.

Lemma cutAt_commaFree_none name : commaFree name = true -> cutAt ", " name = None.
Proof.
  induction name as [|a name IH]; [done|].
  intros H. apply andb_true_iff in H as [Ha Hn].
  by rewrite cutAt_cons, (isPrefix_comma_other _ _ Ha), (IH Hn).
Qed.

Lemma cutAt_commaFree_sep name rest :
  commaFree name = true -> cutAt ", " (name ++ ", " ++ rest) = Some (name, rest).
Proof.
  induction name as [|a name IH]; [done|].
  intros H. apply andb_true_iff in H as [Ha Hn].
  by rewrite append_cons, cutAt_cons, (isPrefix_comma_other _ _ Ha), (IH Hn).
Qed.

Lemma length_append s t :
  String.length (s ++ t) = (String.length s + String.length t)%nat.
Proof. induction s as [|a s IH]; simpl; [done|]. by rewrite IH. Qed.

Lemma Join_length names sep :
  (1 <= String.length sep)%nat ->
  (length names <= 1 + String.length (Join names sep))%nat.
Proof.
  intros Hsep. induction names as [|name rest IH]; [simpl; lia|].
  destruct rest as [|n2 rest]; [simpl; lia|].
  rewrite Join_cons, !length_append.
  change (length (name :: n2 :: rest)) with (S (length (n2 :: rest))). lia.
Qed.

Lemma splitLoop_commaFree names : forall fuel,
  Forall (fun name => commaFree name = true) names -> names <> [] ->
  (length names <= 1 + fuel)%nat ->
  splitLoop fuel ", " (Join names ", ") = names.
Proof.
  induction names as [|name [|n2 rest] IH]; intros fuel Hall Hne Hlen; [done| |].
  - apply Forall_cons in Hall as [Hn _]. simpl Join.
    destruct fuel; simpl; [done|]. by rewrite cutAt_commaFree_none.
  - apply Forall_cons in Hall as [Hn Hall]. rewrite Join_cons.
    destruct fuel; [simpl in Hlen; lia|]. simpl splitLoop.
    rewrite cutAt_commaFree_sep by done. f_equal.
    apply IH; [done|done|simpl in *; lia].
Qed.

(** X16. [convertMySQLFullTextColumnsToPostgres] cuts the column list at
    every comma followed by a space and joins the pieces with the
    concatenation operator: cutting loses nothing (joining the pieces with
    the old separator gives the input back), and a list of one or more
    names without commas, written with comma and space between them, comes
    out as the same names with the operator between them; a single name,
    the empty one included, is returned unchanged. *)
Theorem convertMySQLFullTextColumnsToPostgres_joins :
  (forall columnNames,
     Join (Split columnNames ", ") ", " = columnNames /\
     convertMySQLFullTextColumnsToPostgres columnNames
     = Join (Split columnNames ", ") " || ' ' || ") /\
  (forall names,
     Forall (fun name => commaFree name = true) names -> names <> [] ->
     convertMySQLFullTextColumnsToPostgres (Join names ", ")
     = Join names " || ' ' || ") /\
  (forall name, commaFree name = true ->
     convertMySQLFullTextColumnsToPostgres name = name).
Proof.
  assert (Hconv : forall columnNames,
     convertMySQLFullTextColumnsToPostgres columnNames
     = Join (Split columnNames ", ") " || ' ' || ").
  { intros c. unfold convertMySQLFullTextColumnsToPostgres.
    by rewrite concatColumns_join. }
  assert (Hnames : forall names,
     Forall (fun name => commaFree name = true) names -> names <> [] ->
     Split (Join names ", ") ", " = names).
  { intros names Hall Hne. unfold Split. apply splitLoop_commaFree; [done|done|].
    pose proof (Join_length names ", " ltac:(simpl; lia)). lia. }
  assert (Hjoin : forall names,
     Forall (fun name => commaFree name = true) names -> names <> [] ->
     convertMySQLFullTextColumnsToPostgres (Join names ", ")
     = Join names " || ' ' || ").
  { intros names Hall Hne. by rewrite Hconv, Hnames. }
  split; [|split].
  - intros c. split; [apply splitLoop_join|apply Hconv].
  - exact Hjoin.
  - intros name Hn. apply (Hjoin [name]); [by constructor|done].
Qed.

Lemma convertMySQLFullTextColumnsToPostgres_joins_witness :
  convertMySQLFullTextColumnsToPostgres "Name, Header, Purpose"
  = "Name || ' ' || Header || ' ' || Purpose".
Proof.
  apply (proj1 (proj2 convertMySQLFullTextColumnsToPostgres_joins)
           ["Name"; "Header"; "Purpose"]).
  - repeat constructor.
  - discriminate.
Defined.

(** ** What shutdown closes *)

Lemma closePool_closings mk slots :
  slotsLoaded slots -> closePool mk slots = Go.Ok (closingsOf mk slots).
Proof.
  unfold closingsOf. induction 1 as [|p rest Hp _ IH]; simpl; [done|].
  destruct p as [w|]; [|done]. simpl. rewrite IH. simpl. by destruct (Online w).
Qed.

Lemma closeHandles_closings ss :
  slotsLoaded (ReplicaXs ss) -> slotsLoaded (searchReplicaXs ss) ->
  closeHandles ss = Go.Ok (handleClosings ss).
Proof.
  intros HR HS. unfold closeHandles, handleClosings.
  by rewrite !closePool_closings.
Qed.

Lemma monitor_events_no_close evs :
  Forall (fun e => isMonitorEvent e = true) evs ->
  Forall (fun e => isHandleClose e = false) evs.
Proof. intros H. eapply Forall_impl; [exact H|]. by intros []. Qed.

Lemma closedInv_step s s' : closedInv s -> step s s' -> closedInv s'.
Proof.
  intros (Hready & Hinv & Htr) Hstep.
  pose proof (shutdownInv_step _ _ Hinv Hstep) as Hinv'.
  pose proof Hinv as (_ & _ & _ & _ & Hm).
  unfold closedInv.
  inversion Hstep as [s0 Hmon|s0 dial ss' evs Hmon Htick|s0 Hmon Hquit
                     |s0 w Hc Hmaster|s0 Hc Hquit|s0 Hc Hw|s0 evs Hc Hclose];
    subst; simpl in *.
  - split; [done|]. split; [done|].
    destruct (closer s); exact Htr.
  - destruct (monitorTick_outcomes dial (store s) Hready)
      as (outsR & outsS & Ht & _ & _ & Hready').
    rewrite Ht in Htick. inversion Htick; subst.
    split; [done|]. split; [done|].
    pose proof (monitorTick_monitor_events _ _ _ _ Ht) as Hev.
    apply monitor_events_no_close in Hev.
    destruct (closer s); try (apply Forall_app; split; [exact Htr|exact Hev]).
    rewrite Hmon in Hm. discriminate Hm.
  - split; [done|]. split; [done|].
    destruct (closer s);
      try (apply Forall_app; split; [exact Htr|by repeat constructor]).
    rewrite Hmon in Hm. discriminate Hm.
  - split; [done|]. split; [done|]. rewrite Hc in Htr.
    apply Forall_app. split; [done|by repeat constructor].
  - split; [done|]. split; [done|]. rewrite Hc in Htr.
    apply Forall_app. split; [done|by repeat constructor].
  - split; [done|]. split; [done|]. by rewrite Hc in Htr.
  - split; [done|]. split; [done|]. rewrite Hc in Htr. exists (trace s).
    destruct Hready as (_ & HlR & HlS).
    rewrite (closeHandles_closings _ HlR HlS) in Hclose. inversion Hclose; subst. done.
Qed.

Lemma reachable_closedInv ss s : storeReady ss -> reachable ss s -> closedInv s.
Proof.
  intros Hready. unfold reachable. revert s. apply rtc_ind_r.
  - split; [done|]. split; [apply shutdownInv_started|]. simpl. constructor.
  - intros y z _ Hstep IH. by eapply closedInv_step.
Qed.

(** X17. What [Close] closes. When [Close] has returned, in whatever way it
    was interleaved with the monitor, the closings of handles in the trace
    are exactly those owed to the store as it is then: one for every read
    and search slot that is online, including those the monitor
    reconnected while [Close] was on its way, none for an offline
    placeholder, and one for every lag handle; before them no handle was
    closed. *)
Theorem Close_closes_what_is_online (ss : SqlStore) (s : system) :
  storeReady ss -> reachable ss s -> closer s = Closed ->
  exists pre,
    trace s = (pre ++ handleClosings (store s))%list /\
    Forall (fun e => isHandleClose e = false) pre /\
    closeHandles (store s) = Go.Ok (handleClosings (store s)).
Proof.
  intros Hready Hreach Hc.
  destruct (reachable_closedInv ss s Hready Hreach) as ((_ & HlR & HlS) & _ & Htr).
  rewrite Hc in Htr. destruct Htr as (pre & Htr & Hpre).
  exists pre. split; [done|]. split; [done|]. by apply closeHandles_closings.
Qed.

Lemma threeReplicas_closed :
  reachable Sample.threeReplicas
    {| store := Sample.threeReplicas; quitClosed := true; wgMonitor := 0;
       closer := Closed; monitor := Returned;
       trace := [CloseMaster (Some 0%nat); CloseQuitMonitor; MonitorDone;
                 CloseReplica (Some 2%nat)] |}.
Proof.
  unfold reachable.
  eapply rtc_l;
    [exact (step_close_master (started Sample.threeReplicas) Sample.master
              eq_refl eq_refl)|].
  eapply rtc_l; [apply step_close_quit; reflexivity|].
  eapply rtc_l; [apply step_quit; reflexivity|].
  eapply rtc_l; [apply step_wait; reflexivity|].
  eapply rtc_l; [apply (step_close_handles _ [CloseReplica (Some 2%nat)]);
                 reflexivity|].
  apply rtc_refl.
Qed.

Lemma Close_closes_what_is_online_witness :
  exists pre,
    [CloseMaster (Some 0%nat); CloseQuitMonitor; MonitorDone; CloseReplica (Some 2%nat)]
    = (pre ++ handleClosings Sample.threeReplicas)%list /\
    Forall (fun e => isHandleClose e = false) pre /\
    closeHandles Sample.threeReplicas = Go.Ok (handleClosings Sample.threeReplicas).
Proof.
  apply (Close_closes_what_is_online Sample.threeReplicas
           {| store := Sample.threeReplicas; quitClosed := true; wgMonitor := 0;
              closer := Closed; monitor := Returned;
              trace := [CloseMaster (Some 0%nat); CloseQuitMonitor; MonitorDone;
                        CloseReplica (Some 2%nat)] |}).
  - split; [split; reflexivity|]. split; repeat constructor; discriminate.
  - exact threeReplicas_closed.
  - reflexivity.
Defined.

(** ** What a tick costs *)

Lemma attemptsOf_app evs1 evs2 :
  attemptsOf (evs1 ++ evs2)%list = (attemptsOf evs1 ++ attemptsOf evs2)%list.
Proof. apply List.filter_app. Qed.

Lemma setupReplica_attempts dial hasMetrics r dsn name p evs :
  setupReplica dial hasMetrics r dsn name = Go.Ok (p, evs) ->
  attemptsOf evs = (if onlinePtr r then [] else [SetupConnection name dsn 1]).
Proof.
  unfold setupReplica, setDB. destruct r as [w|]; simpl; [|done].
  destruct (Online w); [by intros [= <- <-]|].
  destruct (dial name dsn 1) as [err|h].
  - by intros [= <- <-].
  - intros [= <- <-]. destruct hasMetrics, w as [[db|] on]; done.
Qed.

Lemma tickPool_attempts dial hasMetrics prefix dsns : forall slots i ps evs,
  tickPool dial hasMetrics prefix dsns i slots = Go.Ok (ps, evs) ->
  length (attemptsOf evs) = length (offlineSlots slots) /\
  Forall (fun e => exists name dsn, e = SetupConnection name dsn 1) (attemptsOf evs).
Proof.
  induction slots as [|r rest IH]; intros i ps evs; simpl.
  { intros [= <- <-]. by split. }
  destruct (Go.index dsns _) as [dsn|]; simpl; [|done].
  destruct (setupReplica _ _ _ _ _) as [[p1 evs1]|] eqn:Hs; simpl; [|done].
  destruct (tickPool _ _ _ _ _ rest) as [[ps2 evs2]|] eqn:Ht; simpl; [|done].
  intros [= <- <-]. apply setupReplica_attempts in Hs.
  destruct (IH _ _ _ Ht) as [Hlen Hall].
  rewrite attemptsOf_app, Hs. unfold offlineSlots in *. simpl.
  destruct (onlinePtr r); simpl.
  - by split.
  - split; [by rewrite Hlen|]. constructor; [by eexists _, _|done].
Qed.

Lemma tickPool_allOnline dial hasMetrics prefix dsns : forall slots i,
  allOnline slots -> (i + length slots <= length dsns)%nat ->
  tickPool dial hasMetrics prefix dsns i slots = Go.Ok (slots, []).
Proof.
  induction slots as [|r rest IH]; intros i Hall Hlen; [done|].
  apply Forall_cons in Hall as [(w & -> & Hw) Hall]. simpl in Hlen.
  destruct (dsns !! i) as [dsn|] eqn:Hd; last first.
  { apply lookup_ge_None in Hd. lia. }
  simpl tickPool. rewrite (index_lookup _ _ _ Hd). simpl Go.bind.
  unfold setupReplica. simpl. rewrite Hw. simpl.
  by rewrite IH by (done || lia).
Qed.

(** X18. What a tick costs. A tick makes one connection attempt for every
    offline read or search slot and none for an online one, each with a
    single ping; on a store whose slots are all online it does nothing: no
    attempt is made, no event is produced and the store is returned as it
    was. *)
Theorem monitorTick_attempts (dial : dialer) (ss : SqlStore) :
  (forall ss' evs, monitorTick dial ss = Go.Ok (ss', evs) ->
     length (attemptsOf evs)
     = (length (offlineSlots (ReplicaXs ss))
        + length (offlineSlots (searchReplicaXs ss)))%nat /\
     Forall (fun e => exists name dsn, e = SetupConnection name dsn 1) (attemptsOf evs)) /\
  (poolsMatchSettings ss -> allOnline (ReplicaXs ss) -> allOnline (searchReplicaXs ss) ->
   monitorTick dial ss = Go.Ok (ss, [])).
Proof.
  split.
  - intros ss' evs. unfold monitorTick.
    destruct (tickPool _ _ _ _ _ (ReplicaXs ss)) as [[ps1 evs1]|] eqn:H1; simpl; [|done].
    destruct (tickPool _ _ _ _ _ (searchReplicaXs ss)) as [[ps2 evs2]|] eqn:H2;
      simpl; [|done].
    intros [= <- <-].
    destruct (tickPool_attempts _ _ _ _ _ _ _ _ H1) as [L1 A1].
    destruct (tickPool_attempts _ _ _ _ _ _ _ _ H2) as [L2 A2].
    rewrite attemptsOf_app, length_app, L1, L2. split; [done|]. by apply Forall_app.
  - intros [HlenR HlenS] HR HS. unfold monitorTick.
    rewrite !tickPool_allOnline by (done || simpl; lia). simpl.
    by rewrite set_slots_same.
Qed.

Lemma monitorTick_attempts_witness :
  monitorTick Sample.onlyMaster Sample.threeOnline = Go.Ok (Sample.threeOnline, []).
Proof.
  apply (proj2 (monitorTick_attempts Sample.onlyMaster Sample.threeOnline)).
  - split; reflexivity.
  - repeat constructor; eexists; split; reflexivity.
  - constructor.
Defined.

(** ** The version query after start-up *)

(** X19. [GetDbVersion] for a driver other than Postgres fails with
    "Not supported driver" without asking any handle and without touching
    the store. With the Postgres driver, once a license is installed and the
    store is not locked, the query goes through [GetReplica]: with an online
    read replica it is that replica, not the master, that is asked, with
    [SHOW server_version_num] or [SHOW server_version] as [numerical] says,
    and its answer, error or version, is passed on unchanged. *)
Theorem GetDbVersion_asks_replica (get : getQuery) (numerical : bool) (ss : SqlStore) :
  (DriverName (settings ss) <> DatabaseDriverPostgres ->
   GetDbVersion get numerical ss = Go.Ok (inl (ErrorString "Not supported driver"), ss)) /\
  (DriverName (settings ss) = DatabaseDriverPostgres ->
   ~ routedToMaster ss -> slotsLoaded (ReplicaXs ss) -> someOnline (ReplicaXs ss) ->
   counterInRange (rrCounter ss) (length (ReplicaXs ss)) ->
   exists k w,
     onlineAt (ReplicaXs ss) (rrCounter ss + k) w /\
     GetDbVersion get numerical ss
     = Go.Ok (get w (if numerical then "SHOW server_version_num"
                     else "SHOW server_version"),
              set_rrCounter (rrCounter ss + k) ss)).
Proof.
  split.
  - intros Hd. unfold GetDbVersion.
    destruct (String.eqb_spec (DriverName (settings ss)) DatabaseDriverPostgres); done.
  - intros Hd Hn Hl Hs Hc.
    destruct (GetReplica_someOnline ss Hn Hl Hs Hc) as (k & w & _ & Hon & Hg).
    exists k, w. split; [done|]. unfold GetDbVersion.
    apply String.eqb_eq in Hd. rewrite Hd, Hg. simpl. by destruct (get w _).
Qed.

Lemma GetDbVersion_asks_replica_witness :
  exists k w,
    onlineAt (ReplicaXs Sample.threeReplicas) (0 + k) w /\
    GetDbVersion (fun w q => inr "150004") true Sample.threeReplicas
    = Go.Ok (inr "150004", set_rrCounter (0 + k) Sample.threeReplicas).
Proof.
  apply (proj2 (GetDbVersion_asks_replica (fun w q => inr "150004") true
                  Sample.threeReplicas)).
  - reflexivity.
  - intros [H|[H|H]]; discriminate H.
  - repeat constructor; discriminate.
  - exists 2%nat, (newSqlxDBWrapper 2%nat). split; reflexivity.
  - split; simpl; lia.
Defined.
